(** * tlm_adjoint: equations, linear solvers and the fixed point solver

    A shallow embedding of [python/tlm_adjoint/base_equations.py], of the
    inner product equations ([RHS], [InnerProductRHS], [LinearEquation]
    without a matrix, [NormSqEquation]) of
    [python_numpy/tlm_adjoint/equations.py], and of the time levels of
    [python/tlm_adjoint/timestepping.py].

    - Python floats are IEEE binary64 values ([spec_float] with precision 53
      and maximal exponent 1024), so NaN, infinities and signed zeros behave
      as they do for [numpy.float64]. The square [x ** 2] goes through the
      C library's [pow], a parameter of the development, and raises
      OverflowError where Python does.
    - Python exceptions are the [Raise] branch of the [res] monad.
    - A [Function] object is a descriptor; Python's [==] / [in] on Functions
      (object identity) is equality of descriptors, while [x.id()] is the
      field [function_id].
    - Function values live in a store indexed by Function, so that aliasing
      between the solution and the dependencies of an equation is visible.
      The Functions a fixed point solve creates for itself ([adj_X], [x_0], [r])
      are never shared with the caller and are carried as values. *)

From Stdlib Require Import ZArith SpecFloat.
From stdpp Require Import base option list functions gmap strings sorting.

Open Scope Z_scope.
Set Warnings "-register-all".

(** ** Python floats *)

Module PyFloat.

Definition prec : Z := 53.
Definition emax : Z := 1024.

Definition float : Type := spec_float.

Definition zero : float := S754_zero false.
Definition of_Z (z : Z) : float := binary_normalize prec emax z 0 false.
(** [ldexp x e] is [x * 2 ** e]. *)
Definition ldexp (x : float) (e : Z) : float := SFldexp prec emax x e.

Definition mul (x y : float) : float := SFmul prec emax x y.
Definition add (x y : float) : float := SFadd prec emax x y.
Definition neg (x : float) : float := SFopp x.
Definition ltb (x y : float) : bool := SFltb x y.
Definition eqb (x y : float) : bool := SFeqb x y.

(** [numpy.isnan] *)
Definition isnan (x : float) : bool :=
  match x with S754_nan => true | _ => false end.

(** [numpy.isfinite] *)
Definition isfinite (x : float) : bool :=
  match x with S754_nan | S754_infinity _ => false | _ => true end.

(** Python's two-argument [max(a, b)]: [b] replaces [a] only if [b > a]. *)
Definition max (a b : float) : float := if ltb a b then b else a.

Definition inf : float := S754_infinity false.
Definition nan : float := S754_nan.

(** The C library of the platform. Python's [x ** 2] on a float hands
    [pow(x, 2.0)] to it; [pow_2 x] is that call. The function is no part of
    the sources and is not correctly rounded on every platform (its result
    can differ from the product [x * x] in the last place), so it is a
    parameter of which nothing is assumed. *)
Class Libm : Type := { pow_2 : float -> float }.

End PyFloat.

Abbreviation float := PyFloat.float.

(** ** Exceptions *)

Inductive exn : Type :=
| EquationException (msg : string)
| AttributeError (msg : string)
| TypeError (msg : string)
| IndexError
| KeyError (key : string)
| ValueError (msg : string)
| OverflowError (msg : string)
| ManagerException (msg : string).

Inductive res (A : Type) : Type :=
| Ok (a : A)
| Raise (e : exn).
Arguments Ok {A} a.
Arguments Raise {A} e.

#[global] Instance res_ret : MRet res := fun A a => Ok a.
#[global] Instance res_bind : MBind res := fun A B f m =>
  match m with Ok a => f a | Raise e => Raise e end.

#[global] Instance res_fmap : FMap res := fun A B f m =>
  match m with Ok a => Ok (f a) | Raise e => Raise e end.

Definition raises_EquationException {A} (r : res A) : Prop :=
  exists msg, r = Raise (EquationException msg).

(** [x ** 2] for a Python float [x]. CPython's [float_pow] settles NaN, the
    infinities, the zeros and 1.0 itself: the square of an infinity is
    [inf], without an error. A negative finite [x] is replaced by [-x], the
    exponent being even, and the rest is left to the C library's [pow]: a
    finite [x] whose square comes back infinite is an [OverflowError]. *)
Definition float_pow2 {libm : PyFloat.Libm} (x : float) : res float :=
  match x with
  | S754_nan => Ok PyFloat.nan
  | S754_infinity _ => Ok PyFloat.inf
  | S754_zero _ => Ok PyFloat.zero
  | S754_finite _ m e =>
      let iv := S754_finite false m e in
      if PyFloat.eqb iv (PyFloat.of_Z 1) then Ok (PyFloat.of_Z 1)
      else
        match PyFloat.pow_2 iv with
        | S754_infinity _ =>
            Raise (OverflowError "(34, 'Numerical result out of range')")
        | ix => Ok ix
        end
  end.

(** [l[i]] for a non-negative index: [IndexError] out of range. *)
Definition getitem {A} (l : list A) (i : nat) : res A :=
  match l !! i with Some a => Ok a | None => Raise IndexError end.

(** [l[-1]] *)
Definition last_item {A} (l : list A) : res A :=
  match last l with Some a => Ok a | None => Raise IndexError end.

(** [[f(a) for a in l]] where [f] may raise. *)
Fixpoint for_list {A B} (f : A -> res B) (l : list A) : res (list B) :=
  match l with
  | [] => Ok []
  | a :: l' => b ← f a; bs ← for_list f l'; Ok (b :: bs)
  end.

(** ** Functions (variables) *)

Record Function : Type := mkFunction {
  function_id : nat;             (* x.id() *)
  function_is_static : bool      (* function_is_static(x) *)
}.

#[global] Instance Function_eq_dec : EqDecision Function.
Proof. solve_decision. Defined.

(** [x in deps] *)
Definition py_in (x : Function) (deps : list Function) : bool :=
  bool_decide (x ∈ deps).

(** ** Equation.__init__ *)

Record EquationBase : Type := mkEquationBase {
  _X : list Function;
  _deps : list Function;
  _nl_deps : option (list Function);
  _nl_deps_map : list nat;
  _checkpoint_ic : list bool
}.

(** [{dep.id(): i for i, dep in enumerate(deps)}], built left to right from
    index [i]. *)
Fixpoint enumerate_ids (i : nat) (deps : list Function) (d : gmap nat nat)
  : gmap nat nat :=
  match deps with
  | [] => d
  | dep :: deps' => enumerate_ids (S i) deps' (<[function_id dep := i]> d)
  end.

(** [set(map(lambda dep : dep.id(), deps))] *)
Definition id_set (deps : list Function) : gset nat :=
  list_to_set (function_id <$> deps).

(** The loop [for x in X] at the head of [Equation.__init__]. *)
Fixpoint check_solutions (X deps : list Function) : res unit :=
  match X with
  | [] => Ok tt
  | x :: X' =>
      if function_is_static x then
        Raise (EquationException "Solution cannot be static")
      else if negb (py_in x deps) then
        Raise (EquationException "Solution must be a dependency")
      else check_solutions X' deps
  end.

Definition Equation_init (X deps : list Function)
    (nl_deps : option (list Function)) : res EquationBase :=
  _ ← check_solutions X deps;
  let dep_ids := enumerate_ids 0 deps ∅ in
  if negb (size dep_ids =? length deps)%nat then
    Raise (EquationException "Duplicate dependency")
  else
    match nl_deps with
    | None =>
        Ok (mkEquationBase X deps None (seq 0 (length deps))
              ((fun _ => true) <$> X))
    | Some nl =>
        if negb (size (id_set nl) =? length nl)%nat then
          Raise (EquationException "Duplicate non-linear dependency")
        else
          nl_deps_map ← for_list (fun dep =>
            match dep_ids !! function_id dep with
            | Some i => Ok i
            | None => Raise (KeyError "dep.id()")
            end) nl;
          Ok (mkEquationBase X deps (Some nl) nl_deps_map
                ((fun x => py_in x nl) <$> X))
    end.

(** [Equation.x]: the solution, for an equation solving for one Function. *)
Definition base_x (b : EquationBase) : res Function :=
  match _X b with
  | [x] => Ok x
  | _ => Raise (EquationException
                  "Equation does not solve for exactly one Function")
  end.

Definition dependencies (b : EquationBase) : list Function := _deps b.

Definition nonlinear_dependencies (b : EquationBase) : list Function :=
  match _nl_deps b with
  | None => dependencies b
  | Some nl => nl
  end.

(** ** The backend interface *)

(** Modelled from the spec: [base_interface] (function_zero, function_assign,
    function_axpy, function_inner, function_new, function_copy, apply_bcs,
    the boundary condition homogenisation) is not among the sources. The
    spec leaves the value payload of a Variable unspecified, so a backend is
    an interface: [V] is the payload of one Function, [BC] a boundary
    condition object. [zero_like v] is the zero of the space of [v] (the
    value of a zeroed Function and of a new one, [function_new]),
    [axpy x alpha y] is [x + alpha * y], [inner] the inner product behind
    the squared 2-norm; assigning and copying hand the payload on. *)
Class Backend (V BC : Type) : Type := {
  zero_like : V -> V;
  axpy : V -> float -> V -> V;
  inner : V -> V -> float;
  bc_apply : BC -> V -> V;
  homogenize_bc : BC -> BC
}.

(** What [adjoint_derivative_action] returns: [None], a Function-shaped
    value, or a pair [(alpha, F)]. *)
Inductive ada_result (A : Type) : Type :=
| ada_None
| ada_Function (F : A)
| ada_Scaled (alpha : float) (F : A).
Arguments ada_None {A}.
Arguments ada_Function {A} F.
Arguments ada_Scaled {A} alpha F.

Section Equations.

Context {V BC : Type} `{!Backend V BC} {libm : PyFloat.Libm}.

(** The values of all live Function objects. *)
Definition store : Type := Function -> V.
#[local] Typeclasses Transparent store.

Definition function_zero (x : Function) (s : store) : store :=
  <[x := zero_like (s x)]> s.

Definition function_assign (x y : Function) (s : store) : store :=
  <[x := s y]> s.

Definition function_axpy (x : Function) (alpha : float) (y : Function)
    (s : store) : store :=
  <[x := axpy (s x) alpha (s y)]> s.

(** [for bc in bcs: bc.apply(x)] on a value. *)
Definition apply_bcs_value (v : V) (bcs : list BC) : V :=
  foldl (fun v bc => bc_apply bc v) v bcs.

Definition apply_bcs (x : Function) (bcs : list BC) (s : store) : store :=
  <[x := apply_bcs_value (s x) bcs]> s.

(** Modelled from the spec: [subtract_adjoint_derivative_action(x, sb)] of
    [base_interface] subtracts the returned contribution from the running
    adjoint right-hand side [x]; "no contribution" leaves it alone. *)
Definition subtract_adjoint_derivative_action (x : V) (sb : ada_result V) : V :=
  match sb with
  | ada_None => x
  | ada_Function F => axpy x (PyFloat.neg (PyFloat.of_Z 1)) F
  | ada_Scaled alpha F => axpy x (PyFloat.neg alpha) F
  end.

(** Python's [l[i]] for any integer [i] (negative indices count from the
    end). *)
Definition py_getitem {A} (l : list A) (i : Z) : res A :=
  let n := Z.of_nat (length l) in
  if (i <? 0) && (- n <=? i) then getitem l (Z.to_nat (n + i))
  else if i <? 0 then Raise IndexError
  else getitem l (Z.to_nat i).

(** The equations that solve for a single Function. [UserEquation] is a
    subclass of [Equation] that overrides the solve methods with code of its
    own; [BaseEquation] overrides nothing. *)
Inductive Equation : Type :=
| BaseEquation (b : EquationBase)
| NullSolver (b : EquationBase)
| AssignmentSolver (b : EquationBase) (_bcs _hbcs : list BC)
| LinearCombinationSolver (b : EquationBase) (_alpha : list float)
    (_bcs _hbcs : list BC)
| UserEquation (b : EquationBase)
    (user_forward_solve :
       Function -> option (list Function) -> store -> res store)
    (user_adjoint_derivative_action :
       list V -> Z -> V -> res (ada_result V))
    (user_adjoint_jacobian_solve : list V -> V -> res V)
    (user_tangent_linear :
       list Function -> list Function -> (Function -> option Function) ->
       res (option Equation)).

Definition eq_base (eq : Equation) : EquationBase :=
  match eq with
  | BaseEquation b | NullSolver b | AssignmentSolver b _ _
  | LinearCombinationSolver b _ _ _ | UserEquation b _ _ _ _ => b
  end.

(** [eq.x()] *)
Definition eq_x (eq : Equation) : res Function := base_x (eq_base eq).

(** *** Constructors *)

Definition NullSolver_init (x : Function) : res Equation :=
  b ← Equation_init [x] [x] (Some []);
  Ok (NullSolver b).

Definition AssignmentSolver_init (y x : Function) (bcs : list BC)
  : res Equation :=
  if bool_decide (x = y) then
    Raise (EquationException "Non-linear dependency in linear equation")
  else
    let hbcs := homogenize_bc <$> bcs in
    b ← Equation_init [x] [x; y] (Some []);
    Ok (AssignmentSolver b bcs hbcs).

Definition LinearCombinationSolver_init (x : Function)
    (args : list (float * Function)) (bcs : list BC) : res Equation :=
  let alpha := fst <$> args in
  let y := snd <$> args in
  if py_in x y then
    Raise (EquationException "Non-linear dependency in linear equation")
  else
    let hbcs := homogenize_bc <$> bcs in
    b ← Equation_init [x] (x :: y) (Some []);
    Ok (LinearCombinationSolver b alpha bcs hbcs).

Definition ScaleSolver_init (alpha : float) (y x_new : Function)
    (bcs : list BC) : res Equation :=
  LinearCombinationSolver_init x_new [(alpha, y)] bcs.

Definition AxpySolver_init (x_old : Function) (alpha : float)
    (y x_new : Function) (bcs : list BC) : res Equation :=
  LinearCombinationSolver_init x_new [(PyFloat.of_Z 1, x_old); (alpha, y)] bcs.

(** A constructor call whose solution argument [x] is [None]:
    [Equation.__init__] iterates over [X = None]. *)
Definition init_with_None_solution {A} : res A :=
  Raise (TypeError "'NoneType' object is not iterable").

(** *** forward_solve *)

Definition AssignmentSolver_forward_solve (b : EquationBase) (bcs : list BC)
    (x : Function) (deps : option (list Function)) (s : store) : res store :=
  match default (dependencies b) deps with
  | [_; y] => Ok (apply_bcs x bcs (function_assign x y s))
  | _ => Raise (ValueError "unpack")
  end.

Definition LinearCombinationSolver_forward_solve (b : EquationBase)
    (alpha : list float) (bcs : list BC)
    (x : Function) (deps : option (list Function)) (s : store) : store :=
  let deps := default (dependencies b) deps in
  let s := function_zero x s in
  let s := foldl (fun s ay => function_axpy x ay.1 ay.2 s) s
             (zip alpha (drop 1 deps)) in
  apply_bcs x bcs s.

Definition forward_solve (eq : Equation) (x : Function)
    (deps : option (list Function)) (s : store) : res store :=
  match eq with
  | BaseEquation _ => Raise (EquationException "Method not overridden")
  | NullSolver _ => Ok (function_zero x s)
  | AssignmentSolver b bcs _ => AssignmentSolver_forward_solve b bcs x deps s
  | LinearCombinationSolver b alpha bcs _ =>
      Ok (LinearCombinationSolver_forward_solve b alpha bcs x deps s)
  | UserEquation _ fwd _ _ _ => fwd x deps s
  end.

(** *** adjoint_derivative_action and adjoint_jacobian_solve

    The adjoint direction [adj_x] is only passed on by the built-in
    solvers, so their methods are written for any representation [A] of
    it. *)

Definition NullSolver_adjoint_derivative_action {A} (dep_index : Z)
    (adj_x : A) : ada_result A :=
  if dep_index =? 0 then ada_Function adj_x else ada_None.

Definition AssignmentSolver_adjoint_derivative_action {A} (dep_index : Z)
    (adj_x : A) : ada_result A :=
  if dep_index =? 0 then ada_Function adj_x
  else if dep_index =? 1 then ada_Scaled (PyFloat.neg (PyFloat.of_Z 1)) adj_x
  else ada_None.

Definition LinearCombinationSolver_adjoint_derivative_action {A}
    (alpha : list float) (dep_index : Z) (adj_x : A) : res (ada_result A) :=
  if dep_index =? 0 then Ok (ada_Function adj_x)
  else if dep_index <=? Z.of_nat (length alpha) then
    a ← py_getitem alpha (dep_index - 1);
    Ok (ada_Scaled (PyFloat.neg a) adj_x)
  else Ok ada_None.

Definition adjoint_derivative_action (eq : Equation) (nl_deps : list V)
    (dep_index : Z) (adj_x : V) : res (ada_result V) :=
  match eq with
  | BaseEquation _ => Raise (EquationException "Method not overridden")
  | NullSolver _ => Ok (NullSolver_adjoint_derivative_action dep_index adj_x)
  | AssignmentSolver _ _ _ =>
      Ok (AssignmentSolver_adjoint_derivative_action dep_index adj_x)
  | LinearCombinationSolver _ alpha _ _ =>
      LinearCombinationSolver_adjoint_derivative_action alpha dep_index adj_x
  | UserEquation _ _ ada _ _ => ada nl_deps dep_index adj_x
  end.

Definition adjoint_jacobian_solve (eq : Equation) (nl_deps : list V) (b : V)
  : res V :=
  match eq with
  | BaseEquation _ => Raise (EquationException "Method not overridden")
  | NullSolver _ => Ok b
  | AssignmentSolver _ _ hbcs => Ok (apply_bcs_value b hbcs)
  | LinearCombinationSolver _ _ _ hbcs => Ok (apply_bcs_value b hbcs)
  | UserEquation _ _ _ ajs _ => ajs nl_deps b
  end.

(** *** tangent_linear *)

(** The loop [for i, m in enumerate(M)] of [AssignmentSolver.tangent_linear]
    (and of [NormSqEquation.tangent_linear]), from index [i] on. *)
Fixpoint find_tau_y (x y : Function) (i : nat) (M dM : list Function)
    (tau_y : option Function) : res (option Function) :=
  match M with
  | [] => Ok tau_y
  | m :: M' =>
      if bool_decide (m = x) then
        Raise (EquationException "Invalid tangent-linear parameter")
      else if bool_decide (m = y) then
        dm ← getitem dM i;
        find_tau_y x y (S i) M' dM (Some dm)
      else find_tau_y x y (S i) M' dM tau_y
  end.

Definition AssignmentSolver_tangent_linear (b : EquationBase)
    (hbcs : list BC) (M dM : list Function)
    (tlm_map : Function -> option Function) : res (option Equation) :=
  match dependencies b with
  | [x; y] =>
      tau_y ← find_tau_y x y 0 M dM None;
      let tau_y := match tau_y with None => tlm_map y | Some _ => tau_y end in
      match tau_y with
      | None => Ok None
      | Some tau_y =>
          match tlm_map x with
          | Some tlm_x => Some <$> AssignmentSolver_init tau_y tlm_x hbcs
          | None => init_with_None_solution
          end
      end
  | _ => Raise (ValueError "unpack")
  end.

(** [ys.index(m)] *)
Definition index_of (ys : list Function) (m : Function) : option nat :=
  fst <$> list_find (fun y => y = m) ys.

(** The loop [for m, dm in zip(M, dM)] of
    [LinearCombinationSolver.tangent_linear]. *)
Fixpoint assign_tau_ys (x : Function) (ys : list Function)
    (MdM : list (Function * Function)) (tau_ys : list (option Function))
  : res (list (option Function)) :=
  match MdM with
  | [] => Ok tau_ys
  | (m, dm) :: MdM' =>
      if bool_decide (m = x) then
        Raise (EquationException "Invalid tangent-linear parameter")
      else
        match index_of ys m with
        | None => assign_tau_ys x ys MdM' tau_ys
        | Some i => assign_tau_ys x ys MdM' (<[i := Some dm]> tau_ys)
        end
  end.

Definition LinearCombinationSolver_tangent_linear (b : EquationBase)
    (alpha : list float) (hbcs : list BC) (M dM : list Function)
    (tlm_map : Function -> option Function) : res (option Equation) :=
  let deps := dependencies b in
  x ← getitem deps 0;
  let ys := drop 1 deps in
  tau_ys ← assign_tau_ys x ys (zip M dM) ((fun _ => None) <$> ys);
  let tau_ys :=
    zip_with (fun y tau_y =>
                match tau_y with None => tlm_map y | Some _ => tau_y end)
             ys tau_ys in
  let args :=
    omap (fun at_ => match at_.2 with
                     | Some tau_y => Some (at_.1, tau_y)
                     | None => None
                     end) (zip alpha tau_ys) in
  match args with
  | [] => Ok None
  | _ =>
      match tlm_map x with
      | Some tlm_x => Some <$> LinearCombinationSolver_init tlm_x args hbcs
      | None => init_with_None_solution
      end
  end.

Definition tangent_linear (eq : Equation) (M dM : list Function)
    (tlm_map : Function -> option Function) : res (option Equation) :=
  match eq with
  | BaseEquation _ => Raise (EquationException "Method not overridden")
  | NullSolver _ => Ok None
  | AssignmentSolver b _ hbcs =>
      AssignmentSolver_tangent_linear b hbcs M dM tlm_map
  | LinearCombinationSolver b alpha _ hbcs =>
      LinearCombinationSolver_tangent_linear b alpha hbcs M dM tlm_map
  | UserEquation _ _ _ _ tl => tl M dM tlm_map
  end.

(** ** FixedPointSolver *)

(** The [solver_parameters] dictionary; [None] is an absent key. The
    tolerances are Python floats, as in [test_FixedPointSolver]. *)
Record SolverParameters : Type := mkSolverParameters {
  absolute_tolerance : option float;
  relative_tolerance : option float;
  maximum_iterations : option Z;
  nonzero_initial_guess : option bool;
  report : option bool
}.

(** The loop filling in [maximum_iterations], [nonzero_initial_guess] and
    [report] where the key is absent. *)
Definition with_default_parameters (p : SolverParameters) : SolverParameters :=
  {| absolute_tolerance := absolute_tolerance p;
     relative_tolerance := relative_tolerance p;
     maximum_iterations := Some (default 1000 (maximum_iterations p));
     nonzero_initial_guess := Some (default true (nonzero_initial_guess p));
     report := Some (default false (report p)) |}.

(** [solver_parameters[key]] *)
Definition parameter {A} (key : string) (v : option A) : res A :=
  match v with Some a => Ok a | None => Raise (KeyError key) end.

Record FixedPointSolver : Type := mkFixedPointSolver {
  fp_base : EquationBase;
  _eqs : list Equation;
  _initial_guess_index : option nat;
  _eq_dep_indices : list (list nat);
  _eq_nl_dep_indices : list (list nat);
  _solver_parameters : SolverParameters
}.

(** The first loop of [FixedPointSolver.__init__]; a member that is [None]
    has no method [x]. *)
Fixpoint check_distinct_solves (eqs : list (option Equation))
    (x_ids : gset nat) : res (list Equation) :=
  match eqs with
  | [] => Ok []
  | None :: _ =>
      Raise (AttributeError "'NoneType' object has no attribute 'x'")
  | Some eq :: eqs' =>
      x ← eq_x eq;
      let eq_x_id := function_id x in
      if bool_decide (eq_x_id ∈ x_ids) then
        Raise (EquationException "Duplicate solve")
      else
        rest ← check_distinct_solves eqs' ({[eq_x_id]} ∪ x_ids);
        Ok (eq :: rest)
  end.

(** [for dep in ds: ...] appending unseen dependencies to [deps] and the
    index of each one to [indices]. *)
Fixpoint collect_deps (ds : list Function) (deps : list Function)
    (dep_ids : gmap nat nat) (indices : list nat)
  : list Function * gmap nat nat * list nat :=
  match ds with
  | [] => (deps, dep_ids, indices)
  | dep :: ds' =>
      let dep_id := function_id dep in
      match dep_ids !! dep_id with
      | Some j => collect_deps ds' deps dep_ids (indices ++ [j])
      | None =>
          let deps := deps ++ [dep] in
          let j := (length deps - 1)%nat in
          collect_deps ds' deps (<[dep_id := j]> dep_ids) (indices ++ [j])
      end
  end.

Record collected : Type := mkCollected {
  c_deps : list Function;
  c_dep_ids : gmap nat nat;
  c_nl_deps : list Function;
  c_nl_dep_ids : gmap nat nat;
  c_eq_dep_indices : list (list nat);
  c_eq_nl_dep_indices : list (list nat)
}.

(** [for i, eq in enumerate(eqs)] *)
Fixpoint collect_members (eqs : list Equation) (c : collected) : collected :=
  match eqs with
  | [] => c
  | eq :: eqs' =>
      let '(deps, dep_ids, idx) :=
        collect_deps (dependencies (eq_base eq)) (c_deps c) (c_dep_ids c) [] in
      let '(nl_deps, nl_dep_ids, nl_idx) :=
        collect_deps (nonlinear_dependencies (eq_base eq))
                     (c_nl_deps c) (c_nl_dep_ids c) [] in
      collect_members eqs'
        (mkCollected deps dep_ids nl_deps nl_dep_ids
           (c_eq_dep_indices c ++ [idx]) (c_eq_nl_dep_indices c ++ [nl_idx]))
  end.

Definition FixedPointSolver_init (eqs : list (option Equation))
    (solver_parameters : SolverParameters) (initial_guess : option Function)
  : res FixedPointSolver :=
  eqs ← check_distinct_solves eqs ∅;
  last_eq ← last_item eqs;
  x ← eq_x last_eq;
  let solver_parameters := with_default_parameters solver_parameters in
  nonzero ← parameter "nonzero_initial_guess"
              (nonzero_initial_guess solver_parameters);
  '(initial_guess_index, deps, dep_ids) ←
    (if nonzero : bool then
       match initial_guess with
       | None => Ok (None, [], ∅)
       | Some g =>
           if bool_decide (g = x) then Ok (None, [], ∅)
           else Ok (Some 0%nat, [g], {[function_id g := 0%nat]})
       end
     else
       match initial_guess with
       | Some _ =>
           Raise (EquationException
             "Initial guess provided, but nonzero_initial_guess parameter is False")
       | None => Ok (None, [], ∅)
       end) : res (option nat * list Function * gmap nat nat);
  let c := collect_members eqs (mkCollected deps dep_ids [] ∅ [] []) in
  X ← for_list eq_x eqs;
  b ← Equation_init X (c_deps c) (Some (c_nl_deps c));
  Ok (mkFixedPointSolver b eqs initial_guess_index
        (c_eq_dep_indices c) (c_eq_nl_dep_indices c) solver_parameters).

(** *** The iteration shared by the forward and the adjoint solve *)

(** What [report] prints after each pass: the iteration number, the squared
    change norm and the squared tolerance it is compared with. *)
Record trace_entry : Type := mkTraceEntry {
  te_it : Z;
  te_r_norm_sq : float;
  te_tolerance_sq : float
}.

Definition NaN_encountered (what : string) : exn :=
  EquationException
    ("Fixed point iteration (" +:+ what +:+ "): NaN encountered").

Definition did_not_converge (what : string) : exn :=
  EquationException
    ("Fixed point iteration (" +:+ what +:+ "): did not converge").

(** [r_norm_sq < tolerance_sq or r_norm_sq == 0.0] *)
Definition converged (r_norm_sq tolerance_sq : float) : bool :=
  PyFloat.ltb r_norm_sq tolerance_sq || PyFloat.eqb r_norm_sq PyFloat.zero.

(** [if it == 1: tolerance_sq = max(tolerance_sq,
    r_norm_sq * (relative_tolerance ** 2))] *)
Definition next_tolerance_sq (relative_tolerance : float) (it : Z)
    (tolerance_sq r_norm_sq : float) : res float :=
  if it =? 1 then
    relative_tolerance_sq ← float_pow2 relative_tolerance;
    Ok (PyFloat.max tolerance_sq
          (PyFloat.mul r_norm_sq relative_tolerance_sq))
  else Ok tolerance_sq.

(** The [while True] loop. [sweep] is one full pass over the member
    equations and returns the new state with the new value of [x]; [x_0]
    holds the previous value of [x]. The loop leaves through [break] or an
    exception; [fuel] bounds the passes, and [None] means it ran out. *)
Fixpoint fixed_point_loop {S : Type} (sweep : S -> res (S * V))
    (what : string) (relative_tolerance : float) (maximum_iterations : Z)
    (fuel : nat) (it : Z) (x_0 : V) (tolerance_sq : float) (s : S)
  : option (res S * list trace_entry) :=
  match fuel with
  | O => None
  | Datatypes.S fuel' =>
      let it := it + 1 in
      match sweep s with
      | Raise e => Some (Raise e, [])
      | Ok (s, x) =>
          let r := axpy x_0 (PyFloat.neg (PyFloat.of_Z 1)) x in
          let r_norm_sq := inner r r in
          let entry := mkTraceEntry it r_norm_sq tolerance_sq in
          if PyFloat.isnan r_norm_sq then
            Some (Raise (NaN_encountered what), [entry])
          else if converged r_norm_sq tolerance_sq then
            Some (Ok s, [entry])
          else if it >=? maximum_iterations then
            Some (Raise (did_not_converge what), [entry])
          else
            match next_tolerance_sq relative_tolerance it tolerance_sq
                    r_norm_sq with
            | Raise e => Some (Raise e, [entry])
            | Ok tolerance_sq =>
                match fixed_point_loop sweep what relative_tolerance
                        maximum_iterations fuel' it x tolerance_sq s with
                | None => None
                | Some (out, tr) => Some (out, entry :: tr)
                end
            end
      end
  end.

(** [r_norm_sq] of a pass that starts from [x_0] and ends in [x]. *)
Definition change_norm_sq (x_0 x : V) : float :=
  let r := axpy x_0 (PyFloat.neg (PyFloat.of_Z 1)) x in inner r r.

(** Passes after which the loop has certainly left: it raises as soon as
    [it >= maximum_iterations]. *)
Definition enough_fuel (maximum_iterations : Z) : nat :=
  Z.to_nat (Z.max 1 maximum_iterations).

(** The state and the value of [x] after [n] full passes from the state [s],
    with [x_0] standing for the value of [x] before the first one. *)
Fixpoint iterates {S : Type} (sweep : S -> res (S * V)) (n : nat) (s : S)
    (x_0 : V) : res (S * V) :=
  match n with
  | O => Ok (s, x_0)
  | Datatypes.S n' =>
      match sweep s with
      | Ok (s1, x1) => iterates sweep n' s1 x1
      | Raise e => Raise e
      end
  end.

(** *** forward_solve *)

(** The seeding of [x = X[-1]] before the iteration. *)
Definition seed_initial_guess (fp : FixedPointSolver) (nonzero : bool)
    (x : Function) (deps : option (list Function)) (s : store) : res store :=
  if nonzero then
    match _initial_guess_index fp with
    | Some i =>
        g ← getitem (default (dependencies (fp_base fp)) deps) i;
        Ok (function_assign x g s)
    | None => Ok s
    end
  else Ok (function_zero x s).

(** [for i, eq in enumerate(self._eqs): eq.forward_solve(X[i], deps = eq_deps[i])]
    from index [i] on. *)
Fixpoint forward_sweep (eqs : list Equation) (i : nat) (X : list Function)
    (eq_deps : list (option (list Function))) (s : store) : res store :=
  match eqs with
  | [] => Ok s
  | eq :: eqs' =>
      x_i ← getitem X i;
      deps_i ← getitem eq_deps i;
      s ← forward_solve eq x_i deps_i s;
      forward_sweep eqs' (S i) X eq_deps s
  end.

(** [[[deps[j] for j in indices[i]] for i in range(n)]] *)
Definition select_deps {A} (deps : list A) (indices : list (list nat))
    (n : nat) : res (list (list A)) :=
  for_list (fun i => idx ← getitem indices i; for_list (getitem deps) idx)
           (seq 0 n).

(** The dependencies handed to each member: [None] when the solver itself
    was given none. *)
Definition member_deps (fp : FixedPointSolver) (deps : option (list Function))
  : res (list (option (list Function))) :=
  match deps with
  | None => Ok (replicate (length (_eqs fp)) None)
  | Some deps =>
      match select_deps deps (_eq_dep_indices fp) (length (_eqs fp)) with
      | Ok eq_deps => Ok (Some <$> eq_deps)
      | Raise e => Raise e
      end
  end.

Record forward_setup : Type := mkForwardSetup {
  fs_absolute_tolerance : float;
  fs_relative_tolerance : float;
  fs_maximum_iterations : Z;
  fs_x : Function;
  fs_store : store;
  fs_eq_deps : list (option (list Function))
}.

(** [forward_solve] up to the line [it = 0]. *)
Definition FixedPointSolver_forward_setup (fp : FixedPointSolver)
    (X : list Function) (deps : option (list Function)) (s : store)
  : res forward_setup :=
  let p := _solver_parameters fp in
  absolute_tolerance ← parameter "absolute_tolerance" (absolute_tolerance p);
  relative_tolerance ← parameter "relative_tolerance" (relative_tolerance p);
  maximum_iterations ← parameter "maximum_iterations" (maximum_iterations p);
  nonzero ← parameter "nonzero_initial_guess" (nonzero_initial_guess p);
  _ ← parameter "report" (report p);
  x ← last_item X;
  s ← seed_initial_guess fp nonzero x deps s;
  eq_deps ← member_deps fp deps;
  Ok (mkForwardSetup absolute_tolerance relative_tolerance maximum_iterations
        x s eq_deps).

(** One full pass of the forward iteration, with the new value of [x]. *)
Definition forward_pass (fp : FixedPointSolver) (X : list Function)
    (x : Function) (eq_deps : list (option (list Function))) (s : store)
  : res (store * V) :=
  s ← forward_sweep (_eqs fp) 0 X eq_deps s;
  Ok (s, s x).

(** [forward_solve]: the lines up to [it = 0], then
    [x_0 = function_new(x)], [tolerance_sq = absolute_tolerance ** 2] and
    the loop. *)
Definition FixedPointSolver_forward_solve (fp : FixedPointSolver)
    (X : list Function) (deps : option (list Function)) (s : store)
  : option (res store * list trace_entry) :=
  match FixedPointSolver_forward_setup fp X deps s with
  | Raise e => Some (Raise e, [])
  | Ok st =>
      match float_pow2 (fs_absolute_tolerance st) with
      | Raise e => Some (Raise e, [])
      | Ok tolerance_sq =>
          fixed_point_loop
            (forward_pass fp X (fs_x st) (fs_eq_deps st))
            "forward equation"
            (fs_relative_tolerance st) (fs_maximum_iterations st)
            (enough_fuel (fs_maximum_iterations st))
            0 (zero_like (fs_store st (fs_x st)))
            tolerance_sq (fs_store st)
      end
  end.

(** *** adjoint_jacobian_solve *)

(** [_init_adjoint_jacobian_solve]: [tdeps[k]] lists the pairs [(j, i)] such
    that dependency [j] of member [i] is the solution of member [k <> i].
    The source caches the table in [self._tdeps] until the next reset; it is
    a function of the members alone. *)
Fixpoint tdeps_of_dependencies (i j : nat) (ds : list Function)
    (eq_x_ids : gmap nat nat) (tdeps : list (list (nat * nat)))
  : list (list (nat * nat)) :=
  match ds with
  | [] => tdeps
  | dep :: ds' =>
      let tdeps :=
        match eq_x_ids !! function_id dep with
        | Some k =>
            if bool_decide (k ≠ i) then
              alter (fun l => l ++ [(j, i)]) k tdeps
            else tdeps
        | None => tdeps
        end in
      tdeps_of_dependencies i (S j) ds' eq_x_ids tdeps
  end.

Fixpoint tdeps_of_members (i : nat) (eqs : list Equation)
    (eq_x_ids : gmap nat nat) (tdeps : list (list (nat * nat)))
  : list (list (nat * nat)) :=
  match eqs with
  | [] => tdeps
  | eq :: eqs' =>
      tdeps_of_members (S i) eqs' eq_x_ids
        (tdeps_of_dependencies i 0 (dependencies (eq_base eq)) eq_x_ids tdeps)
  end.

Definition _init_adjoint_jacobian_solve (fp : FixedPointSolver)
  : res (list (list (nat * nat))) :=
  xs ← for_list eq_x (_eqs fp);
  let eq_x_ids := enumerate_ids 0 xs ∅ in
  Ok (tdeps_of_members 0 (_eqs fp) eq_x_ids
        (replicate (length (_eqs fp)) [])).

(** Modelled from the spec: [finalise_adjoint_derivative_action] of
    [base_interface] is not among the sources; the right-hand side is
    complete once every contribution has been subtracted. *)
Definition finalise_adjoint_derivative_action (x : V) : V := x.

(** [for j, k in self._tdeps[i]] *)
Fixpoint subtract_member_actions (eqs : list Equation)
    (eq_nl_deps : list (list V)) (i : nat) (tds : list (nat * nat))
    (adj_X : list V) : res (list V) :=
  match tds with
  | [] => Ok adj_X
  | (j, k) :: tds' =>
      eq_k ← getitem eqs k;
      nl_k ← getitem eq_nl_deps k;
      adj_k ← getitem adj_X k;
      sb ← adjoint_derivative_action eq_k nl_k (Z.of_nat j) adj_k;
      adj_i ← getitem adj_X i;
      subtract_member_actions eqs eq_nl_deps i tds'
        (<[i := subtract_adjoint_derivative_action adj_i sb]> adj_X)
  end.

(** The body of [for i in range(len(self._eqs) - 1, - 1, -1)], at the member
    index [i] already shifted. *)
Definition adjoint_member_step (eqs : list Equation)
    (eq_nl_deps : list (list V)) (tdeps : list (list (nat * nat)))
    (B : list V) (i : nat) (adj_X : list V) : res (list V) :=
  _ ← getitem adj_X i;
  b_i ← getitem B i;
  let adj_X := <[i := b_i]> adj_X in
  tds ← getitem tdeps i;
  adj_X ← subtract_member_actions eqs eq_nl_deps i tds adj_X;
  adj_i ← getitem adj_X i;
  let adj_X := <[i := finalise_adjoint_derivative_action adj_i]> adj_X in
  eq_i ← getitem eqs i;
  nl_i ← getitem eq_nl_deps i;
  adj_i ← getitem adj_X i;
  v ← adjoint_jacobian_solve eq_i nl_i adj_i;
  Ok (<[i := v]> adj_X).

(** The member indices in the order of the sweep: [(i - 1) % n] for
    [i = n - 1, ..., 0]. *)
Definition adjoint_order (n : nat) : list nat :=
  (fun i => Z.to_nat ((Z.of_nat i - 1) `mod` Z.of_nat n)) <$> rev (seq 0 n).

Fixpoint adjoint_sweep (eqs : list Equation) (eq_nl_deps : list (list V))
    (tdeps : list (list (nat * nat))) (B : list V) (order : list nat)
    (adj_X : list V) : res (list V) :=
  match order with
  | [] => Ok adj_X
  | i :: order' =>
      adj_X ← adjoint_member_step eqs eq_nl_deps tdeps B i adj_X;
      adjoint_sweep eqs eq_nl_deps tdeps B order' adj_X
  end.

(** One full pass of the adjoint iteration, with [x = adj_X[-1]]. *)
Definition adjoint_pass (fp : FixedPointSolver) (eq_nl_deps : list (list V))
    (tdeps : list (list (nat * nat))) (B : list V) (adj_X : list V)
  : res (list V * V) :=
  adj_X ← adjoint_sweep (_eqs fp) eq_nl_deps tdeps B
            (adjoint_order (length (_eqs fp))) adj_X;
  x ← last_item adj_X;
  Ok (adj_X, x).

Record adjoint_setup : Type := mkAdjointSetup {
  as_absolute_tolerance : float;
  as_relative_tolerance : float;
  as_maximum_iterations : Z;
  as_tdeps : list (list (nat * nat));
  as_adj_X : list V;
  as_x : V;
  as_eq_nl_deps : list (list V)
}.

(** [adjoint_jacobian_solve] up to the line [it = 0]. *)
Definition FixedPointSolver_adjoint_setup (fp : FixedPointSolver)
    (nl_deps : list V) (B : list V) : res adjoint_setup :=
  let p := _solver_parameters fp in
  absolute_tolerance ← parameter "absolute_tolerance" (absolute_tolerance p);
  relative_tolerance ← parameter "relative_tolerance" (relative_tolerance p);
  maximum_iterations ← parameter "maximum_iterations" (maximum_iterations p);
  _ ← parameter "report" (report p);
  tdeps ← _init_adjoint_jacobian_solve fp;
  let adj_X := B in
  x ← last_item adj_X;
  eq_nl_deps ← select_deps nl_deps (_eq_nl_dep_indices fp) (length (_eqs fp));
  Ok (mkAdjointSetup absolute_tolerance relative_tolerance maximum_iterations
        tdeps adj_X x eq_nl_deps).

Definition FixedPointSolver_adjoint_jacobian_solve (fp : FixedPointSolver)
    (nl_deps : list V) (B : list V)
  : option (res (list V) * list trace_entry) :=
  match FixedPointSolver_adjoint_setup fp nl_deps B with
  | Raise e => Some (Raise e, [])
  | Ok st =>
      match float_pow2 (as_absolute_tolerance st) with
      | Raise e => Some (Raise e, [])
      | Ok tolerance_sq =>
          fixed_point_loop
            (adjoint_pass fp (as_eq_nl_deps st) (as_tdeps st) B)
            "adjoint equation"
            (as_relative_tolerance st) (as_maximum_iterations st)
            (enough_fuel (as_maximum_iterations st))
            0 (zero_like (as_x st))
            tolerance_sq (as_adj_X st)
      end
  end.

(** *** tangent_linear *)

Definition FixedPointSolver_tangent_linear (fp : FixedPointSolver)
    (M dM : list Function) (tlm_map : Function -> option Function)
  : res (option FixedPointSolver) :=
  tlm_eqs ← for_list (fun eq => tangent_linear eq M dM tlm_map) (_eqs fp);
  initial_guess ←
    match _initial_guess_index fp with
    | None => Ok None
    | Some i => tlm_map <$> getitem (dependencies (fp_base fp)) i
    end;
  Some <$> FixedPointSolver_init tlm_eqs (_solver_parameters fp) initial_guess.

(** ** The manager and Equation.solve *)
















End Equations.


(** ** A backend: the space of real constants

    The payload of a Function is one binary64 number; a boundary condition
    pins the value, and its homogenised form pins it to zero. *)
#[global] Instance real_backend : Backend float float := {|
  zero_like _ := PyFloat.zero;
  axpy x alpha y := PyFloat.add x (PyFloat.mul alpha y);
  inner x y := PyFloat.mul x y;
  bc_apply c _ := c;
  homogenize_bc _ := PyFloat.zero
|}.

(** ** A C library: the correctly rounded square

    The platform of the example systems: its [pow(x, 2.0)] is the product
    [x * x], rounded to nearest. *)
#[global] Instance correctly_rounded_libm : PyFloat.Libm := {|
  PyFloat.pow_2 x := PyFloat.mul x x
|}.

(** ** NormSqEquation (numpy backend) *)

Module Numpy.

Section Numpy.

(** The matrices [M] weighting the inner products. *)
Context {Mat : Type}.

Record RHS : Type := mkRHS {
  rhs_deps : list Function;
  rhs_nl_deps : option (list Function)
}.

Definition RHS_init (deps : list Function) (nl_deps : option (list Function))
  : res RHS :=
  if negb (size (id_set deps) =? length deps)%nat then
    Raise (EquationException "Duplicate dependency")
  else
    match nl_deps with
    | Some nl =>
        if negb (size (id_set nl) =? length nl)%nat then
          Raise (EquationException "Duplicate non-linear dependency")
        else Ok (mkRHS deps nl_deps)
    | None => Ok (mkRHS deps nl_deps)
    end.

Definition rhs_dependencies (r : RHS) : list Function := rhs_deps r.

Definition rhs_nonlinear_dependencies (r : RHS) : list Function :=
  match rhs_nl_deps r with
  | None => rhs_dependencies r
  | Some nl => nl
  end.

Record InnerProductRHS : Type := mkInnerProductRHS {
  ip_rhs : RHS;
  ip_alpha : float;
  ip_M : option Mat
}.

Definition InnerProductRHS_init (y z : Function) (alpha : float)
    (M : option Mat) : res InnerProductRHS :=
  r ← RHS_init [y; z] (Some [y; z]);
  Ok (mkInnerProductRHS r alpha M).

(** A [LinearEquation] without a matrix ([A = None]) whose right-hand sides
    are inner products. *)
Record LinearEquation : Type := mkLinearEquation {
  le_base : EquationBase;
  _B : list InnerProductRHS;
  _b_dep_indices : list (list nat);
  _b_nl_dep_indices : list (list nat)
}.

(** [for x in X] of [LinearEquation.__init__] *)
Fixpoint collect_solutions (X : list Function) (deps : list Function)
    (dep_ids : gmap nat nat) : res (list Function * gmap nat nat) :=
  match X with
  | [] => Ok (deps, dep_ids)
  | x :: X' =>
      let x_id := function_id x in
      match dep_ids !! x_id with
      | Some _ => Raise (EquationException "Duplicate solve")
      | None =>
          let deps := deps ++ [x] in
          collect_solutions X' deps (<[x_id := (length deps - 1)%nat]> dep_ids)
      end
  end.

(** [for i, b in enumerate(B)] of [LinearEquation.__init__] *)
Fixpoint collect_rhs (B : list InnerProductRHS) (c : collected) : collected :=
  match B with
  | [] => c
  | b :: B' =>
      let '(deps, dep_ids, idx) :=
        collect_deps (rhs_dependencies (ip_rhs b)) (c_deps c) (c_dep_ids c) [] in
      let '(nl_deps, nl_dep_ids, nl_idx) :=
        collect_deps (rhs_nonlinear_dependencies (ip_rhs b))
                     (c_nl_deps c) (c_nl_dep_ids c) [] in
      collect_rhs B'
        (mkCollected deps dep_ids nl_deps nl_dep_ids
           (c_eq_dep_indices c ++ [idx]) (c_eq_nl_dep_indices c ++ [nl_idx]))
  end.

Definition LinearEquation_init (B : list InnerProductRHS) (X : list Function)
  : res LinearEquation :=
  '(deps, dep_ids) ← collect_solutions X [] ∅;
  let c := collect_rhs B (mkCollected deps dep_ids [] ∅ [] []) in
  b ← Equation_init X (c_deps c) (Some (c_nl_deps c));
  Ok (mkLinearEquation b B (c_eq_dep_indices c) (c_eq_nl_dep_indices c)).

(** [InnerProductEquation(y, z, x, alpha, M)]; [x = None] is a solution
    argument that is no Function. *)
Definition InnerProductEquation_init (y z : Function) (x : option Function)
    (alpha : float) (M : option Mat) : res LinearEquation :=
  b ← InnerProductRHS_init y z alpha M;
  match x with
  | Some x => LinearEquation_init [b] [x]
  | None => init_with_None_solution
  end.

Record NormSqEquation : Type := mkNormSqEquation {
  nsq_base : EquationBase;
  _M : option Mat
}.

Definition NormSqEquation_init (y x : Function) (M : option Mat)
  : res NormSqEquation :=
  b ← Equation_init [x] [x; y] (Some [y]);
  Ok (mkNormSqEquation b M).

Definition NormSqEquation_tangent_linear (eq : NormSqEquation)
    (M dM : list Function) (tlm_map : Function -> option Function)
  : res (option LinearEquation) :=
  match dependencies (nsq_base eq) with
  | [x; y] =>
      tau_y ← find_tau_y x y 0 M dM None;
      let tau_y := match tau_y with None => tlm_map y | Some _ => tau_y end in
      match tau_y with
      | None => Ok None
      | Some tau_y =>
          Some <$> InnerProductEquation_init y tau_y (tlm_map x)
                     (PyFloat.of_Z 2) (_M eq)
      end
  | _ => Raise (ValueError "unpack")
  end.

(** The loop [for i, m in enumerate(M)] of
    [InnerProductRHS.tangent_linear_rhs], from index [i] on. *)
Fixpoint find_tau_y_tau_z (y z : Function) (i : nat) (M dM : list Function)
    (tau_y tau_z : option Function)
  : res (option Function * option Function) :=
  match M with
  | [] => Ok (tau_y, tau_z)
  | m :: M' =>
      if bool_decide (m = y) then
        dm ← getitem dM i;
        find_tau_y_tau_z y z (S i) M' dM (Some dm) tau_z
      else if bool_decide (m = z) then
        dm ← getitem dM i;
        find_tau_y_tau_z y z (S i) M' dM tau_y (Some dm)
      else find_tau_y_tau_z y z (S i) M' dM tau_y tau_z
  end.

Definition InnerProductRHS_tangent_linear_rhs (b : InnerProductRHS)
    (M dM : list Function) (tlm_map : Function -> option Function)
  : res (list InnerProductRHS) :=
  match rhs_dependencies (ip_rhs b) with
  | [y; z] =>
      '(tau_y, tau_z) ← find_tau_y_tau_z y z 0 M dM None None;
      let tau_y := match tau_y with None => tlm_map y | Some _ => tau_y end in
      let tau_z := match tau_z with None => tlm_map z | Some _ => tau_z end in
      tlm_B ← match tau_y with
              | Some tau_y =>
                  b_y ← InnerProductRHS_init tau_y z (ip_alpha b) (ip_M b);
                  Ok [b_y]
              | None => Ok []
              end;
      match tau_z with
      | Some tau_z =>
          b_z ← InnerProductRHS_init y tau_z (ip_alpha b) (ip_M b);
          Ok (tlm_B ++ [b_z])
      | None => Ok tlm_B
      end
  | _ => Raise (ValueError "unpack")
  end.

(** [for x in X] of [LinearEquation.__init__], for a list [X] that may hold
    [None] in place of a Function. *)
Fixpoint collect_optional_solutions (X : list (option Function))
    (deps : list Function) (dep_ids : gmap nat nat)
  : res (list Function * gmap nat nat) :=
  match X with
  | [] => Ok (deps, dep_ids)
  | None :: _ =>
      Raise (AttributeError "'NoneType' object has no attribute 'id'")
  | Some x :: X' =>
      let x_id := function_id x in
      match dep_ids !! x_id with
      | Some _ => Raise (EquationException "Duplicate solve")
      | None =>
          let deps := deps ++ [x] in
          collect_optional_solutions X' deps
            (<[x_id := (length deps - 1)%nat]> dep_ids)
      end
  end.

(** [LinearEquation(B, X)] for a list [X] that may hold [None]. *)
Definition LinearEquation_init_optional (B : list InnerProductRHS)
    (X : list (option Function)) : res LinearEquation :=
  '(deps, dep_ids) ← collect_optional_solutions X [] ∅;
  let c := collect_rhs B (mkCollected deps dep_ids [] ∅ [] []) in
  b ← Equation_init (omap id X) (c_deps c) (Some (c_nl_deps c));
  Ok (mkLinearEquation b B (c_eq_dep_indices c) (c_eq_nl_dep_indices c)).

(** [LinearEquation.tangent_linear] for [A = None]; each right-hand side
    returns the list of its tangent-linear right-hand sides. *)
Definition LinearEquation_tangent_linear (eq : LinearEquation)
    (M dM : list Function) (tlm_map : Function -> option Function)
  : res (option LinearEquation) :=
  let X := _X (le_base eq) in
  if bool_decide (Exists (fun x => x ∈ M) X) then
    Raise (EquationException "Invalid tangent-linear parameter")
  else
    tlm_Bs ← for_list (fun b => InnerProductRHS_tangent_linear_rhs b M dM tlm_map)
               (_B eq);
    match concat tlm_Bs with
    | [] => Ok None
    | tlm_B => Some <$> LinearEquation_init_optional tlm_B (tlm_map <$> X)
    end.

(** [IdentityRHS(x)] *)
Record IdentityRHS : Type := mkIdentityRHS {
  identity_rhs : RHS
}.

Definition IdentityRHS_init (x : Function) : res IdentityRHS :=
  r ← RHS_init [x] None;
  Ok (mkIdentityRHS r).

(** The loop [for m, dm in zip(M, dM)] of
    [IdentityRHS.tangent_linear_rhs]. *)
Fixpoint find_tau_x (x : Function) (MdM : list (Function * Function))
    (tau_x : option Function) : option Function :=
  match MdM with
  | [] => tau_x
  | (m, dm) :: MdM' =>
      if bool_decide (m = x) then find_tau_x x MdM' (Some dm)
      else find_tau_x x MdM' tau_x
  end.

Definition IdentityRHS_tangent_linear_rhs (b : IdentityRHS)
    (M dM : list Function) (tlm_map : Function -> option Function)
  : res (option IdentityRHS) :=
  match rhs_dependencies (identity_rhs b) with
  | [x] =>
      let tau_x := find_tau_x x (zip M dM) None in
      let tau_x := match tau_x with None => tlm_map x | Some _ => tau_x end in
      match tau_x with
      | None => Ok None
      | Some tau_x => Some <$> IdentityRHS_init tau_x
      end
  | _ => Raise (ValueError "unpack")
  end.

(** [SumRHS(x)] *)
Record SumRHS : Type := mkSumRHS {
  sum_rhs : RHS
}.

Definition SumRHS_init (x : Function) : res SumRHS :=
  r ← RHS_init [x] (Some []);
  Ok (mkSumRHS r).

(** The loop [for i, m in enumerate(M)] of [SumRHS.tangent_linear_rhs],
    from index [i] on. *)
Fixpoint find_tau_indexed (y : Function) (i : nat) (M dM : list Function)
    (tau_y : option Function) : res (option Function) :=
  match M with
  | [] => Ok tau_y
  | m :: M' =>
      if bool_decide (m = y) then
        dm ← getitem dM i;
        find_tau_indexed y (S i) M' dM (Some dm)
      else find_tau_indexed y (S i) M' dM tau_y
  end.

Definition SumRHS_tangent_linear_rhs (b : SumRHS)
    (M dM : list Function) (tlm_map : Function -> option Function)
  : res (option SumRHS) :=
  match rhs_dependencies (sum_rhs b) with
  | [y] =>
      tau_y ← find_tau_indexed y 0 M dM None;
      let tau_y := match tau_y with None => tlm_map y | Some _ => tau_y end in
      match tau_y with
      | None => Ok None
      | Some tau_y => Some <$> SumRHS_init tau_y
      end
  | _ => Raise (ValueError "unpack")
  end.

End Numpy.

End Numpy.

(** ** Example systems *)

Module Example.

(** [1.0e-14] and [1.0e200] as binary64 numbers. *)
Definition f_1em14 : float := S754_finite false 6338253001141147 (-99).
Definition f_1e200 : float := S754_finite false 5883593420661338 612.

Definition x : Function := mkFunction 1 false.
Definition z : Function := mkFunction 2 false.
Definition b : Function := mkFunction 3 true.

(** The solver parameters of [test_FixedPointSolver]. *)
Definition fp_parameters : SolverParameters :=
  mkSolverParameters (Some (PyFloat.of_Z 0)) (Some f_1em14) None None None.

(** [[LinearCombinationSolver(z, (1.0, b)), AssignmentSolver(z, x)]] over
    the reals. *)
Definition relay_members
  : res (list (option (Equation (V:=float) (BC:=float)))) :=
  eq_z ← LinearCombinationSolver_init z [(PyFloat.of_Z 1, b)] [];
  eq_x ← AssignmentSolver_init z x [];
  Ok [Some eq_z; Some eq_x].

(** [FixedPointSolver(relay_members, fp_parameters, initial_guess)]: the
    fixed point is [x = z = b]. *)
Definition relay (initial_guess : option Function)
  : res (FixedPointSolver (V:=float) (BC:=float)) :=
  eqs ← relay_members;
  FixedPointSolver_init eqs fp_parameters initial_guess.

(** [FixedPointSolver(relay_members, {"absolute_tolerance": 1.0,
    "relative_tolerance": 0.0})] *)
Definition loose_parameters : SolverParameters :=
  mkSolverParameters (Some (PyFloat.of_Z 1)) (Some (PyFloat.of_Z 0))
    None None None.

Definition loose_relay : res (FixedPointSolver (V:=float) (BC:=float)) :=
  eqs ← relay_members;
  FixedPointSolver_init eqs loose_parameters None.

(** [FixedPointSolver([NullSolver(z), AssignmentSolver(z, x)],
    fp_parameters)] over the reals. *)
Definition null_relay : res (FixedPointSolver (V:=float) (BC:=float)) :=
  eq_z ← NullSolver_init z;
  eq_x ← AssignmentSolver_init z x [];
  FixedPointSolver_init [Some eq_z; Some eq_x] fp_parameters None.

(** [FixedPointSolver(relay_members, {"absolute_tolerance": 0.0,
    "relative_tolerance": 1.0e200})] *)
Definition huge_parameters : SolverParameters :=
  mkSolverParameters (Some (PyFloat.of_Z 0)) (Some f_1e200) None None None.

Definition huge_relay : res (FixedPointSolver (V:=float) (BC:=float)) :=
  eqs ← relay_members;
  FixedPointSolver_init eqs huge_parameters None.

(** The store in which [b] holds [vb] and every other Function [v]. *)
Definition store_with (vb v : float) : store (V:=float) :=
  fun f => if decide (f = b) then vb else v.

End Example.

(** ** Definitions that follow the specification *)

(** The weighted sum [alpha_0 * y_0 + alpha_1 * y_1 + ...] of the
    specification, accumulated from the zero [z] in the order of the
    terms. *)
Definition weighted_sum {V BC : Type} `{!Backend V BC} (z : V)
    (terms : list (float * V)) : V :=
  foldl (fun acc t => axpy acc t.1 t.2) z terms.

(** The squared tolerance of the specification at pass [k] (counted from 0)
    of a run with trace [tr]: the squared absolute tolerance on the first
    pass, and from then on the larger of it and the squared relative
    tolerance times the squared change norm of the first pass. The squares
    are Python's [** 2]. *)
Definition spec_tolerance_sq {libm : PyFloat.Libm}
    (absolute_tolerance relative_tolerance : float)
    (tr : list trace_entry) (k : nat) : res float :=
  absolute_tolerance_sq ← float_pow2 absolute_tolerance;
  match k, tr with
  | S _, e1 :: _ =>
      relative_tolerance_sq ← float_pow2 relative_tolerance;
      Ok (PyFloat.max absolute_tolerance_sq
            (PyFloat.mul (te_r_norm_sq e1) relative_tolerance_sq))
  | _, _ => Ok absolute_tolerance_sq
  end.

(** The convergence test as the specification words it: the squared change
    norm is below the squared tolerance. *)
Definition spec_below_tolerance (e : trace_entry) : bool :=
  PyFloat.ltb (te_r_norm_sq e) (te_tolerance_sq e).

(** The convergence test of the source on a trace entry. *)
Definition entry_converged (e : trace_entry) : bool :=
  converged (te_r_norm_sq e) (te_tolerance_sq e).

(** The ways the iteration can fail, read off the outcome [out] and the
    trace [tr] of a run over the passes [sweep] from the state [s], with
    [x_0] the zero Function the first pass is compared with: a NaN squared
    change norm at some pass raises at that very pass; a pass that reaches
    [maximum_iterations] without passing the convergence test raises; no
    pass runs beyond that; and a run that returns no result has raised one
    of these two exceptions, or the error of [relative_tolerance ** 2]
    after its first pass, or the exception with which the pass after those
    of the trace left. *)
Definition iteration_failures {V St : Type} {libm : PyFloat.Libm}
    (sweep : St -> res (St * V))
    (what : string) (relative_tolerance : float) (maximum_iterations : Z)
    (s : St) (x_0 : V) (out : res St)
    (tr : list trace_entry) : Prop :=
  (forall (k : nat) (e : trace_entry),
     tr !! k = Some e -> PyFloat.isnan (te_r_norm_sq e) = true ->
     out = Raise (NaN_encountered what) /\ length tr = S k) /\
  (forall e : trace_entry,
     last tr = Some e -> maximum_iterations <= te_it e ->
     PyFloat.isnan (te_r_norm_sq e) = false -> entry_converged e = false ->
     out = Raise (did_not_converge what)) /\
  (forall (k : nat) (e : trace_entry),
     tr !! k = Some e -> (S k < length tr)%nat ->
     te_it e < maximum_iterations) /\
  ((exists s' : St, out = Ok s') \/
   out = Raise (NaN_encountered what) \/
   out = Raise (did_not_converge what) \/
   (exists e : exn,
      float_pow2 relative_tolerance = Raise e /\ out = Raise e /\
      length tr = 1%nat) \/
   (exists (e : exn) (s_prev : St) (x_prev : V),
      iterates sweep (length tr) s x_0 = Ok (s_prev, x_prev) /\
      sweep s_prev = Raise e /\ out = Raise e)).

Definition invalid_parameter : exn :=
  EquationException "Invalid tangent-linear parameter".

(** ** Further definitions *)

(** When [Equation.__init__] accepts its arguments: every solution is
    non-static and among [deps], no identity occurs twice in [deps], and, if
    [nl_deps] is given, no identity occurs twice in it and each of its
    identities is the identity of a dependency. *)
Definition Equation_init_accepts (X deps : list Function)
    (nl_deps : option (list Function)) : Prop :=
  Forall (fun x => function_is_static x = false /\ x ∈ deps) X /\
  NoDup (function_id <$> deps) /\
  match nl_deps with
  | None => True
  | Some nl =>
      NoDup (function_id <$> nl) /\
      (function_id <$> nl) ⊆ (function_id <$> deps)
  end.

(** The direction the tangent-linear loops of the linear solvers settle on
    for a dependency [y]: the entry of [dM] paired with the last occurrence
    of [y] in [M], and [tlm_map[y]] when [y] does not occur in [M]. *)
Definition direction_of (M dM : list Function)
    (tlm_map : Function -> option Function) (y : Function)
  : option Function :=
  match last (filter (fun p => p.1 = y) (zip M dM)) with
  | Some p => Some p.2
  | None => tlm_map y
  end.

(** What the loops of [FixedPointSolver.__init__] keep true of [deps] and
    [dep_ids]: the dictionary sends an identity to [j] exactly when
    [deps[j]] is a Function with that identity. *)
Definition ids_table (deps : list Function) (dep_ids : gmap nat nat) : Prop :=
  forall k j : nat,
    dep_ids !! k = Some j <->
    exists d, deps !! j = Some d /\ function_id d = k.

(** Whether the solve methods of an equation are user code, as opposed to
    those of [Equation], [NullSolver], [AssignmentSolver] and
    [LinearCombinationSolver]. *)
Definition is_user_equation {V BC : Type} (eq : Equation (V:=V) (BC:=BC))
  : bool :=
  match eq with
  | UserEquation _ _ _ _ _ => true
  | _ => false
  end.

(** ** FixedPointSolver.adjoint_derivative_action *)

Section FixedPointSolverDerivativeAction.

Context {V BC : Type} `{!Backend V BC}.

(** [eq_deps.index(m)] *)
Definition py_index (eq_deps : list Function) (m : Function) : res nat :=
  match index_of eq_deps m with
  | Some j => Ok j
  | None => Raise (ValueError "tuple.index(x): x not in tuple")
  end.

(** [for i in range(len(self._eqs))], over the member indices [members];
    [F] is the Function the contributions are subtracted from. *)
Fixpoint subtract_member_derivative_actions
    (fp : FixedPointSolver (V:=V) (BC:=BC)) (nl_deps : list V)
    (m : Function) (adj_X : list V) (members : list nat) (F : V) : res V :=
  match members with
  | [] => Ok F
  | i :: members' =>
      eq_i ← getitem (_eqs fp) i;
      let eq_deps := dependencies (eq_base eq_i) in
      if py_in m eq_deps then
        idx ← getitem (_eq_nl_dep_indices fp) i;
        nl_i ← for_list (getitem nl_deps) idx;
        j ← py_index eq_deps m;
        adj_i ← getitem adj_X i;
        sb ← adjoint_derivative_action eq_i nl_i (Z.of_nat j) adj_i;
        subtract_member_derivative_actions fp nl_deps m adj_X members'
          (subtract_adjoint_derivative_action F sb)
      else
        subtract_member_derivative_actions fp nl_deps m adj_X members' F
  end.

(** [F = function_new(m)] is the zero of the space of [m], read off the
    value [m] holds in the store [s]. *)
Definition FixedPointSolver_adjoint_derivative_action
    (fp : FixedPointSolver (V:=V) (BC:=BC)) (s : store) (nl_deps : list V)
    (dep_index : Z) (adj_X : list V) : res (ada_result V) :=
  m ← py_getitem (dependencies (fp_base fp)) dep_index;
  F ← subtract_member_derivative_actions fp nl_deps m adj_X
        (seq 0 (length (_eqs fp))) (zero_like (s m));
  Ok (ada_Scaled (PyFloat.neg (PyFloat.of_Z 1))
        (finalise_adjoint_derivative_action F)).

End FixedPointSolverDerivativeAction.

(** ** Time levels ([python/tlm_adjoint/timestepping.py]) *)

Module Timestepping.

(** The instances of [BaseTimeLevel] are those of its three subclasses:
    [InitialTimeLevel(arg)] has [_order = -1], [TimeLevel(arg)] has
    [_order = 0] and [FinalTimeLevel(arg)] has [_order = 1]; each has
    [_i = arg]. *)
Inductive BaseTimeLevel : Type :=
| InitialTimeLevel (arg : Z)
| TimeLevel (arg : Z)
| FinalTimeLevel (arg : Z).

Definition _order (self : BaseTimeLevel) : Z :=
  match self with
  | InitialTimeLevel _ => -1
  | TimeLevel _ => 0
  | FinalTimeLevel _ => 1
  end.

Definition _i (self : BaseTimeLevel) : Z :=
  match self with
  | InitialTimeLevel arg | TimeLevel arg | FinalTimeLevel arg => arg
  end.

#[global] Instance BaseTimeLevel_eq_dec : EqDecision BaseTimeLevel.
Proof. solve_decision. Defined.

(** [__hash__] hashes the pair [(_order, _i)], which determines the
    level. *)
#[global] Instance BaseTimeLevel_countable : Countable BaseTimeLevel.
Proof.
  refine (inj_countable' (fun l => (_order l, _i l))
            (fun p => if p.1 =? -1 then InitialTimeLevel p.2
                      else if p.1 =? 0 then TimeLevel p.2
                      else FinalTimeLevel p.2) _).
  by intros [].
Defined.

(** [__eq__] *)
Definition BaseTimeLevel_eq (self other : BaseTimeLevel) : bool :=
  (_order self =? _order other) && (_i self =? _i other).

(** [__lt__] *)
Definition BaseTimeLevel_lt (self other : BaseTimeLevel) : bool :=
  if _order self <? _order other then true
  else if _order self >? _order other then false
  else _i self <? _i other.

(** [__gt__] *)
Definition BaseTimeLevel_gt (self other : BaseTimeLevel) : bool :=
  if _order self >? _order other then true
  else if _order self <? _order other then false
  else _i self >? _i other.

(** [__ne__] *)
Definition BaseTimeLevel_ne (self other : BaseTimeLevel) : bool :=
  negb (BaseTimeLevel_eq self other).

(** [__le__] *)
Definition BaseTimeLevel_le (self other : BaseTimeLevel) : bool :=
  negb (BaseTimeLevel_gt self other).

(** [__ge__] *)
Definition BaseTimeLevel_ge (self other : BaseTimeLevel) : bool :=
  negb (BaseTimeLevel_lt self other).

(** [__add__]: each subclass returns a level of its own class. *)
Definition BaseTimeLevel_add (self : BaseTimeLevel) (other : Z)
  : BaseTimeLevel :=
  match self with
  | InitialTimeLevel i => InitialTimeLevel (i + other)
  | TimeLevel i => TimeLevel (i + other)
  | FinalTimeLevel i => FinalTimeLevel (i + other)
  end.

(** [__sub__] *)
Definition BaseTimeLevel_sub (self : BaseTimeLevel) (other : Z)
  : BaseTimeLevel :=
  match self with
  | InitialTimeLevel i => InitialTimeLevel (i - other)
  | TimeLevel i => TimeLevel (i - other)
  | FinalTimeLevel i => FinalTimeLevel (i - other)
  end.

(** [n = TimeLevel()] and [N = FinalTimeLevel()] *)
Definition n : BaseTimeLevel := TimeLevel 0.
Definition N : BaseTimeLevel := FinalTimeLevel 0.

(** [sorted(l, key = key)]: Python's sort compares the keys with [<] only
    and is stable, as is the merge sort: an element moves in front of an
    earlier one only if its key is smaller. *)
Definition key_not_after {A : Type} (key : A -> BaseTimeLevel) (a b : A)
  : Prop :=
  BaseTimeLevel_lt (key b) (key a) = false.

#[global] Instance key_not_after_dec {A : Type} (key : A -> BaseTimeLevel)
  (a b : A) : Decision (key_not_after key a b).
Proof. unfold key_not_after. apply _. Defined.

Definition sorted {A : Type} (key : A -> BaseTimeLevel) (l : list A)
  : list A :=
  merge_sort (key_not_after key) l.

Record TimeLevels : Type := mkTimeLevels {
  _levels : list BaseTimeLevel;
  _cycle_map : list (BaseTimeLevel * BaseTimeLevel)
}.

(** [TimeLevels.__init__]; [cycle_map] is a dictionary from target levels
    to source levels, and [_cycle_map] the OrderedDict of its items. *)
Definition TimeLevels_init (levels : list BaseTimeLevel)
    (cycle_map : gmap BaseTimeLevel BaseTimeLevel) : TimeLevels :=
  mkTimeLevels
    (sorted id (elements (list_to_set levels : gset BaseTimeLevel)))
    (sorted fst (map_to_list cycle_map)).

(** [__len__] *)
Definition TimeLevels_len (self : TimeLevels) : nat := length (_levels self).

End Timestepping.

(** * Properties *)

(** ** The error monad *)

Lemma bind_Ok {A B} (m : res A) (f : A -> res B) (b : B) :
  m ≫= f = Ok b -> exists a, m = Ok a /\ f a = Ok b.
Proof. destruct m as [a|e]; [exists a; auto | discriminate]. Qed.

Lemma fmap_Ok {A B} (f : A -> B) (m : res A) (b : B) :
  f <$> m = Ok b -> exists a, m = Ok a /\ b = f a.
Proof. destruct m as [a|e]; [intros [= <-]; eauto | discriminate]. Qed.

Lemma getitem_Ok {A} (l : list A) i a : getitem l i = Ok a <-> l !! i = Some a.
Proof. unfold getitem. destruct (l !! i); split; congruence. Qed.

Lemma getitem_lt {A} (l : list A) i :
  (i < length l)%nat -> exists a, getitem l i = Ok a.
Proof.
  intros Hi. destruct (lookup_lt_is_Some_2 l i Hi) as [a Ha].
  exists a. by apply getitem_Ok.
Qed.

(** ** Equation.__init__ *)

Lemma check_solutions_Ok X deps :
  check_solutions X deps = Ok tt ->
  Forall (fun x => function_is_static x = false /\ x ∈ deps) X.
Proof.
  induction X as [|x X IH]; simpl; [constructor|].
  destruct (function_is_static x) eqn:Hs; [discriminate|].
  unfold py_in. case_bool_decide as Hin; simpl; [|discriminate].
  intros H. constructor; auto.
Qed.

Lemma check_solutions_error X deps :
  Exists (fun x => function_is_static x = true \/ x ∉ deps) X ->
  raises_EquationException (check_solutions X deps).
Proof.
  induction 1 as [x X Hx | x X _ IH]; simpl.
  - destruct (function_is_static x) eqn:Hs; [by eexists|].
    destruct Hx as [|Hx]; [congruence|].
    unfold py_in. rewrite bool_decide_eq_false_2 by done. by eexists.
  - destruct (function_is_static x); [by eexists|].
    destruct (negb (py_in x deps)); [by eexists | exact IH].
Qed.

Lemma dom_enumerate_ids i deps (d : gmap nat nat) :
  dom (enumerate_ids i deps d) = id_set deps ∪ dom d.
Proof.
  revert i d. induction deps as [|dep deps IH]; intros i d; simpl.
  - unfold id_set. rewrite fmap_nil, list_to_set_nil. by rewrite (left_id_L ∅ (∪)).
  - rewrite IH, dom_insert_L. unfold id_set.
    rewrite fmap_cons, list_to_set_cons.
    rewrite (assoc_L (∪)). f_equal. apply (comm_L (∪)).
Qed.

Lemma size_enumerate_ids deps :
  size (enumerate_ids 0 deps ∅) = size (id_set deps).
Proof.
  rewrite <- size_dom, dom_enumerate_ids, dom_empty_L.
  by rewrite (right_id_L ∅ (∪)).
Qed.

Lemma size_list_to_set_le (l : list nat) :
  (size (list_to_set l : gset nat) <= length l)%nat.
Proof.
  induction l as [|a l IH].
  - by rewrite list_to_set_nil, size_empty.
  - rewrite list_to_set_cons, size_union_alt, size_singleton. simpl.
    assert (list_to_set l ∖ {[a]} ⊆ (list_to_set l : gset nat)) as Hsub
      by apply subseteq_difference_l, reflexivity.
    apply subseteq_size in Hsub. lia.
Qed.

Lemma size_list_to_set_NoDup (l : list nat) :
  size (list_to_set l : gset nat) = length l -> NoDup l.
Proof.
  induction l as [|a l IH]; [constructor|].
  rewrite list_to_set_cons. simpl.
  intros Hsz. pose proof (size_list_to_set_le l) as Hle.
  destruct (decide (a ∈ l)) as [Hin|Hnin].
  - assert ({[a]} ∪ list_to_set l = (list_to_set l : gset nat)) as Heq.
    { apply set_eq. intros y. rewrite elem_of_union, elem_of_singleton,
        elem_of_list_to_set. split; [by intros [->|?] | by right]. }
    rewrite Heq in Hsz. lia.
  - rewrite size_union in Hsz.
    + rewrite size_singleton in Hsz.
      constructor; [done | apply IH; lia].
    + intros y. rewrite elem_of_singleton, elem_of_list_to_set.
      by intros -> ?.
Qed.

Lemma duplicate_ids_detected deps :
  (size (enumerate_ids 0 deps ∅) =? length deps)%nat = true ->
  NoDup (function_id <$> deps).
Proof.
  rewrite Nat.eqb_eq, size_enumerate_ids. unfold id_set. intros H.
  apply size_list_to_set_NoDup. by rewrite length_fmap.
Qed.

(** What a successful [Equation.__init__] has checked and stored. *)
Lemma Equation_init_Ok X deps nl_deps b :
  Equation_init X deps nl_deps = Ok b ->
  Forall (fun x => function_is_static x = false /\ x ∈ deps) X /\
  NoDup (function_id <$> deps) /\
  _X b = X /\ _deps b = deps /\ _nl_deps b = nl_deps /\
  _checkpoint_ic b =
    match nl_deps with
    | None => (fun _ => true) <$> X
    | Some nl => (fun x => py_in x nl) <$> X
    end.
Proof.
  unfold Equation_init. intros H.
  apply bind_Ok in H as ([] & Hchk & H).
  destruct (negb _) eqn:Hdup in H; [discriminate|].
  apply negb_false_iff in Hdup.
  split; [by apply check_solutions_Ok|].
  split; [by apply duplicate_ids_detected|].
  destruct nl_deps as [nl|].
  - destruct (negb _) in H; [discriminate|].
    apply bind_Ok in H as (m & _ & [= <-]). by simpl.
  - injection H as <-. by simpl.
Qed.

(** ** C3: the initial-condition checkpoint flags *)

(** C3, as amended. For every Equation that [Equation.__init__] accepts, the
    flag [checkpoint_ic] of a solution [x] is true exactly when [x] is one of
    the nonlinear dependencies; when [nl_deps] is omitted the nonlinear
    dependencies are [deps], which contain every solution, so every flag is
    true. *)
Theorem checkpoint_ic_iff_nonlinear_dependency
    (X deps : list Function) (nl_deps : option (list Function))
    (b : EquationBase) :
  Equation_init X deps nl_deps = Ok b ->
  (length (_checkpoint_ic b) = length X)%nat /\
  (forall (i : nat) (x : Function), X !! i = Some x ->
     exists flag : bool,
       _checkpoint_ic b !! i = Some flag /\
       (flag = true <-> x ∈ nonlinear_dependencies b)) /\
  (nl_deps = None -> Forall (fun flag => flag = true) (_checkpoint_ic b)).
Proof.
  intros H.
  destruct (Equation_init_Ok _ _ _ _ H) as (Hsol & _ & HX & Hd & Hnl & Hic).
  unfold nonlinear_dependencies, dependencies. rewrite Hnl, Hd, Hic.
  split; [destruct nl_deps; by rewrite length_fmap|].
  split.
  - intros i x Hx. destruct nl_deps as [nl|].
    + exists (py_in x nl). rewrite list_lookup_fmap, Hx. split; [done|].
      unfold py_in. apply bool_decide_eq_true.
    + exists true. rewrite list_lookup_fmap, Hx. split; [done|].
      split; [intros _ | done].
      rewrite Forall_lookup in Hsol. by destruct (Hsol i x Hx).
  - intros ->. by apply Forall_fmap, Forall_true.
Qed.

(** At [NullSolver(x)], that is [Equation(x, [x], nl_deps = [])], the
    solution is no nonlinear dependency and its flag is false. *)
Lemma checkpoint_ic_false_outside_nl_deps :
  let x := mkFunction 1 false in
  exists b : EquationBase,
    Equation_init [x] [x] (Some []) = Ok b /\
    (x ∉ nonlinear_dependencies b) /\
    _checkpoint_ic b !! 0%nat = Some false.
Proof.
  eexists. split; [reflexivity|]. split; [|reflexivity].
  simpl. apply not_elem_of_nil.
Qed.

Lemma checkpoint_ic_iff_nonlinear_dependency_witness :
  let x := mkFunction 1 false in
  let y := mkFunction 2 false in
  exists b : EquationBase,
    Equation_init [x] [x; y] (Some [x; y]) = Ok b /\
    (length (_checkpoint_ic b) = 1)%nat.
Proof.
  eexists. split; [reflexivity|].
  exact (proj1 (checkpoint_ic_iff_nonlinear_dependency
                  [mkFunction 1 false]
                  [mkFunction 1 false; mkFunction 2 false]
                  (Some [mkFunction 1 false; mkFunction 2 false])
                  _ eq_refl)).
Defined.

(** ** C8: errors raised at construction *)

Lemma Equation_init_error X deps nl_deps :
  ~ NoDup (function_id <$> deps) \/
  Exists (fun x => function_is_static x = true \/ x ∉ deps) X ->
  raises_EquationException (Equation_init X deps nl_deps).
Proof.
  intros Hbad. unfold Equation_init.
  destruct (check_solutions X deps) as [[]|e] eqn:Hchk.
  - destruct Hbad as [Hdup|Hex].
    + simpl. destruct (negb _) eqn:Hsz; [by eexists|].
      apply negb_false_iff, duplicate_ids_detected in Hsz. contradiction.
    + apply check_solutions_error in Hex as [msg Hmsg]. congruence.
  - destruct (decide (Exists (fun x => function_is_static x = true \/ x ∉ deps) X))
      as [Hex|Hnex].
    + apply check_solutions_error in Hex as [msg Hmsg].
      exists msg. simpl. congruence.
    + exfalso. clear Hbad. induction X as [|x X IH]; simpl in Hchk; [discriminate|].
      destruct (function_is_static x) eqn:Hs.
      { apply Hnex, Exists_cons. left. by left. }
      unfold py_in in Hchk. case_bool_decide as Hin; simpl in Hchk.
      * apply IH; [done|]. intros Hex. apply Hnex, Exists_cons. by right.
      * apply Hnex, Exists_cons. left. by right.
Qed.

(** C8. Each of the following makes the constructor raise an
    EquationException, before any solve and without touching a Function
    value: a dependency identity occurring twice in [deps]; a solution that
    is not in [deps]; a static solution; and, for the linear equations
    [AssignmentSolver] and [LinearCombinationSolver], a solution that
    occurs among the right-hand-side terms. *)
Theorem construction_errors {V BC : Type} `{!Backend V BC} :
  (forall (X deps : list Function) (nl_deps : option (list Function)),
     ~ NoDup (function_id <$> deps) ->
     raises_EquationException (Equation_init X deps nl_deps)) /\
  (forall (X deps : list Function) (nl_deps : option (list Function))
          (x : Function),
     x ∈ X -> x ∉ deps ->
     raises_EquationException (Equation_init X deps nl_deps)) /\
  (forall (X deps : list Function) (nl_deps : option (list Function))
          (x : Function),
     x ∈ X -> function_is_static x = true ->
     raises_EquationException (Equation_init X deps nl_deps)) /\
  (forall (x : Function) (bcs : list BC),
     raises_EquationException (AssignmentSolver_init (V:=V) x x bcs)) /\
  (forall (x : Function) (args : list (float * Function)) (bcs : list BC),
     x ∈ args.*2 ->
     raises_EquationException
       (LinearCombinationSolver_init (V:=V) x args bcs)).
Proof.
  repeat split.
  - intros X deps nl Hdup. apply Equation_init_error. by left.
  - intros X deps nl x Hx Hnin. apply Equation_init_error. right.
    apply Exists_exists. exists x. auto.
  - intros X deps nl x Hx Hs. apply Equation_init_error. right.
    apply Exists_exists. exists x. auto.
  - intros x bcs. unfold AssignmentSolver_init.
    rewrite bool_decide_eq_true_2 by done. by eexists.
  - intros x args bcs Hin. unfold LinearCombinationSolver_init, py_in.
    rewrite bool_decide_eq_true_2 by done. by eexists.
Qed.

Lemma construction_errors_witness :
  let x := mkFunction 1 false in
  let y := mkFunction 2 false in
  let c := mkFunction 3 true in
  raises_EquationException (Equation_init [x] [x; y; y] None) /\
  raises_EquationException (Equation_init [x] [y] None) /\
  raises_EquationException (Equation_init [c] [c; y] None) /\
  raises_EquationException
    (AssignmentSolver_init (V:=float) (BC:=float) x x []) /\
  raises_EquationException
    (LinearCombinationSolver_init (V:=float) (BC:=float) x
       [(PyFloat.of_Z 1, y); (PyFloat.of_Z 2, x)] []).
Proof.
  destruct (construction_errors (V:=float) (BC:=float))
    as (Hdup & Hdep & Hstatic & Hassign & Hlin).
  repeat split.
  - apply Hdup. intros Hnd. apply NoDup_cons in Hnd as [_ Hnd].
    apply NoDup_cons in Hnd as [Hnin _]. apply Hnin. by left.
  - apply (Hdep _ _ _ (mkFunction 1 false)); [by left|].
    intros Hin. apply list_elem_of_singleton in Hin. discriminate.
  - apply (Hstatic _ _ _ (mkFunction 3 true)); [by left | reflexivity].
  - apply Hassign.
  - apply Hlin. simpl. right. by left.
Defined.

(** ** C9: a solution is no tangent-linear parameter *)

(** The loop over [enumerate(M)] raises at the first occurrence of [x] if
    [dM] reaches that far: an earlier occurrence of [y] then finds its
    direction. *)
Lemma find_tau_y_rejects x y M dM : forall i j tau_y,
  M !! j = Some x -> (i + j < length dM)%nat ->
  find_tau_y x y i M dM tau_y = Raise invalid_parameter.
Proof.
  induction M as [|m M IH]; intros i j tau_y Hj Hlen.
  - by rewrite lookup_nil in Hj.
  - simpl. case_bool_decide as Hmx; [done|].
    destruct j as [|j]; simpl in Hj; [congruence|].
    case_bool_decide as Hmy.
    + destruct (getitem_lt dM i) as [dm ->]; [lia|]. simpl.
      apply (IH (S i) j); [done | lia].
    + apply (IH (S i) j); [done | lia].
Qed.

(** The loop over [zip(M, dM)] raises at the first occurrence of [x] among
    the parameters that have a direction. *)
Lemma assign_tau_ys_rejects x ys M : forall dM j tau_ys,
  M !! j = Some x -> (j < length dM)%nat ->
  assign_tau_ys x ys (zip M dM) tau_ys = Raise invalid_parameter.
Proof.
  induction M as [|m M IH]; intros dM j tau_ys Hj Hlen.
  - by rewrite lookup_nil in Hj.
  - destruct dM as [|dm dM]; simpl in *; [lia|].
    case_bool_decide as Hmx; [done|].
    destruct j as [|j]; simpl in Hj; [congruence|].
    destruct (index_of ys m); apply (IH dM j); (done || lia).
Qed.

Section TangentLinearParameters.

Context {V BC Mat : Type} `{!Backend V BC}.

Lemma AssignmentSolver_init_Ok (y x : Function) (bcs : list BC)
    (eq : Equation (V:=V)) :
  AssignmentSolver_init y x bcs = Ok eq ->
  x <> y /\
  exists b, eq = AssignmentSolver b bcs (homogenize_bc <$> bcs) /\
            _X b = [x] /\ _deps b = [x; y].
Proof.
  unfold AssignmentSolver_init. case_bool_decide as Hxy; [discriminate|].
  intros H. apply bind_Ok in H as (b & Hb & [= <-]).
  apply Equation_init_Ok in Hb as (_ & _ & HX & Hd & _). eauto.
Qed.

Lemma LinearCombinationSolver_init_Ok (x : Function)
    (args : list (float * Function)) (bcs : list BC) (eq : Equation (V:=V)) :
  LinearCombinationSolver_init x args bcs = Ok eq ->
  (x ∉ args.*2) /\ NoDup (function_id <$> x :: args.*2) /\
  exists b, eq = LinearCombinationSolver b (args.*1) bcs
                   (homogenize_bc <$> bcs) /\
            _X b = [x] /\ _deps b = x :: args.*2.
Proof.
  unfold LinearCombinationSolver_init, py_in.
  case_bool_decide as Hin; [discriminate|].
  intros H. apply bind_Ok in H as (b & Hb & [= <-]).
  apply Equation_init_Ok in Hb as (_ & Hnd & HX & Hd & _). eauto 10.
Qed.

(** C9, as amended. Let [M] hold the solution [x] of an
    [AssignmentSolver], of a [LinearCombinationSolver] or of a
    [NormSqEquation] at a position for which [dM] has a direction (as it
    does wherever [dM] is as long as [M]). Then [tangent_linear] raises the
    EquationException "Invalid tangent-linear parameter", whatever the
    entries of [dM] and [tlm_map] are. *)
Theorem tangent_linear_rejects_own_solution
    (M dM : list Function) (tlm_map : Function -> option Function)
    (x : Function) (j : nat) :
  M !! j = Some x -> (j < length dM)%nat ->
  (forall (y : Function) (bcs : list BC) (eq : Equation (V:=V)),
     AssignmentSolver_init y x bcs = Ok eq ->
     tangent_linear eq M dM tlm_map = Raise invalid_parameter) /\
  (forall (args : list (float * Function)) (bcs : list BC)
          (eq : Equation (V:=V)),
     LinearCombinationSolver_init x args bcs = Ok eq ->
     tangent_linear eq M dM tlm_map = Raise invalid_parameter) /\
  (forall (y : Function) (W : option Mat) (eq : Numpy.NormSqEquation),
     Numpy.NormSqEquation_init y x W = Ok eq ->
     Numpy.NormSqEquation_tangent_linear eq M dM tlm_map
     = Raise invalid_parameter).
Proof.
  intros Hj Hlen. split; [|split].
  - intros y bcs eq Heq.
    apply AssignmentSolver_init_Ok in Heq as (_ & b & -> & _ & Hd).
    simpl. unfold AssignmentSolver_tangent_linear, dependencies. rewrite Hd.
    by rewrite (find_tau_y_rejects x y M dM 0 j).
  - intros args bcs eq Heq.
    apply LinearCombinationSolver_init_Ok in Heq as (_ & _ & b & -> & _ & Hd).
    simpl. unfold LinearCombinationSolver_tangent_linear, dependencies.
    rewrite Hd. simpl. by rewrite (assign_tau_ys_rejects x _ M dM j).
  - intros y W eq Heq. unfold Numpy.NormSqEquation_init in Heq.
    apply bind_Ok in Heq as (b & Hb & [= <-]).
    apply Equation_init_Ok in Hb as (_ & _ & _ & Hd & _).
    unfold Numpy.NormSqEquation_tangent_linear, dependencies. simpl.
    rewrite Hd. by rewrite (find_tau_y_rejects x y M dM 0 j).
Qed.

End TangentLinearParameters.

(** With no directions at all, [dM = []], the solution [x] in [M] goes
    unnoticed by a [LinearCombinationSolver], whose loop runs over
    [zip(M, dM)]: [tangent_linear] returns the tangent-linear equation. An
    [AssignmentSolver] with [M = [y, x]] fails on [dM[0]] before it comes to
    [x], with an IndexError, which is no EquationException. *)
Lemma tangent_linear_without_directions :
  let x := mkFunction 1 false in
  let y := mkFunction 2 false in
  let tau_x := mkFunction 11 false in
  let tau_y := mkFunction 12 false in
  let tlm_map := fun f : Function =>
    if decide (f = x) then Some tau_x
    else if decide (f = y) then Some tau_y else None in
  (exists eq tlm_eq : Equation (V:=float) (BC:=float),
     LinearCombinationSolver_init x [(PyFloat.of_Z 1, y)] [] = Ok eq /\
     LinearCombinationSolver_init tau_x [(PyFloat.of_Z 1, tau_y)] []
     = Ok tlm_eq /\
     tangent_linear eq [x] [] tlm_map = Ok (Some tlm_eq)) /\
  (exists eq : Equation (V:=float) (BC:=float),
     AssignmentSolver_init y x [] = Ok eq /\
     tangent_linear eq [y; x] [] tlm_map = Raise IndexError).
Proof.
  intros x y tau_x tau_y tlm_map. split.
  - do 2 eexists. split; [reflexivity|]. split; [reflexivity|].
    vm_compute. reflexivity.
  - eexists. split; [reflexivity|]. vm_compute. reflexivity.
Qed.

Lemma tangent_linear_rejects_own_solution_witness :
  let x := mkFunction 1 false in
  let y := mkFunction 2 false in
  let dm := mkFunction 3 false in
  [y; x; y] !! 1%nat = Some x /\ (1 < length [dm; dm])%nat /\
  (exists eq : Equation (V:=float) (BC:=float),
     AssignmentSolver_init y x [] = Ok eq /\
     tangent_linear eq [y; x; y] [dm; dm] (fun _ => None)
     = Raise invalid_parameter).
Proof.
  split; [reflexivity|]. split; [simpl; lia|].
  eexists. split; [reflexivity|].
  refine (proj1 (tangent_linear_rejects_own_solution
                   (V:=float) (BC:=float) (Mat:=unit)
                   [mkFunction 2 false; mkFunction 1 false;
                    mkFunction 2 false]
                   [mkFunction 3 false; mkFunction 3 false]
                   (fun _ => None) (mkFunction 1 false) 1 eq_refl _)
                (mkFunction 2 false) [] _ eq_refl).
  simpl. lia.
Defined.

(** ** C7: the adjoint derivative action of the linear solvers *)

Lemma py_getitem_nat {A} (l : list A) (i : nat) :
  py_getitem l (Z.of_nat i) = getitem l i.
Proof.
  unfold py_getitem.
  replace (Z.of_nat i <? 0) with false by (symmetry; apply Z.ltb_ge; lia).
  simpl. by rewrite Nat2Z.id.
Qed.

Section AdjointDerivativeAction.

Context {V BC : Type} `{!Backend V BC}.

(** C7, as amended. For a [LinearCombinationSolver] x <- sum(alpha_i * y_i),
    whose dependencies are [x, y_0, y_1, ...], the adjoint derivative action
    in the direction [adj_x] is [adj_x] itself at index 0, the pair
    [(-alpha_i, adj_x)] at the index [i + 1] of [y_i], and [None] at every
    index beyond the dependencies. For an [AssignmentSolver] it is [adj_x]
    at index 0, [(-1.0, adj_x)] at index 1 and [None] at every other index,
    which at the indices from 0 on is the action of the linear combination
    with the single coefficient 1.0. The methods only hand [adj_x] on: they
    have no access to the store. *)
Theorem adjoint_derivative_action_linear (nl_deps : list V) (adj_x : V) :
  (forall (x : Function) (args : list (float * Function)) (bcs : list BC)
          (eq : Equation (V:=V)),
     LinearCombinationSolver_init x args bcs = Ok eq ->
     dependencies (eq_base eq) !! 0%nat = Some x /\
     adjoint_derivative_action eq nl_deps 0 adj_x = Ok (ada_Function adj_x) /\
     (forall (i : nat) (alpha : float) (y : Function),
        args !! i = Some (alpha, y) ->
        dependencies (eq_base eq) !! S i = Some y /\
        adjoint_derivative_action eq nl_deps (Z.of_nat (S i)) adj_x
        = Ok (ada_Scaled (PyFloat.neg alpha) adj_x)) /\
     (forall k : Z,
        Z.of_nat (length args) < k ->
        adjoint_derivative_action eq nl_deps k adj_x = Ok ada_None)) /\
  (forall (y x : Function) (bcs : list BC) (eq : Equation (V:=V)),
     AssignmentSolver_init y x bcs = Ok eq ->
     dependencies (eq_base eq) = [x; y] /\
     adjoint_derivative_action eq nl_deps 0 adj_x = Ok (ada_Function adj_x) /\
     adjoint_derivative_action eq nl_deps 1 adj_x
     = Ok (ada_Scaled (PyFloat.neg (PyFloat.of_Z 1)) adj_x) /\
     (forall k : Z,
        k <> 0 -> k <> 1 ->
        adjoint_derivative_action eq nl_deps k adj_x = Ok ada_None) /\
     (forall k : Z,
        0 <= k ->
        adjoint_derivative_action eq nl_deps k adj_x
        = LinearCombinationSolver_adjoint_derivative_action
            [PyFloat.of_Z 1] k adj_x)).
Proof.
  split.
  - intros x args bcs eq Heq.
    apply LinearCombinationSolver_init_Ok in Heq as (_ & _ & b & -> & _ & Hd).
    unfold dependencies. simpl. rewrite Hd.
    split; [done|]. split; [done|]. split.
    + intros i alpha y Hi. split.
      * simpl. by rewrite list_lookup_fmap, Hi.
      * unfold LinearCombinationSolver_adjoint_derivative_action.
        assert (i < length args)%nat by (by eapply lookup_lt_Some).
        replace (Z.of_nat (S i) =? 0) with false
          by (symmetry; apply Z.eqb_neq; lia).
        replace (Z.of_nat (S i) <=? Z.of_nat (length (args.*1))) with true
          by (symmetry; apply Z.leb_le; rewrite length_fmap; lia).
        replace (Z.of_nat (S i) - 1) with (Z.of_nat i) by lia.
        rewrite py_getitem_nat. unfold getitem.
        by rewrite list_lookup_fmap, Hi.
    + intros k Hk. unfold LinearCombinationSolver_adjoint_derivative_action.
      replace (k =? 0) with false by (symmetry; apply Z.eqb_neq; lia).
      replace (k <=? Z.of_nat (length (args.*1))) with false
        by (symmetry; apply Z.leb_gt; rewrite length_fmap; lia).
      done.
  - intros y x bcs eq Heq.
    apply AssignmentSolver_init_Ok in Heq as (_ & b & -> & _ & Hd).
    unfold dependencies. simpl. split; [done|].
    split; [done|]. split; [done|]. split.
    + intros k Hk0 Hk1. unfold AssignmentSolver_adjoint_derivative_action.
      replace (k =? 0) with false by (symmetry; apply Z.eqb_neq; lia).
      replace (k =? 1) with false by (symmetry; apply Z.eqb_neq; lia).
      done.
    + intros k Hk.
      unfold AssignmentSolver_adjoint_derivative_action,
        LinearCombinationSolver_adjoint_derivative_action.
      destruct (k =? 0) eqn:H0; [done|].
      apply Z.eqb_neq in H0.
      destruct (k =? 1) eqn:H1.
      * apply Z.eqb_eq in H1 as ->. done.
      * apply Z.eqb_neq in H1. simpl length.
        replace (k <=? Z.of_nat 1) with false
          by (symmetry; apply Z.leb_gt; lia).
        done.
Qed.

End AdjointDerivativeAction.

(** The index -1 is neither 0 nor the index of a [y_i], yet the
    [LinearCombinationSolver] x <- 1.0 * a + 0.5 * b does not answer [None]:
    [dep_index <= len(self._alpha)] holds and [self._alpha[-2]] is the
    first coefficient, so it returns [(-1.0, adj_x)]. At the index -3 the
    same lookup raises an IndexError. *)
Lemma adjoint_derivative_action_negative_index :
  let x := mkFunction 1 false in
  let a := mkFunction 2 false in
  let b := mkFunction 3 false in
  let half := PyFloat.ldexp (PyFloat.of_Z 1) (-1) in
  exists eq : Equation (V:=float) (BC:=float),
    LinearCombinationSolver_init x [(PyFloat.of_Z 1, a); (half, b)] []
    = Ok eq /\
    adjoint_derivative_action eq [] (-1) (PyFloat.of_Z 3)
    = Ok (ada_Scaled (PyFloat.neg (PyFloat.of_Z 1)) (PyFloat.of_Z 3)) /\
    adjoint_derivative_action eq [] (-3) (PyFloat.of_Z 3) = Raise IndexError.
Proof.
  eexists. split; [reflexivity|]. split; reflexivity.
Qed.

Lemma adjoint_derivative_action_linear_witness :
  let x := mkFunction 1 false in
  let a := mkFunction 2 false in
  let b := mkFunction 3 false in
  let half := PyFloat.ldexp (PyFloat.of_Z 1) (-1) in
  exists eq : Equation (V:=float) (BC:=float),
    LinearCombinationSolver_init x [(PyFloat.of_Z 1, a); (half, b)] []
    = Ok eq /\
    adjoint_derivative_action eq [] 2 (PyFloat.of_Z 3)
    = Ok (ada_Scaled (PyFloat.neg half) (PyFloat.of_Z 3)).
Proof.
  eexists. split; [reflexivity|].
  refine (proj2 (proj1 (proj2 (proj2
    (proj1 (adjoint_derivative_action_linear (V:=float) (BC:=float)
              [] (PyFloat.of_Z 3))
       (mkFunction 1 false)
       [(PyFloat.of_Z 1, mkFunction 2 false);
        (PyFloat.ldexp (PyFloat.of_Z 1) (-1), mkFunction 3 false)]
       [] _ eq_refl)))
    1%nat (PyFloat.ldexp (PyFloat.of_Z 1) (-1)) (mkFunction 3 false) _)).
  reflexivity.
Defined.

(** ** C6: the forward solve of a linear combination *)

Section LinearCombination.

Context {V BC : Type} `{!Backend V BC}.

Lemma store_insert_eq (s : store (V:=V)) (x : Function) (v : V) :
  (<[x := v]> s) x = v.
Proof. apply fn_lookup_insert. Qed.

Lemma store_insert_ne (s : store (V:=V)) (x f : Function) (v : V) :
  f <> x -> (<[x := v]> s) f = s f.
Proof. intros Hne. by apply fn_lookup_insert_ne. Qed.

(** Accumulating into [x] reads every [y] from the store as it was, as long
    as [x] is none of them. *)
Lemma foldl_function_axpy (x : Function) (args : list (float * Function)) :
  forall s : store (V:=V),
    x ∉ args.*2 ->
    let s' := foldl (fun s ay => function_axpy x ay.1 ay.2 s) s args in
    s' x = weighted_sum (s x) ((fun t => (t.1, s t.2)) <$> args) /\
    (forall f, f <> x -> s' f = s f).
Proof.
  induction args as [|[alpha y] args IH]; intros s Hnin; simpl; [done|].
  rewrite fmap_cons in Hnin. simpl in Hnin.
  apply not_elem_of_cons in Hnin as [Hxy Hnin].
  destruct (IH (function_axpy x alpha y s) Hnin) as [Hx Hf].
  unfold weighted_sum in *. simpl. split.
  - rewrite Hx. unfold function_axpy.
    rewrite store_insert_eq. f_equal.
    apply list_fmap_ext. intros i [a z] Hi. simpl. f_equal.
    apply store_insert_ne.
    intros Hzx. apply Hnin. apply list_elem_of_fmap.
    exists (a, z). split; [done|]. by eapply list_elem_of_lookup_2.
  - intros f Hfx. rewrite Hf by done.
    unfold function_axpy. by apply store_insert_ne.
Qed.

Lemma LinearCombinationSolver_forward_solve_sum (x : Function)
    (args : list (float * Function)) (bcs : list BC) (eq : Equation (V:=V))
    (s : store) :
  LinearCombinationSolver_init x args bcs = Ok eq ->
  exists s' : store,
    forward_solve eq x None s = Ok s' /\
    s' x = apply_bcs_value
             (weighted_sum (zero_like (s x)) ((fun t => (t.1, s t.2)) <$> args))
             bcs /\
    (forall f, f <> x -> s' f = s f).
Proof.
  intros Heq.
  apply LinearCombinationSolver_init_Ok in Heq as (Hnin & _ & b & -> & _ & Hd).
  eexists. split; [reflexivity|].
  unfold LinearCombinationSolver_forward_solve, dependencies. simpl.
  rewrite Hd. simpl. rewrite drop_0, zip_fst_snd.
  destruct (foldl_function_axpy x args (function_zero x s) Hnin) as [Hx Hf].
  unfold apply_bcs. split.
  - rewrite store_insert_eq, Hx. unfold function_zero.
    rewrite store_insert_eq. do 2 f_equal.
    apply list_fmap_ext. intros i [a z] Hi. simpl. f_equal.
    apply store_insert_ne.
    intros Hzx. apply Hnin. apply list_elem_of_fmap.
    exists (a, z). split; [done|]. by eapply list_elem_of_lookup_2.
  - intros f Hfx. rewrite store_insert_ne by done.
    rewrite Hf by done. unfold function_zero.
    by apply store_insert_ne.
Qed.

End LinearCombination.

(** C6. For a [LinearCombinationSolver] x <- sum(alpha_i * y_i), whatever
    the values of the dependencies, [forward_solve] leaves in [x] the
    boundary conditions applied to the weighted sum of the values the [y_i]
    had, accumulated from zero, and touches no other Function; the value [x]
    had before enters only through the zero of its space. Over the reals,
    x <- 1.0 * a + 0.5 * b with a = 2.0 and b = 4.0 gives x = 4.0 whatever
    [x] held. *)
Theorem LinearCombinationSolver_forward_solve_exact :
  (forall (V BC : Type) (backend : Backend V BC) (x : Function)
          (args : list (float * Function)) (bcs : list BC)
          (eq : Equation (V:=V)) (s : store),
     LinearCombinationSolver_init x args bcs = Ok eq ->
     exists s' : store,
       forward_solve eq x None s = Ok s' /\
       s' x = apply_bcs_value
                (weighted_sum (zero_like (s x))
                   ((fun t => (t.1, s t.2)) <$> args)) bcs /\
       (bcs = [] ->
        s' x = weighted_sum (zero_like (s x))
                 ((fun t => (t.1, s t.2)) <$> args)) /\
       (forall f, f <> x -> s' f = s f)) /\
  (let x := mkFunction 1 false in
   let a := mkFunction 2 false in
   let b := mkFunction 3 false in
   let half := PyFloat.ldexp (PyFloat.of_Z 1) (-1) in
   exists eq : Equation (V:=float) (BC:=float),
     LinearCombinationSolver_init x [(PyFloat.of_Z 1, a); (half, b)] []
     = Ok eq /\
     forall s : store (V:=float),
       s a = PyFloat.of_Z 2 -> s b = PyFloat.of_Z 4 ->
       exists s' : store,
         forward_solve eq x None s = Ok s' /\ s' x = PyFloat.of_Z 4).
Proof.
  split.
  - intros V BC backend x args bcs eq s Heq.
    destruct (LinearCombinationSolver_forward_solve_sum x args bcs eq s Heq)
      as (s' & Hs' & Hx & Hf).
    exists s'. repeat split; [done | done | | done].
    intros ->. by rewrite Hx.
  - eexists. split; [reflexivity|]. intros s Ha Hb.
    destruct (LinearCombinationSolver_forward_solve_sum
                (V:=float) (BC:=float) (mkFunction 1 false)
                [(PyFloat.of_Z 1, mkFunction 2 false);
                 (PyFloat.ldexp (PyFloat.of_Z 1) (-1), mkFunction 3 false)]
                [] _ s eq_refl) as (s' & Hs' & Hx & _).
    exists s'. split; [exact Hs'|].
    rewrite Hx. simpl. rewrite Ha, Hb. reflexivity.
Qed.

Lemma LinearCombinationSolver_forward_solve_exact_witness :
  let x := mkFunction 1 false in
  let a := mkFunction 2 false in
  let s : store (V:=float) :=
    fun f => if decide (f = a) then PyFloat.of_Z 3 else PyFloat.of_Z 7 in
  exists (eq : Equation (V:=float) (BC:=float)) (s' : store),
    LinearCombinationSolver_init x [(PyFloat.of_Z 2, a)] [] = Ok eq /\
    forward_solve eq x None s = Ok s' /\
    s' x = PyFloat.of_Z 6.
Proof.
  eexists.
  destruct (proj1 LinearCombinationSolver_forward_solve_exact
              float float real_backend (mkFunction 1 false)
              [(PyFloat.of_Z 2, mkFunction 2 false)] [] _
              (fun f => if decide (f = mkFunction 2 false)
                        then PyFloat.of_Z 3 else PyFloat.of_Z 7)
              eq_refl) as (s' & Hs' & Hx & _).
  exists s'. split; [reflexivity|]. split; [exact Hs'|].
  rewrite Hx. reflexivity.
Defined.

(** ** The fixed point iteration *)

Lemma isnan_not_converged (r tol : float) :
  PyFloat.isnan r = true -> converged r tol = false.
Proof. destruct r; try discriminate. reflexivity. Qed.

(** [x ** 2] raises nothing but an [OverflowError], and only for a finite
    [x] other than 0 and 1. *)
Lemma float_pow2_Raise {libm : PyFloat.Libm} (x : float) (e : exn) :
  float_pow2 x = Raise e ->
  PyFloat.isfinite x = true /\
  e = OverflowError "(34, 'Numerical result out of range')".
Proof.
  unfold float_pow2. destruct x as [sg| | |sg m ex]; try discriminate.
  destruct (PyFloat.eqb _ _); [discriminate|].
  destruct (PyFloat.pow_2 _); try discriminate.
  by intros [= <-].
Qed.

Section FixedPointIteration.

Context {V BC : Type} `{!Backend V BC} {libm : PyFloat.Libm}.
Context {St : Type} (sweep : St -> res (St * V)).
Context (what : string) (rel : float) (maxit : Z).

Local Abbreviation loop := (fixed_point_loop sweep what rel maxit).

(** One unfolding of the loop: the six ways a pass can end. *)
Lemma loop_unfold fuel it x_0 tol s out tr :
  loop (S fuel) it x_0 tol s = Some (out, tr) ->
  (exists e, sweep s = Raise e /\ out = Raise e /\ tr = []) \/
  (exists s1 x,
     sweep s = Ok (s1, x) /\
     let r := change_norm_sq x_0 x in
     let entry := mkTraceEntry (it + 1) r tol in
     (PyFloat.isnan r = true /\
      out = Raise (NaN_encountered what) /\ tr = [entry]) \/
     (PyFloat.isnan r = false /\ converged r tol = true /\
      out = Ok s1 /\ tr = [entry]) \/
     (PyFloat.isnan r = false /\ converged r tol = false /\
      maxit <= it + 1 /\
      out = Raise (did_not_converge what) /\ tr = [entry]) \/
     (PyFloat.isnan r = false /\ converged r tol = false /\
      it + 1 < maxit /\
      exists e,
        next_tolerance_sq rel (it + 1) tol r = Raise e /\
        out = Raise e /\ tr = [entry]) \/
     (PyFloat.isnan r = false /\ converged r tol = false /\
      it + 1 < maxit /\
      exists tol' tr',
        next_tolerance_sq rel (it + 1) tol r = Ok tol' /\
        loop fuel (it + 1) x tol' s1 = Some (out, tr') /\
        tr = entry :: tr')).
Proof.
  cbn [fixed_point_loop]. unfold change_norm_sq.
  destruct (sweep s) as [[s1 x]|e].
  2:{ intros H. injection H as <- <-. left. exists e. auto. }
  intros H. right. exists s1, x. split; [reflexivity|]. cbv zeta.
  destruct (PyFloat.isnan _) eqn:Hnan.
  { injection H as <- <-. left. auto. }
  destruct (converged _ _) eqn:Hconv.
  { injection H as <- <-. right. left. auto. }
  destruct (it + 1 >=? maxit) eqn:Hmax.
  { injection H as <- <-. apply Z.geb_le in Hmax.
    right. right. left. auto. }
  rewrite Z.geb_leb in Hmax. apply Z.leb_gt in Hmax.
  destruct (next_tolerance_sq _ _ _ _) as [tol'|e] eqn:Htol.
  - destruct (fixed_point_loop _ _ _ _ _ _ _ _ _) as [[out' tr']|] eqn:Hrec;
      [|discriminate].
    injection H as <- <-. do 4 right.
    split; [done|]. split; [done|]. split; [lia|]. exists tol', tr'. auto.
  - injection H as <- <-. do 3 right. left.
    split; [done|]. split; [done|]. split; [lia|]. exists e. auto.
Qed.

(** The tolerance is settled after the first pass: no later pass changes
    it or squares the relative tolerance. *)
Lemma next_tolerance_sq_later (it : Z) (tol r : float) :
  1 <= it -> next_tolerance_sq rel (it + 1) tol r = Ok tol.
Proof.
  intros Hit. unfold next_tolerance_sq.
  by replace (it + 1 =? 1) with false by (symmetry; apply Z.eqb_neq; lia).
Qed.

(** The loop leaves within [maximum_iterations] passes. *)
Lemma loop_terminates fuel : forall it x_0 tol s,
  (1 <= fuel)%nat -> (Z.to_nat (maxit - it) <= fuel)%nat ->
  exists out tr, loop fuel it x_0 tol s = Some (out, tr).
Proof.
  induction fuel as [|fuel IH]; intros it x_0 tol s H1 Hfuel; [lia|].
  cbn [fixed_point_loop].
  destruct (sweep s) as [[s1 x]|e]; [|eauto].
  destruct (PyFloat.isnan _); [eauto|].
  destruct (converged _ _); [eauto|].
  destruct (it + 1 >=? maxit) eqn:Hmax; [eauto|].
  rewrite Z.geb_leb in Hmax. apply Z.leb_gt in Hmax.
  destruct (next_tolerance_sq _ _ _ _) as [tol'|e]; [|eauto].
  edestruct (IH (it + 1)) as (out & tr & ->); [lia | lia | eauto].
Qed.

(** Pass [k] of the trace is iteration [it + 1 + k]. *)
Lemma loop_iterations fuel : forall it x_0 tol s out tr,
  loop fuel it x_0 tol s = Some (out, tr) ->
  forall (k : nat) e, tr !! k = Some e -> te_it e = it + 1 + Z.of_nat k.
Proof.
  induction fuel as [|fuel IH]; intros it x_0 tol s out tr H; [discriminate|].
  apply loop_unfold in H
    as [(e & _ & _ & ->)|(s1 & x & _ & [H|[H|[H|[H|H]]]])];
    intros k e' Hk.
  - by rewrite lookup_nil in Hk.
  - destruct H as (_ & _ & ->).
    apply list_lookup_singleton_Some in Hk as [-> <-]. simpl. lia.
  - destruct H as (_ & _ & _ & ->).
    apply list_lookup_singleton_Some in Hk as [-> <-]. simpl. lia.
  - destruct H as (_ & _ & _ & _ & ->).
    apply list_lookup_singleton_Some in Hk as [-> <-]. simpl. lia.
  - destruct H as (_ & _ & _ & e & _ & _ & ->).
    apply list_lookup_singleton_Some in Hk as [-> <-]. simpl. lia.
  - destruct H as (_ & _ & _ & tol' & tr' & _ & Hrec & ->).
    destruct k as [|k]; simpl in Hk.
    + injection Hk as <-. simpl. lia.
    + rewrite (IH _ _ _ _ _ _ Hrec k e' Hk). lia.
Qed.

(** After the first iteration the tolerance no longer changes. *)
Lemma loop_tolerance_fixed fuel : forall it x_0 tol s out tr,
  1 <= it ->
  loop fuel it x_0 tol s = Some (out, tr) ->
  forall (k : nat) e, tr !! k = Some e -> te_tolerance_sq e = tol.
Proof.
  induction fuel as [|fuel IH]; intros it x_0 tol s out tr Hit H;
    [discriminate|].
  apply loop_unfold in H
    as [(e & _ & _ & ->)|(s1 & x & _ & [H|[H|[H|[H|H]]]])];
    intros k e' Hk.
  - by rewrite lookup_nil in Hk.
  - destruct H as (_ & _ & ->).
    by apply list_lookup_singleton_Some in Hk as [-> <-].
  - destruct H as (_ & _ & _ & ->).
    by apply list_lookup_singleton_Some in Hk as [-> <-].
  - destruct H as (_ & _ & _ & _ & ->).
    by apply list_lookup_singleton_Some in Hk as [-> <-].
  - destruct H as (_ & _ & _ & e & _ & _ & ->).
    by apply list_lookup_singleton_Some in Hk as [-> <-].
  - destruct H as (_ & _ & _ & tol' & tr' & Htol & Hrec & ->).
    destruct k as [|k]; simpl in Hk; [by injection Hk as <-|].
    rewrite next_tolerance_sq_later in Htol by done. injection Htol as <-.
    eapply (IH (it + 1)); [lia | exact Hrec | exact Hk].
Qed.

(** The tolerances of a run from [it = 0] are those of the
    specification. *)
Lemma loop_tolerances fuel abs abs_sq x_0 s out tr :
  float_pow2 abs = Ok abs_sq ->
  loop fuel 0 x_0 abs_sq s = Some (out, tr) ->
  forall (k : nat) e,
    tr !! k = Some e ->
    spec_tolerance_sq abs rel tr k = Ok (te_tolerance_sq e).
Proof.
  intros Habs. destruct fuel as [|fuel]; [discriminate|]. intros H.
  unfold spec_tolerance_sq. rewrite Habs. simpl.
  apply loop_unfold in H
    as [(e & _ & _ & ->)|(s1 & x & _ & [H|[H|[H|[H|H]]]])];
    intros k e' Hk.
  - by rewrite lookup_nil in Hk.
  - destruct H as (_ & _ & ->).
    by apply list_lookup_singleton_Some in Hk as [-> <-].
  - destruct H as (_ & _ & _ & ->).
    by apply list_lookup_singleton_Some in Hk as [-> <-].
  - destruct H as (_ & _ & _ & _ & ->).
    by apply list_lookup_singleton_Some in Hk as [-> <-].
  - destruct H as (_ & _ & _ & e & _ & _ & ->).
    by apply list_lookup_singleton_Some in Hk as [-> <-].
  - destruct H as (_ & _ & _ & tol' & tr' & Htol & Hrec & ->).
    destruct k as [|k]; simpl in Hk; [by injection Hk as <-|].
    unfold next_tolerance_sq in Htol. simpl in Htol.
    apply bind_Ok in Htol as (rel_sq & -> & [= <-]). simpl. f_equal.
    symmetry. eapply (loop_tolerance_fixed _ 1); [lia | exact Hrec | exact Hk].
Qed.

(** Every pass but the last saw no NaN, failed the convergence test and
    was not yet the last one permitted. *)
Lemma loop_earlier_passes fuel : forall it x_0 tol s out tr,
  loop fuel it x_0 tol s = Some (out, tr) ->
  forall (k : nat) e,
    tr !! k = Some e -> (S k < length tr)%nat ->
    PyFloat.isnan (te_r_norm_sq e) = false /\
    entry_converged e = false /\ te_it e < maxit.
Proof.
  induction fuel as [|fuel IH]; intros it x_0 tol s out tr H; [discriminate|].
  apply loop_unfold in H
    as [(e & _ & _ & ->)|(s1 & x & _ & [H|[H|[H|[H|H]]]])];
    intros k e' Hk Hlen.
  - by rewrite lookup_nil in Hk.
  - destruct H as (_ & _ & ->). simpl in Hlen. lia.
  - destruct H as (_ & _ & _ & ->). simpl in Hlen. lia.
  - destruct H as (_ & _ & _ & _ & ->). simpl in Hlen. lia.
  - destruct H as (_ & _ & _ & e & _ & _ & ->). simpl in Hlen. lia.
  - destruct H as (Hnan & Hconv & Hmax & tol' & tr' & _ & Hrec & ->).
    destruct k as [|k]; simpl in Hk, Hlen.
    + injection Hk as <-. auto.
    + eapply IH; [exact Hrec | exact Hk | lia].
Qed.

(** How the loop leaves, read off the last pass of the trace. A pass that
    neither ends the iteration nor is followed by another was the first
    one, after which [relative_tolerance ** 2] raised, or was followed by a
    pass that raised. *)
Lemma loop_outcome fuel : forall it x_0 tol s out tr,
  loop fuel it x_0 tol s = Some (out, tr) ->
  match last tr with
  | None => exists e, out = Raise e /\ sweep s = Raise e
  | Some e =>
      if PyFloat.isnan (te_r_norm_sq e) then
        out = Raise (NaN_encountered what)
      else if entry_converged e then exists s', out = Ok s'
      else if te_it e >=? maxit then out = Raise (did_not_converge what)
      else exists e',
          out = Raise e' /\
          ((te_it e = 1 /\ float_pow2 rel = Raise e') \/
           exists s', sweep s' = Raise e')
  end.
Proof.
  induction fuel as [|fuel IH]; intros it x_0 tol s out tr H; [discriminate|].
  apply loop_unfold in H
    as [(e & Hsw & -> & ->)|(s1 & x & _ & [H|[H|[H|[H|H]]]])].
  - simpl. eauto.
  - destruct H as (Hnan & -> & ->). simpl. by rewrite Hnan.
  - destruct H as (Hnan & Hconv & -> & ->). simpl.
    unfold entry_converged. simpl. rewrite Hnan, Hconv. eauto.
  - destruct H as (Hnan & Hconv & Hmax & -> & ->). simpl.
    unfold entry_converged. simpl. rewrite Hnan, Hconv.
    by replace (it + 1 >=? maxit) with true
      by (symmetry; apply Z.geb_le; lia).
  - destruct H as (Hnan & Hconv & Hmax & e & Htol & -> & ->). simpl.
    unfold entry_converged. simpl. rewrite Hnan, Hconv.
    replace (it + 1 >=? maxit) with false
      by (symmetry; rewrite Z.geb_leb; apply Z.leb_gt; lia).
    exists e. split; [done|]. left. unfold next_tolerance_sq in Htol.
    destruct (it + 1 =? 1) eqn:H1; [|discriminate].
    apply Z.eqb_eq in H1. split; [done|].
    by destruct (float_pow2 rel); [discriminate|injection Htol as ->].
  - destruct H as (Hnan & Hconv & Hmax & tol' & tr' & _ & Hrec & ->).
    specialize (IH _ _ _ _ _ _ Hrec). rewrite last_cons.
    destruct (last tr') as [e'|].
    + exact IH.
    + destruct IH as (e' & -> & Hsw). simpl.
      unfold entry_converged. simpl. rewrite Hnan, Hconv.
      replace (it + 1 >=? maxit) with false
        by (symmetry; rewrite Z.geb_leb; apply Z.leb_gt; lia).
      eauto.
Qed.

(** Pass [k] of the trace carries the squared norm of the difference between
    the value of [x] after [k] passes ([x_0] itself for [k = 0]) and its
    value after the next pass. *)
Lemma loop_change_norms fuel : forall it x_0 tol s out tr,
  loop fuel it x_0 tol s = Some (out, tr) ->
  forall (k : nat) e,
    tr !! k = Some e ->
    exists s_prev x_prev s_cur x_cur,
      iterates sweep k s x_0 = Ok (s_prev, x_prev) /\
      sweep s_prev = Ok (s_cur, x_cur) /\
      te_r_norm_sq e = change_norm_sq x_prev x_cur.
Proof.
  induction fuel as [|fuel IH]; intros it x_0 tol s out tr H; [discriminate|].
  apply loop_unfold in H
    as [(e & _ & _ & ->)|(s1 & x & Hsw & [H|[H|[H|[H|H]]]])];
    intros k e' Hk.
  - by rewrite lookup_nil in Hk.
  - destruct H as (_ & _ & ->).
    apply list_lookup_singleton_Some in Hk as [-> <-].
    exists s, x_0, s1, x. auto.
  - destruct H as (_ & _ & _ & ->).
    apply list_lookup_singleton_Some in Hk as [-> <-].
    exists s, x_0, s1, x. auto.
  - destruct H as (_ & _ & _ & _ & ->).
    apply list_lookup_singleton_Some in Hk as [-> <-].
    exists s, x_0, s1, x. auto.
  - destruct H as (_ & _ & _ & e & _ & _ & ->).
    apply list_lookup_singleton_Some in Hk as [-> <-].
    exists s, x_0, s1, x. auto.
  - destruct H as (_ & _ & _ & tol' & tr' & _ & Hrec & ->).
    destruct k as [|k]; simpl in Hk.
    + injection Hk as <-. exists s, x_0, s1, x. auto.
    + destruct (IH _ _ _ _ _ _ Hrec k e' Hk)
        as (sp & xp & sc & xc & Hit & Hsc & Hr).
      exists sp, xp, sc, xc. simpl. rewrite Hsw. auto.
Qed.

(** A solve that converges returns the state after the last pass. *)
Lemma loop_result fuel : forall it x_0 tol s s' tr,
  loop fuel it x_0 tol s = Some (Ok s', tr) ->
  exists x', iterates sweep (length tr) s x_0 = Ok (s', x').
Proof.
  induction fuel as [|fuel IH]; intros it x_0 tol s s' tr H; [discriminate|].
  apply loop_unfold in H
    as [(e & _ & He & _)|(s1 & x & Hsw & [H|[H|[H|[H|H]]]])].
  - discriminate.
  - by destruct H as (_ & ? & _).
  - destruct H as (_ & _ & [= ->] & ->). exists x. simpl. by rewrite Hsw.
  - by destruct H as (_ & _ & _ & ? & _).
  - by destruct H as (_ & _ & _ & ? & _ & ? & _).
  - destruct H as (_ & _ & _ & tol' & tr' & _ & Hrec & ->).
    destruct (IH _ _ _ _ _ _ Hrec) as [x' Hx'].
    exists x'. simpl. by rewrite Hsw.
Qed.

(** Every way out of the loop: a result, one of the two exceptions of the
    iteration, the error of [relative_tolerance ** 2] after the pass of
    iteration 1, or the exception of the pass that follows those of the
    trace. *)
Lemma loop_exits fuel : forall it x_0 tol s out tr,
  loop fuel it x_0 tol s = Some (out, tr) ->
  (exists s', out = Ok s') \/
  out = Raise (NaN_encountered what) \/
  out = Raise (did_not_converge what) \/
  (exists e entry,
     float_pow2 rel = Raise e /\ out = Raise e /\
     last tr = Some entry /\ te_it entry = 1) \/
  (exists e s_prev x_prev,
     iterates sweep (length tr) s x_0 = Ok (s_prev, x_prev) /\
     sweep s_prev = Raise e /\ out = Raise e).
Proof.
  induction fuel as [|fuel IH]; intros it x_0 tol s out tr H; [discriminate|].
  apply loop_unfold in H
    as [(e & Hsw & -> & ->)|(s1 & x & Hsw & [H|[H|[H|[H|H]]]])].
  - do 4 right. exists e, s, x_0. auto.
  - destruct H as (_ & -> & _). auto.
  - destruct H as (_ & _ & -> & _). eauto.
  - destruct H as (_ & _ & _ & -> & _). auto.
  - destruct H as (_ & _ & _ & e & Htol & -> & ->).
    do 3 right. left. unfold next_tolerance_sq in Htol.
    destruct (it + 1 =? 1) eqn:H1; [|discriminate].
    apply Z.eqb_eq in H1. eexists e, _. split.
    { by destruct (float_pow2 rel); [discriminate|injection Htol as ->]. }
    split; [done|]. split; [reflexivity|]. simpl. exact H1.
  - destruct H as (_ & _ & _ & tol' & tr' & _ & Hrec & ->).
    destruct (IH _ _ _ _ _ _ Hrec)
      as [Hok|[Hn|[Hd|[(e & en & Hp & Ho & Hl & Hi)|
                       (e & sp & xp & Hit & Hsp & Ho)]]]]; auto.
    + do 3 right. left. exists e, en. split; [done|]. split; [done|].
      split; [|done]. rewrite last_cons. by rewrite Hl.
    + do 4 right. exists e, sp, xp. simpl. rewrite Hsw. auto.
Qed.

End FixedPointIteration.

(** ** C1 and C2: convergence and failure of the iteration *)

Section FixedPointSolverIteration.

Context {V BC : Type} `{!Backend V BC} {libm : PyFloat.Libm}.

(** A run from [it = 0] with enough fuel: it leaves, and its trace obeys the
    convergence rule and the failure rule. *)
Lemma loop_run {St : Type} (sweep : St -> res (St * V)) (what : string)
    (abs abs_sq rel : float) (maxit : Z) (x_0 : V) (s : St) :
  float_pow2 abs = Ok abs_sq ->
  exists out tr,
    fixed_point_loop sweep what rel maxit (enough_fuel maxit) 0 x_0
      abs_sq s = Some (out, tr) /\
    (forall (k : nat) e,
       tr !! k = Some e ->
       te_it e = 1 + Z.of_nat k /\
       spec_tolerance_sq abs rel tr k = Ok (te_tolerance_sq e)) /\
    (forall (k : nat) e,
       tr !! k = Some e -> (S k < length tr)%nat ->
       entry_converged e = false) /\
    ((exists s', out = Ok s') <->
     (exists e, last tr = Some e /\ entry_converged e = true)) /\
    iteration_failures sweep what rel maxit s x_0 out tr.
Proof.
  intros Habs.
  destruct (loop_terminates sweep what rel maxit (enough_fuel maxit) 0 x_0
              abs_sq s) as (out & tr & Hrun);
    [unfold enough_fuel; lia | unfold enough_fuel; lia |].
  exists out, tr. split; [exact Hrun|].
  pose proof (loop_iterations _ _ _ _ _ _ _ _ _ _ _ Hrun) as Hits.
  pose proof (loop_tolerances _ _ _ _ _ _ _ _ _ _ _ Habs Hrun) as Htols.
  pose proof (loop_earlier_passes _ _ _ _ _ _ _ _ _ _ _ Hrun) as Hearly.
  pose proof (loop_outcome _ _ _ _ _ _ _ _ _ _ _ Hrun) as Hout.
  split; [|split; [|split]].
  - intros k e Hk. split; [rewrite (Hits k e Hk); lia | by apply Htols].
  - intros k e Hk Hlen. by destruct (Hearly k e Hk Hlen) as (_ & ? & _).
  - split.
    + intros [s' ->]. destruct (last tr) as [e|].
      * exists e. split; [done|].
        destruct (PyFloat.isnan _); [discriminate|].
        destruct (entry_converged e); [done|].
        destruct (_ >=? _); [discriminate|].
        by destruct Hout as (? & ? & _).
      * by destruct Hout as (? & ? & _).
    + intros (e & Hlast & Hconv). rewrite Hlast in Hout.
      destruct (PyFloat.isnan _) eqn:Hnan.
      * unfold entry_converged in Hconv.
        by rewrite isnan_not_converged in Hconv.
      * by rewrite Hconv in Hout.
  - unfold iteration_failures. split; [|split; [|split]].
    + intros k e Hk Hnan.
      destruct (decide (S k < length tr)%nat) as [Hlt|Hge].
      { destruct (Hearly k e Hk Hlt) as (Hnn & _). congruence. }
      assert (length tr = S k) as Hlen.
      { apply lookup_lt_Some in Hk. lia. }
      split; [|done].
      assert (last tr = Some e) as Hlast.
      { rewrite last_lookup, Hlen. exact Hk. }
      rewrite Hlast in Hout. by rewrite Hnan in Hout.
    + intros e Hlast Hmax Hnan Hconv. rewrite Hlast in Hout.
      rewrite Hnan, Hconv in Hout.
      by replace (te_it e >=? maxit) with true in Hout
        by (symmetry; apply Z.geb_le; lia).
    + intros k e Hk Hlen. by destruct (Hearly k e Hk Hlen) as (_ & _ & ?).
    + destruct (loop_exits _ _ _ _ _ _ _ _ _ _ _ Hrun)
        as [Hok|[Hn|[Hd|[(e & en & Hp & Ho & Hl & Hi)|Hsw]]]]; auto.
      do 3 right. left. exists e. split; [done|]. split; [done|].
      rewrite last_lookup in Hl.
      destruct tr as [|e0 tr0]; [done|]. simpl in Hl.
      specialize (Hits _ _ Hl). rewrite Hi in Hits.
      destruct tr0; [done|]. simpl in Hits. lia.
Qed.

Lemma forward_setup_parameters (fp : FixedPointSolver (V:=V) (BC:=BC))
    (X : list Function)
    (deps : option (list Function)) (s : store) (st : forward_setup) :
  FixedPointSolver_forward_setup fp X deps s = Ok st ->
  absolute_tolerance (_solver_parameters fp) = Some (fs_absolute_tolerance st) /\
  relative_tolerance (_solver_parameters fp) = Some (fs_relative_tolerance st) /\
  maximum_iterations (_solver_parameters fp) = Some (fs_maximum_iterations st) /\
  last X = Some (fs_x st) /\
  exists nonzero,
    nonzero_initial_guess (_solver_parameters fp) = Some nonzero /\
    seed_initial_guess fp nonzero (fs_x st) deps s = Ok (fs_store st).
Proof.
  unfold FixedPointSolver_forward_setup, parameter, last_item. intros H.
  destruct (absolute_tolerance _) as [a|]; [|discriminate].
  destruct (relative_tolerance _) as [r|]; [|discriminate].
  destruct (maximum_iterations _) as [m|]; [|discriminate].
  destruct (nonzero_initial_guess _) as [nz|]; [|discriminate].
  destruct (report _) as [rp|]; [|discriminate].
  destruct (last X) as [x|]; [|discriminate].
  simpl in H.
  destruct (seed_initial_guess fp nz x deps s) as [s1|] eqn:Hseed;
    [|discriminate].
  simpl in H. destruct (member_deps fp deps) as [ed|]; [|discriminate].
  injection H as <-. simpl. eauto 10.
Qed.

Lemma adjoint_setup_parameters (fp : FixedPointSolver (V:=V) (BC:=BC))
    (nl_deps B : list V)
    (st : adjoint_setup) :
  FixedPointSolver_adjoint_setup fp nl_deps B = Ok st ->
  absolute_tolerance (_solver_parameters fp) = Some (as_absolute_tolerance st) /\
  relative_tolerance (_solver_parameters fp) = Some (as_relative_tolerance st) /\
  maximum_iterations (_solver_parameters fp) = Some (as_maximum_iterations st).
Proof.
  unfold FixedPointSolver_adjoint_setup, parameter. intros H.
  destruct (absolute_tolerance _) as [a|]; [|discriminate].
  destruct (relative_tolerance _) as [r|]; [|discriminate].
  destruct (maximum_iterations _) as [m|]; [|discriminate].
  destruct (report _) as [rp|]; [|discriminate].
  simpl in H.
  destruct (_init_adjoint_jacobian_solve fp) as [td|]; [|discriminate].
  simpl in H. destruct (last_item B) as [x|]; [|discriminate].
  simpl in H. destruct (select_deps _ _ _) as [nd|]; [|discriminate].
  injection H as <-. simpl. auto.
Qed.


(** After at least one forward pass the value handed on for [x] is the one
    in the store. *)
Lemma forward_iterates_x (fp : FixedPointSolver (V:=V) (BC:=BC))
    (X : list Function) (x : Function)
    (eq_deps : list (option (list Function))) (k : nat) :
  forall (s : store) (x_0 : V) (s' : store) (x' : V),
    iterates (forward_pass fp X x eq_deps) (S k) s x_0 = Ok (s', x') ->
    x' = s' x.
Proof.
  induction k as [|k IH]; intros s x_0 s' x' H; simpl in H.
  - destruct (forward_pass fp X x eq_deps s) as [[s1 x1]|] eqn:Hp;
      [|discriminate].
    injection H as <- <-. unfold forward_pass in Hp.
    by apply bind_Ok in Hp as (s2 & _ & [= <- <-]).
  - destruct (forward_pass fp X x eq_deps s) as [[s1 x1]|] eqn:Hp;
      [|discriminate].
    eapply (IH s1 x1). exact H.
Qed.

End FixedPointSolverIteration.

(** C1, as amended. For every FixedPointSolver forward solve that reaches
    the iteration, the solve leaves the loop, and:
    - the squared change norm of a pass is the squared norm of the
      difference between the value of the final solution [x] after the pass
      and its value after the previous pass, the first pass being compared
      with the zero Function [function_new(x)];
    - the first pass is tested against the squared absolute tolerance, every
      later pass against the larger of the squared absolute tolerance and
      the squared relative tolerance times the squared change norm of the
      first pass, the squares being what Python's [** 2] returns;
    - the solve converges exactly when its last pass has a squared change
      norm below that tolerance or equal to zero, no earlier pass had, and
      it returns the state after that pass. *)
Theorem forward_solve_convergence {V BC : Type} `{!Backend V BC}
    {libm : PyFloat.Libm}
    (fp : FixedPointSolver (V:=V) (BC:=BC)) (X : list Function)
    (deps : option (list Function)) (s : store) (st : forward_setup)
    (tolerance_sq : float) :
  FixedPointSolver_forward_setup fp X deps s = Ok st ->
  float_pow2 (fs_absolute_tolerance st) = Ok tolerance_sq ->
  let x := fs_x st in
  let pass := forward_pass fp X x (fs_eq_deps st) in
  let x_0 := zero_like (fs_store st x) in
  absolute_tolerance (_solver_parameters fp)
  = Some (fs_absolute_tolerance st) /\
  relative_tolerance (_solver_parameters fp)
  = Some (fs_relative_tolerance st) /\
  exists (out : res store) (tr : list trace_entry),
    FixedPointSolver_forward_solve fp X deps s = Some (out, tr) /\
    (forall (k : nat) (e : trace_entry),
       tr !! k = Some e ->
       exists (s_prev : store) (x_prev : V) (s_cur : store),
         iterates pass k (fs_store st) x_0 = Ok (s_prev, x_prev) /\
         x_prev = match k with O => x_0 | S _ => s_prev x end /\
         forward_sweep (_eqs fp) 0 X (fs_eq_deps st) s_prev = Ok s_cur /\
         te_r_norm_sq e = change_norm_sq x_prev (s_cur x)) /\
    (forall (k : nat) (e : trace_entry),
       tr !! k = Some e ->
       te_it e = 1 + Z.of_nat k /\
       spec_tolerance_sq (fs_absolute_tolerance st)
         (fs_relative_tolerance st) tr k
       = Ok (te_tolerance_sq e) /\
       entry_converged e
       = spec_below_tolerance e || PyFloat.eqb (te_r_norm_sq e) PyFloat.zero) /\
    (forall (k : nat) (e : trace_entry),
       tr !! k = Some e -> (S k < length tr)%nat ->
       entry_converged e = false) /\
    ((exists s' : store, out = Ok s') <->
     (exists e : trace_entry, last tr = Some e /\ entry_converged e = true)) /\
    (forall s' : store,
       out = Ok s' ->
       exists x' : V, iterates pass (length tr) (fs_store st) x_0 = Ok (s', x')).
Proof.
  intros Hsetup Hsq x pass x_0.
  destruct (forward_setup_parameters _ _ _ _ _ Hsetup) as (Ha & Hr & _).
  split; [exact Ha|]. split; [exact Hr|].
  unfold FixedPointSolver_forward_solve. rewrite Hsetup, Hsq.
  destruct (loop_run pass "forward equation" (fs_absolute_tolerance st)
              tolerance_sq
              (fs_relative_tolerance st) (fs_maximum_iterations st)
              x_0 (fs_store st) Hsq)
    as (out & tr & Hrun & Htol & Hearly & Hiff & _).
  exists out, tr. split; [exact Hrun|].
  split; [|split; [|split; [exact Hearly|split; [exact Hiff|]]]].
  - intros k e Hk.
    destruct (loop_change_norms _ _ _ _ _ _ _ _ _ _ _ Hrun k e Hk)
      as (sp & xp & sc & xc & Hit & Hsc & Hrn).
    unfold pass, forward_pass in Hsc.
    apply bind_Ok in Hsc as (sc' & Hsweep & [= <- <-]).
    exists sp, xp, sc'. split; [exact Hit|]. split; [|auto].
    destruct k as [|k]; [by injection Hit as _ <-|].
    eapply forward_iterates_x. exact Hit.
  - intros k e Hk. destruct (Htol k e Hk) as [Hit Ht].
    split; [exact Hit|]. split; [exact Ht|]. reflexivity.
  - intros s' ->. eapply loop_result. exact Hrun.
Qed.

(** With the parameters of [test_FixedPointSolver] (absolute tolerance 0.0)
    and [b = 0.0] the first pass changes nothing: the solve converges at a
    pass whose squared change norm, 0.0, is not below the tolerance 0.0.
    With absolute tolerance 1.0 and a start at the fixed point
    [x = z = b = 3.0] the first pass leaves [x] as it is, yet its squared
    change norm is 9.0, measured from zero, and the solve converges one pass
    later. Neither run reaches the C library: the squares taken are those
    of 0.0 and 1.0. *)
Lemma forward_solve_converges_at_zero_change :
  (exists (fp : FixedPointSolver (V:=float) (BC:=float)) (s' : store)
          (e : trace_entry),
     Example.relay None = Ok fp /\
     FixedPointSolver_forward_solve fp [Example.z; Example.x] None
       (Example.store_with (PyFloat.of_Z 0) (PyFloat.of_Z 5))
     = Some (Ok s', [e]) /\
     spec_tolerance_sq (PyFloat.of_Z 0) Example.f_1em14 [e] 0
     = Ok (te_tolerance_sq e) /\
     spec_below_tolerance e = false) /\
  (exists (fp : FixedPointSolver (V:=float) (BC:=float)) (s1 s' : store)
          (e1 e2 : trace_entry),
     let s := Example.store_with (PyFloat.of_Z 3) (PyFloat.of_Z 3) in
     Example.loose_relay = Ok fp /\
     forward_sweep (_eqs fp) 0 [Example.z; Example.x] [None; None] s = Ok s1 /\
     s1 Example.x = s Example.x /\
     FixedPointSolver_forward_solve fp [Example.z; Example.x] None s
     = Some (Ok s', [e1; e2]) /\
     te_r_norm_sq e1 = PyFloat.of_Z 9 /\
     te_tolerance_sq e1 = PyFloat.of_Z 1).
Proof.
  split.
  - do 3 eexists. split; [vm_compute; reflexivity|].
    split; [vm_compute; reflexivity|].
    split; reflexivity.
  - do 5 eexists. split; [vm_compute; reflexivity|].
    split; [vm_compute; reflexivity|].
    split; [reflexivity|].
    split; [vm_compute; reflexivity|].
    split; reflexivity.
Qed.

Lemma forward_solve_convergence_witness :
  exists (fp : FixedPointSolver (V:=float) (BC:=float)) (st : forward_setup),
    Example.relay None = Ok fp /\
    FixedPointSolver_forward_setup fp [Example.z; Example.x] None
      (Example.store_with (PyFloat.of_Z 3) (PyFloat.of_Z 5)) = Ok st /\
    exists (out : res store) (tr : list trace_entry),
      FixedPointSolver_forward_solve fp [Example.z; Example.x] None
        (Example.store_with (PyFloat.of_Z 3) (PyFloat.of_Z 5))
      = Some (out, tr) /\
      ((exists s' : store, out = Ok s') <->
       (exists e : trace_entry, last tr = Some e /\ entry_converged e = true)).
Proof.
  eexists. eexists.
  split; [vm_compute; reflexivity|].
  split; [vm_compute; reflexivity|].
  match goal with
  | |- exists out tr, FixedPointSolver_forward_solve ?fp ?X ?deps ?s = _ /\ _ =>
      destruct (forward_solve_convergence fp X deps s _ _ eq_refl eq_refl)
        as (_ & _ & out & tr & Hrun & _ & _ & _ & Hiff & _)
  end.
  exists out, tr. auto.
Defined.



(** With the relative tolerance 1.0e200 and [b = 3.0] the first pass does
    not converge, and [relative_tolerance ** 2] overflows: the solve leaves
    with the OverflowError after one pass. *)
Lemma forward_solve_relative_tolerance_overflow :
  exists (fp : FixedPointSolver (V:=float) (BC:=float)) (e1 : trace_entry),
    Example.huge_relay = Ok fp /\
    FixedPointSolver_forward_solve fp [Example.z; Example.x] None
      (Example.store_with (PyFloat.of_Z 3) (PyFloat.of_Z 5))
    = Some (Raise (OverflowError "(34, 'Numerical result out of range')"),
            [e1]) /\
    te_r_norm_sq e1 = PyFloat.of_Z 9.
Proof.
  do 2 eexists. split; [vm_compute; reflexivity|].
  split; [vm_compute; reflexivity|]. reflexivity.
Qed.


(** ** C5: the initial guess *)

Section InitialGuess.

Context {V BC : Type} `{!Backend V BC}.

Lemma check_distinct_solves_Ok (eqs : list (option (Equation (V:=V) (BC:=BC))))
    : forall x_ids members,
  check_distinct_solves eqs x_ids = Ok members -> eqs = Some <$> members.
Proof.
  induction eqs as [|[eq|] eqs IH]; intros x_ids members H; simpl in H.
  - by injection H as <-.
  - apply bind_Ok in H as (x & Hx & H).
    case_bool_decide; [discriminate|].
    apply bind_Ok in H as (rest & Hrest & [= <-]).
    rewrite fmap_cons. f_equal. by eapply IH.
  - discriminate.
Qed.

Lemma collect_deps_prefix (ds : list Function) : forall deps dep_ids indices,
  exists l, (collect_deps ds deps dep_ids indices).1.1 = deps ++ l.
Proof.
  induction ds as [|dep ds IH]; intros deps dep_ids indices; simpl.
  - exists []. by rewrite app_nil_r.
  - destruct (dep_ids !! function_id dep); [apply IH|].
    edestruct IH as [l ->]. exists (dep :: l). by rewrite <- app_assoc.
Qed.

Lemma collect_members_prefix (eqs : list (Equation (V:=V) (BC:=BC))) :
  forall c, exists l, c_deps (collect_members eqs c) = c_deps c ++ l.
Proof.
  induction eqs as [|eq eqs IH]; intros c; simpl.
  - exists []. by rewrite app_nil_r.
  - pose proof (collect_deps_prefix (dependencies (eq_base eq))
                  (c_deps c) (c_dep_ids c) []) as [l Hl].
    destruct (collect_deps (dependencies (eq_base eq)) _ _ _)
      as [[deps dep_ids] idx].
    destruct (collect_deps (nonlinear_dependencies (eq_base eq)) _ _ _)
      as [[nl_deps nl_dep_ids] nl_idx].
    simpl in Hl. edestruct IH as [l' ->]. simpl. rewrite Hl.
    exists (l ++ l'). by rewrite <- app_assoc.
Qed.

(** What [FixedPointSolver.__init__] makes of the initial guess. *)
Lemma FixedPointSolver_init_initial_guess
    (eqs : list (option (Equation (V:=V) (BC:=BC))))
    (params : SolverParameters) (initial_guess : option Function)
    (fp : FixedPointSolver) :
  FixedPointSolver_init eqs params initial_guess = Ok fp ->
  exists (eq_last : Equation) (x_last : Function),
    last eqs = Some (Some eq_last) /\ eq_x eq_last = Ok x_last /\
    _solver_parameters fp = with_default_parameters params /\
    match default true (nonzero_initial_guess params), initial_guess with
    | true, Some g =>
        if decide (g = x_last) then _initial_guess_index fp = None
        else _initial_guess_index fp = Some 0%nat /\
             dependencies (fp_base fp) !! 0%nat = Some g
    | true, None => _initial_guess_index fp = None
    | false, None => _initial_guess_index fp = None
    | false, Some _ => False
    end.
Proof.
  unfold FixedPointSolver_init. intros H.
  apply bind_Ok in H as (members & Hmem & H).
  apply bind_Ok in H as (eq_last & Hlast & H).
  apply bind_Ok in H as (x_last & Hx & H).
  simpl in H.
  apply check_distinct_solves_Ok in Hmem as ->.
  exists eq_last, x_last.
  unfold last_item in Hlast.
  destruct (last members) as [eq_l|] eqn:Hl; [|discriminate].
  injection Hlast as ->.
  split; [by rewrite fmap_last, Hl|]. split; [exact Hx|].
  destruct (default true (nonzero_initial_guess params)) eqn:Hnz;
    destruct initial_guess as [g|]; simpl in H.
  - case_bool_decide as Hg; simpl in H.
    + apply bind_Ok in H as (X & HX & H).
      apply bind_Ok in H as (b & Hb & [= <-]). simpl.
      split; [done|]. by rewrite decide_True.
    + apply bind_Ok in H as (X & HX & H).
      apply bind_Ok in H as (b & Hb & [= <-]). simpl.
      split; [done|]. rewrite decide_False by done. split; [done|].
      apply Equation_init_Ok in Hb as (_ & _ & _ & Hd & _).
      unfold dependencies. rewrite Hd.
      edestruct (collect_members_prefix members) as [l ->]. by simpl.
  - apply bind_Ok in H as (X & HX & H).
    apply bind_Ok in H as (b & Hb & [= <-]). by simpl.
  - discriminate.
  - apply bind_Ok in H as (X & HX & H).
    apply bind_Ok in H as (b & Hb & [= <-]). by simpl.
Qed.

End InitialGuess.

(** C5, as amended. For every FixedPointSolver built by its constructor and
    every forward solve of it that reaches the iteration, with [x] the final
    solution handed to the solve: if [nonzero_initial_guess] is true (the
    default) and an initial guess other than the final member's solution was
    given to the constructor, [x] is assigned the guess (the first entry of
    [deps] when the solve is given dependencies); if [nonzero_initial_guess]
    is true and no such guess was given, no Function is touched, so [x]
    keeps the value it had; if [nonzero_initial_guess] is false, [x] is
    zeroed, and the constructor has refused any initial guess. *)
Theorem initial_guess_seeding {V BC : Type} `{!Backend V BC}
    (eqs : list (option (Equation (V:=V) (BC:=BC))))
    (params : SolverParameters) (initial_guess : option Function)
    (fp : FixedPointSolver) (X : list Function)
    (deps : option (list Function)) (s : store) (st : forward_setup) :
  FixedPointSolver_init eqs params initial_guess = Ok fp ->
  FixedPointSolver_forward_setup fp X deps s = Ok st ->
  exists (eq_last : Equation) (x_last : Function),
    last eqs = Some (Some eq_last) /\ eq_x eq_last = Ok x_last /\
    last X = Some (fs_x st) /\
    match default true (nonzero_initial_guess params), initial_guess with
    | true, Some g =>
        if decide (g = x_last) then fs_store st = s
        else
          match deps with
          | None => fs_store st = function_assign (fs_x st) g s
          | Some d =>
              exists g', d !! 0%nat = Some g' /\
                         fs_store st = function_assign (fs_x st) g' s
          end
    | true, None => fs_store st = s
    | false, None => fs_store st = function_zero (fs_x st) s
    | false, Some _ => False
    end.
Proof.
  intros Hinit Hsetup.
  destruct (FixedPointSolver_init_initial_guess _ _ _ _ Hinit)
    as (eq_last & x_last & Hlast & Hx & Hp & Hg).
  destruct (forward_setup_parameters _ _ _ _ _ Hsetup)
    as (_ & _ & _ & HX & nz & Hnz & Hseed).
  exists eq_last, x_last. do 3 (split; [done|]).
  rewrite Hp in Hnz. simpl in Hnz. injection Hnz as <-.
  unfold seed_initial_guess in Hseed.
  destruct (default true (nonzero_initial_guess params));
    destruct initial_guess as [g|]; try done.
  - destruct (decide (g = x_last)).
    + rewrite Hg in Hseed. by injection Hseed.
    + destruct Hg as [Hi Hd]. rewrite Hi in Hseed.
      apply bind_Ok in Hseed as (g' & Hg' & [= <-]).
      apply getitem_Ok in Hg'. destruct deps as [d|]; simpl in Hg'.
      * eauto.
      * rewrite Hd in Hg'. by injection Hg' as <-.
  - rewrite Hg in Hseed. by injection Hseed.
  - by injection Hseed.
Qed.

(** With [nonzero_initial_guess] left at its default and no initial guess,
    the final solution [x], which held 5.0, still holds 5.0 when the
    iteration starts. *)
Lemma no_guess_keeps_previous_value :
  exists (fp : FixedPointSolver (V:=float) (BC:=float)) (st : forward_setup),
    Example.relay None = Ok fp /\
    nonzero_initial_guess Example.fp_parameters = None /\
    FixedPointSolver_forward_setup fp [Example.z; Example.x] None
      (Example.store_with (PyFloat.of_Z 3) (PyFloat.of_Z 5)) = Ok st /\
    fs_x st = Example.x /\
    fs_store st Example.x = PyFloat.of_Z 5 /\
    PyFloat.eqb (fs_store st Example.x) PyFloat.zero = false.
Proof.
  do 2 eexists. split; [vm_compute; reflexivity|]. split; [reflexivity|].
  split; [vm_compute; reflexivity|]. repeat split; reflexivity.
Qed.

Lemma initial_guess_seeding_witness :
  exists (eqs : list (option (Equation (V:=float) (BC:=float))))
         (fp : FixedPointSolver (V:=float) (BC:=float)) (st : forward_setup),
    Example.relay_members = Ok eqs /\
    FixedPointSolver_init eqs Example.fp_parameters (Some Example.b) = Ok fp /\
    FixedPointSolver_forward_setup fp [Example.z; Example.x] None
      (Example.store_with (PyFloat.of_Z 3) (PyFloat.of_Z 5)) = Ok st /\
    fs_store st
    = function_assign (fs_x st) Example.b
        (Example.store_with (PyFloat.of_Z 3) (PyFloat.of_Z 5)).
Proof.
  do 3 eexists.
  split; [vm_compute; reflexivity|].
  lazymatch goal with
  | |- FixedPointSolver_init ?eqs _ _ = _ /\ _ => pose (members := eqs)
  end.
  split; [vm_compute; reflexivity|].
  lazymatch goal with
  | |- FixedPointSolver_forward_setup ?fp _ _ _ = _ /\ _ => pose (solver := fp)
  end.
  split; [vm_compute; reflexivity|].
  lazymatch goal with
  | |- fs_store ?st = function_assign _ _ ?s =>
      destruct (initial_guess_seeding
                  (V:=float) (BC:=float) members Example.fp_parameters
                  (Some Example.b) solver [Example.z; Example.x] None s st
                  eq_refl eq_refl)
        as (eq_last & x_last & Hlast & Hx & _ & Hseed)
  end.
  simpl in Hseed. injection Hlast as <-. injection Hx as <-.
  exact Hseed.
Defined.

(** ** C4: the tangent-linear of a FixedPointSolver *)

(** C4 fails on the code. [FixedPointSolver.tangent_linear] hands the list
    of the members' tangent-linear equations to the constructor as it is,
    so it never returns [None], and a member whose tangent-linear is [None]
    makes the constructor raise AttributeError: for
    [FixedPointSolver([NullSolver(z), AssignmentSolver(z, x)])] both when
    no Function has a tangent-linear companion (every member's
    tangent-linear is [None]) and when every Function has one (only the
    first member's is [None]). *)
Theorem FixedPointSolver_tangent_linear_None_member :
  (forall (V BC : Type) (backend : Backend V BC)
          (fp : FixedPointSolver (V:=V) (BC:=BC)) (M dM : list Function)
          (tlm_map : Function -> option Function),
     FixedPointSolver_tangent_linear fp M dM tlm_map <> Ok None) /\
  (let m := mkFunction 4 false in
   let dm := mkFunction 5 false in
   let no_companion : Function -> option Function := fun _ => None in
   let companion : Function -> option Function :=
     fun f => Some (mkFunction (10 + function_id f) false) in
   exists fp : FixedPointSolver (V:=float) (BC:=float),
     Example.null_relay = Ok fp /\
     Forall (fun eq => tangent_linear eq [m] [dm] no_companion = Ok None)
       (_eqs fp) /\
     FixedPointSolver_tangent_linear fp [m] [dm] no_companion
     = Raise (AttributeError "'NoneType' object has no attribute 'x'") /\
     (exists tlm_eq : Equation,
        (fun eq => tangent_linear eq [m] [dm] companion) <$> _eqs fp
        = [Ok None; Ok (Some tlm_eq)]) /\
     FixedPointSolver_tangent_linear fp [m] [dm] companion
     = Raise (AttributeError "'NoneType' object has no attribute 'x'")).
Proof.
  split.
  - intros V BC backend fp M dM tlm_map H.
    unfold FixedPointSolver_tangent_linear in H.
    apply bind_Ok in H as (tlm_eqs & _ & H).
    apply bind_Ok in H as (guess & _ & H).
    apply fmap_Ok in H as (fp' & _ & H). discriminate.
  - eexists. split; [vm_compute; reflexivity|].
    split; [repeat constructor|].
    split; [vm_compute; reflexivity|].
    split; [eexists; vm_compute; reflexivity|].
    vm_compute; reflexivity.
Qed.

(** ** C10: Equation.solve and the state of the manager *)








(** * Further properties of the equations *)

(** ** Equation.__init__: what is accepted, and the index map *)

Lemma for_list_Ok {A B} (f : A -> res B) (l : list A) (m : list B) :
  for_list f l = Ok m ->
  length m = length l /\
  forall (i : nat) (a : A), l !! i = Some a ->
    exists b, m !! i = Some b /\ f a = Ok b.
Proof.
  revert m. induction l as [|a l IH]; intros m H; simpl in H.
  - injection H as <-. split; [done|]. intros i a Hi. by rewrite lookup_nil in Hi.
  - apply bind_Ok in H as (b & Hb & H).
    apply bind_Ok in H as (bs & Hbs & [= <-]).
    destruct (IH _ Hbs) as [Hlen Hall]. split; [simpl; by rewrite Hlen|].
    intros [|i] a' Hi; simpl in Hi.
    + injection Hi as <-. eauto.
    + by apply Hall.
Qed.

Lemma for_list_all_Ok {A B} (f : A -> res B) (l : list A) :
  Forall (fun a => exists b, f a = Ok b) l -> exists m, for_list f l = Ok m.
Proof.
  induction 1 as [|a l [b Hb] _ [m Hm]]; simpl; [eauto|].
  rewrite Hb. simpl. rewrite Hm. simpl. eauto.
Qed.

Lemma for_list_Raise {A B} (f : A -> res B) (l : list A) (e : exn) :
  Forall (fun a => (exists b, f a = Ok b) \/ f a = Raise e) l ->
  Exists (fun a => f a = Raise e) l ->
  for_list f l = Raise e.
Proof.
  induction 1 as [|a l Ha Hl IH]; intros Hex; [by apply Exists_nil in Hex|].
  simpl. destruct Ha as [[b Hb]|Ha]; [|by rewrite Ha].
  rewrite Hb. simpl. apply Exists_cons in Hex as [Hex|Hex]; [congruence|].
  by rewrite IH.
Qed.

Lemma check_solutions_complete X deps :
  Forall (fun x => function_is_static x = false /\ x ∈ deps) X ->
  check_solutions X deps = Ok tt.
Proof.
  induction 1 as [|x X [Hs Hin] _ IH]; simpl; [done|].
  rewrite Hs. unfold py_in. by rewrite bool_decide_eq_true_2.
Qed.

(** An entry of the dictionary points at a dependency with that
    identity. *)
Lemma enumerate_ids_lookup deps : forall i (d : gmap nat nat) k j,
  enumerate_ids i deps d !! k = Some j ->
  (exists dep, deps !! (j - i)%nat = Some dep /\ function_id dep = k /\
               (i <= j)%nat) \/
  d !! k = Some j.
Proof.
  induction deps as [|dep deps IH]; intros i d k j H; simpl in H; [by right|].
  apply IH in H as [(dep' & Hd & Hid & Hle)|H].
  - left. exists dep'.
    replace (j - i)%nat with (S (j - S i)) by lia. simpl. repeat split; [done..|lia].
  - destruct (decide (function_id dep = k)) as [<-|Hne].
    + rewrite lookup_insert_eq in H. injection H as <-.
      left. exists dep. rewrite Nat.sub_diag. simpl. auto.
    + rewrite lookup_insert_ne in H by done. by right.
Qed.

Lemma enumerate_ids_is_Some deps (k : nat) :
  is_Some (enumerate_ids 0 deps ∅ !! k) <-> k ∈ function_id <$> deps.
Proof.
  rewrite <- elem_of_dom, dom_enumerate_ids, dom_empty_L.
  rewrite (right_id_L ∅ (∪)). unfold id_set. apply elem_of_list_to_set.
Qed.

Lemma NoDup_size_id_set (l : list Function) :
  NoDup (function_id <$> l) ->
  (size (id_set l) =? length l)%nat = true.
Proof.
  intros Hnd. apply Nat.eqb_eq. unfold id_set.
  rewrite size_list_to_set by done. apply length_fmap.
Qed.

Lemma size_id_set_NoDup (l : list Function) :
  (size (id_set l) =? length l)%nat = true -> NoDup (function_id <$> l).
Proof.
  rewrite Nat.eqb_eq. unfold id_set. intros H.
  apply size_list_to_set_NoDup. by rewrite length_fmap.
Qed.

Lemma Equation_init_complete (X deps : list Function)
    (nl_deps : option (list Function)) :
  Equation_init_accepts X deps nl_deps ->
  exists b, Equation_init X deps nl_deps = Ok b.
Proof.
  intros (HX & Hnd & Hnl). unfold Equation_init.
  rewrite check_solutions_complete by done. simpl.
  assert ((size (enumerate_ids 0 deps ∅) =? length deps)%nat = true) as ->.
  { rewrite size_enumerate_ids. by apply NoDup_size_id_set. }
  simpl. destruct nl_deps as [nl|]; [|eauto].
  destruct Hnl as [Hnd' Hsub]. rewrite NoDup_size_id_set by done. simpl.
  edestruct (for_list_all_Ok
               (fun dep => match enumerate_ids 0 deps ∅ !! function_id dep with
                           | Some i => Ok i
                           | None => Raise (KeyError "dep.id()")
                           end) nl) as [m ->]; [|simpl; eauto].
  apply Forall_forall. intros d Hd.
  assert (is_Some (enumerate_ids 0 deps ∅ !! function_id d)) as [j ->]; [|eauto].
  apply enumerate_ids_is_Some, Hsub, list_elem_of_fmap. eauto.
Qed.

(** X1. [Equation.__init__] returns an Equation exactly when every solution
    is non-static and among [deps], no identity occurs twice in [deps], and
    (if [nl_deps] is given) no identity occurs twice in [nl_deps] and every
    identity of [nl_deps] is that of a dependency. When only the last
    condition fails, the error is a KeyError, not an EquationException. *)
Theorem Equation_init_accepts_iff (X deps : list Function)
    (nl_deps : option (list Function)) :
  ((exists b, Equation_init X deps nl_deps = Ok b) <->
   Equation_init_accepts X deps nl_deps) /\
  (forall nl,
     nl_deps = Some nl ->
     Forall (fun x => function_is_static x = false /\ x ∈ deps) X ->
     NoDup (function_id <$> deps) -> NoDup (function_id <$> nl) ->
     ~ (function_id <$> nl) ⊆ (function_id <$> deps) ->
     Equation_init X deps nl_deps = Raise (KeyError "dep.id()")).
Proof.
  split; [split|].
  - intros [b H]. pose proof (Equation_init_Ok _ _ _ _ H) as (HX & Hnd & _).
    split; [done|]. split; [done|].
    destruct nl_deps as [nl|]; [|done].
    unfold Equation_init in H. apply bind_Ok in H as ([] & _ & H).
    destruct (negb _) in H; [discriminate|].
    destruct (negb _) eqn:Hnl in H; [discriminate|].
    apply negb_false_iff in Hnl. split; [by apply size_id_set_NoDup|].
    apply bind_Ok in H as (m & Hm & _).
    apply for_list_Ok in Hm as [_ Hm].
    intros k Hk. apply list_elem_of_fmap in Hk as (d & -> & Hd).
    apply list_elem_of_lookup in Hd as [i Hi].
    destruct (Hm i d Hi) as (j & _ & Hj).
    apply enumerate_ids_is_Some.
    destruct (enumerate_ids 0 deps ∅ !! function_id d); [eauto|discriminate].
  - apply Equation_init_complete.
  - intros nl -> HX Hnd Hnd' Hsub. unfold Equation_init.
    rewrite check_solutions_complete by done. simpl.
    assert ((size (enumerate_ids 0 deps ∅) =? length deps)%nat = true) as ->.
    { rewrite size_enumerate_ids. by apply NoDup_size_id_set. }
    simpl. rewrite NoDup_size_id_set by done. simpl.
    rewrite (for_list_Raise _ nl (KeyError "dep.id()")); [done| |].
    + apply Forall_forall. intros d _.
      destruct (enumerate_ids 0 deps ∅ !! function_id d); eauto.
    + apply Exists_exists.
      destruct (decide (Forall (fun d => function_id d ∈ function_id <$> deps) nl))
        as [Hall|Hnall].
      { exfalso. apply Hsub. intros k Hk.
        apply list_elem_of_fmap in Hk as (d & -> & Hd).
        rewrite Forall_forall in Hall. by apply Hall. }
      apply not_Forall_Exists in Hnall; [|intros d; apply _].
      apply Exists_exists in Hnall as (d & Hd & Hnin).
      exists d. split; [done|].
      destruct (enumerate_ids 0 deps ∅ !! function_id d) eqn:Hl; [|done].
      exfalso. apply Hnin, enumerate_ids_is_Some. by rewrite Hl.
Qed.

Lemma Equation_init_accepts_iff_witness :
  let x := mkFunction 1 false in
  let y := mkFunction 2 false in
  let w := mkFunction 3 false in
  Equation_init [x] [x; y] (Some [w]) = Raise (KeyError "dep.id()").
Proof.
  intros x y w.
  apply (proj2 (Equation_init_accepts_iff [x] [x; y] (Some [w])) [w] eq_refl).
  - repeat constructor.
  - subst x y. apply NoDup_cons. split; [|apply NoDup_singleton].
    intros Hin. apply list_elem_of_singleton in Hin. discriminate.
  - apply NoDup_singleton.
  - intros Hsub. specialize (Hsub 3%nat). simpl in Hsub.
    assert (3%nat ∈ [1%nat; 2%nat]) as Hin by (apply Hsub; by left).
    apply elem_of_cons in Hin as [Hin|Hin]; [discriminate|].
    apply list_elem_of_singleton in Hin. discriminate.
Defined.

(** X2. In every Equation that [Equation.__init__] returns,
    [nonlinear_dependencies_map] has one entry per nonlinear dependency, and
    entry [i] is the position in [dependencies] of a Function with the
    identity of nonlinear dependency [i]; when [nl_deps] was omitted it is
    the identity map [0, 1, ...]. *)
Theorem nl_deps_map_indexes_dependencies (X deps : list Function)
    (nl_deps : option (list Function)) (b : EquationBase) :
  Equation_init X deps nl_deps = Ok b ->
  (length (_nl_deps_map b) = length (nonlinear_dependencies b))%nat /\
  (forall (i : nat) (d : Function),
     nonlinear_dependencies b !! i = Some d ->
     exists (j : nat) (d' : Function),
       _nl_deps_map b !! i = Some j /\
       dependencies b !! j = Some d' /\
       function_id d' = function_id d) /\
  (nl_deps = None -> _nl_deps_map b = seq 0 (length deps)).
Proof.
  intros H.
  pose proof (Equation_init_Ok _ _ _ _ H) as (_ & _ & _ & Hd & Hnl & _).
  unfold nonlinear_dependencies, dependencies. rewrite Hnl, Hd.
  unfold Equation_init in H. apply bind_Ok in H as ([] & _ & H).
  destruct (negb _) in H; [discriminate|].
  destruct nl_deps as [nl|].
  - destruct (negb _) in H; [discriminate|].
    apply bind_Ok in H as (m & Hm & [= <-]). simpl.
    apply for_list_Ok in Hm as [Hlen Hm].
    split; [done|]. split; [|done].
    intros i d Hi. destruct (Hm i d Hi) as (j & Hj & Hlook).
    destruct (enumerate_ids 0 deps ∅ !! function_id d) as [j'|] eqn:Hl;
      [|discriminate].
    injection Hlook as ->.
    apply enumerate_ids_lookup in Hl as [(d' & Hd' & Hid & _)|Hl];
      [|by rewrite lookup_empty in Hl].
    rewrite Nat.sub_0_r in Hd'. eauto.
  - injection H as <-. simpl. split; [by rewrite length_seq|].
    split; [|done].
    intros i d Hi. exists i, d.
    split; [|done]. apply lookup_seq. split; [done|].
    by eapply lookup_lt_Some.
Qed.

Lemma nl_deps_map_indexes_dependencies_witness :
  let x := mkFunction 1 false in
  let y := mkFunction 2 false in
  let w := mkFunction 3 false in
  exists b, Equation_init [x] [x; y; w] (Some [w; x]) = Ok b /\
            _nl_deps_map b = [2%nat; 0%nat] /\
            (length (_nl_deps_map b) = length (nonlinear_dependencies b))%nat.
Proof.
  eexists. split; [reflexivity|]. split; [reflexivity|].
  exact (proj1 (nl_deps_map_indexes_dependencies
                  [mkFunction 1 false]
                  [mkFunction 1 false; mkFunction 2 false; mkFunction 3 false]
                  (Some [mkFunction 3 false; mkFunction 1 false]) _ eq_refl)).
Defined.

(** ** The linear solvers: constructors and forward solves *)

Section LinearSolvers.

Context {V BC : Type} `{!Backend V BC}.

(** X3. [LinearCombinationSolver(x, (alpha_0, y_0), ...)] is accepted
    exactly when [x] is not static and [x, y_0, y_1, ...] have pairwise
    distinct identities; so a Function may occur in one term only, and
    [AxpySolver(x_old, alpha, y, x_new)] with [y] being [x_old] is refused
    with an EquationException. [AssignmentSolver(y, x)] is accepted exactly
    when [x] is not static and [x] and [y] have distinct identities. *)
Theorem linear_solver_constructors_accept
    (x : Function) (bcs : list BC) :
  (forall args : list (float * Function),
     (exists eq : Equation (V:=V),
        LinearCombinationSolver_init x args bcs = Ok eq) <->
     function_is_static x = false /\
     NoDup (function_id <$> x :: args.*2)) /\
  (forall (x_old : Function) (alpha : float),
     raises_EquationException
       (AxpySolver_init (V:=V) x_old alpha x_old x bcs)) /\
  (forall y : Function,
     (exists eq : Equation (V:=V), AssignmentSolver_init y x bcs = Ok eq) <->
     function_is_static x = false /\ function_id x <> function_id y).
Proof.
  assert (forall args : list (float * Function),
     (exists eq : Equation (V:=V),
        LinearCombinationSolver_init x args bcs = Ok eq) <->
     function_is_static x = false /\
     NoDup (function_id <$> x :: args.*2)) as Hlin.
  { intros args. split.
    - intros [eq Heq]. unfold LinearCombinationSolver_init in Heq.
      destruct (py_in _ _); [discriminate|].
      apply bind_Ok in Heq as (b & Hb & _).
      apply Equation_init_Ok in Hb as (HX & Hnd & _).
      apply Forall_cons in HX as [[Hs _] _]. done.
    - intros [Hs Hnd]. unfold LinearCombinationSolver_init, py_in.
      rewrite bool_decide_eq_false_2.
      + destruct (Equation_init_complete [x] (x :: args.*2) (Some []))
          as [b ->]; [|simpl; eauto].
        split; [|split; [done|]].
        * apply Forall_singleton. split; [done|]. by left.
        * split; [constructor|]. intros k Hk. by apply elem_of_nil in Hk.
      + intros Hin. rewrite fmap_cons in Hnd.
        apply NoDup_cons in Hnd as [Hnin _]. apply Hnin.
        apply list_elem_of_fmap. eauto. }
  split; [exact Hlin|]. split.
  - intros x_old alpha. unfold AxpySolver_init.
    destruct (LinearCombinationSolver_init (V:=V) x
                [(PyFloat.of_Z 1, x_old); (alpha, x_old)] bcs) as [eq|e] eqn:He.
    + exfalso. assert (exists eq : Equation (V:=V),
        LinearCombinationSolver_init x
          [(PyFloat.of_Z 1, x_old); (alpha, x_old)] bcs = Ok eq) as Hex by eauto.
      apply Hlin in Hex as [_ Hnd]. simpl in Hnd.
      apply NoDup_cons in Hnd as [_ Hnd].
      apply NoDup_cons in Hnd as [Hnin _]. apply Hnin. by left.
    + unfold LinearCombinationSolver_init in He.
      destruct (py_in _ _); [injection He as <-; by eexists|].
      destruct (Equation_init _ _ _) as [b|e'] eqn:Hb; [discriminate|].
      simpl in He. injection He as <-.
      destruct (Equation_init_error [x] (x :: [x_old; x_old]) (Some []))
        as [msg Hmsg].
      2:{ simpl in Hb.
          rewrite Hb in Hmsg. injection Hmsg as ->. by eexists. }
      left. intros Hnd. apply NoDup_cons in Hnd as [_ Hnd].
      apply NoDup_cons in Hnd as [Hnin _]. apply Hnin. by left.
  - intros y. split.
    + intros [eq Heq]. unfold AssignmentSolver_init in Heq.
      destruct (bool_decide _); [discriminate|].
      apply bind_Ok in Heq as (b & Hb & _).
      apply Equation_init_Ok in Hb as (HX & Hnd & _).
      apply Forall_cons in HX as [[Hs _] _]. split; [done|].
      apply NoDup_cons in Hnd as [Hnin _]. intros Hid. apply Hnin.
      rewrite Hid. by left.
    + intros [Hs Hid]. unfold AssignmentSolver_init.
      rewrite bool_decide_eq_false_2 by (by intros ->).
      destruct (Equation_init_complete [x] [x; y] (Some []))
        as [b ->]; [|simpl; eauto].
      split; [|split].
      * apply Forall_singleton. split; [done|]. by left.
      * simpl. apply NoDup_cons. split; [|apply NoDup_singleton].
        intros Hin. by apply list_elem_of_singleton in Hin.
      * split; [constructor|]. intros k Hk. by apply elem_of_nil in Hk.
Qed.

(** X4. After the forward solve of [AssignmentSolver(y, x)], [x] holds the
    boundary conditions applied to the value of [y], [y] and every other
    Function are as before, and solving again changes nothing. *)
Theorem AssignmentSolver_forward_solve_copies (y x : Function)
    (bcs : list BC) (eq : Equation (V:=V)) (s : store) :
  AssignmentSolver_init y x bcs = Ok eq ->
  exists s' : store,
    forward_solve eq x None s = Ok s' /\
    s' x = apply_bcs_value (s y) bcs /\
    s' y = s y /\
    (forall f, f <> x -> s' f = s f) /\
    exists s'' : store,
      forward_solve eq x None s' = Ok s'' /\ forall f, s'' f = s' f.
Proof.
  intros Heq.
  apply AssignmentSolver_init_Ok in Heq as (Hxy & b & -> & _ & Hd).
  simpl. unfold AssignmentSolver_forward_solve, dependencies. rewrite Hd.
  simpl. eexists. split; [reflexivity|].
  assert (forall t : store,
            apply_bcs x bcs (function_assign x y t) x
            = apply_bcs_value (t y) bcs) as Hx.
  { intros t. unfold apply_bcs, function_assign.
    by rewrite !store_insert_eq. }
  assert (forall (t : store) f, f <> x ->
            apply_bcs x bcs (function_assign x y t) f = t f) as Hf.
  { intros t f Hne. unfold apply_bcs, function_assign.
    by rewrite !store_insert_ne. }
  split; [apply Hx|]. split; [by apply Hf|]. split; [apply Hf|].
  eexists. split; [reflexivity|]. intros f.
  destruct (decide (f = x)) as [->|Hne].
  - rewrite !Hx. f_equal. by apply Hf.
  - by rewrite Hf.
Qed.

End LinearSolvers.

Lemma AssignmentSolver_forward_solve_copies_witness :
  let x := mkFunction 1 false in
  let y := mkFunction 2 false in
  let s : store (V:=float) :=
    fun f => if decide (f = y) then PyFloat.of_Z 3 else PyFloat.of_Z 7 in
  exists (eq : Equation (V:=float) (BC:=float)) (s' : store),
    AssignmentSolver_init y x [] = Ok eq /\
    forward_solve eq x None s = Ok s' /\
    s' x = PyFloat.of_Z 3.
Proof.
  eexists.
  destruct (AssignmentSolver_forward_solve_copies
              (V:=float) (BC:=float) (mkFunction 2 false) (mkFunction 1 false)
              [] _
              (fun f => if decide (f = mkFunction 2 false)
                        then PyFloat.of_Z 3 else PyFloat.of_Z 7)
              eq_refl) as (s' & Hs' & Hx & _).
  exists s'. split; [reflexivity|]. split; [exact Hs'|]. exact Hx.
Defined.

(** ** The tangent-linear equations of the linear solvers *)

Lemma find_tau_y_result (x y : Function) (M dM : list Function) :
  forall (i : nat) (tau_y : option Function),
    x ∉ M -> (i + length M <= length dM)%nat ->
    find_tau_y x y i M dM tau_y
    = Ok (match last (filter (fun p => p.1 = y) (zip M (drop i dM))) with
          | Some p => Some p.2
          | None => tau_y
          end).
Proof.
  induction M as [|m M IH]; intros i tau_y Hnin Hlen; [done|].
  apply not_elem_of_cons in Hnin as [Hxm Hnin]. simpl in Hlen.
  destruct (lookup_lt_is_Some_2 dM i) as [dm Hdm]; [lia|].
  rewrite (drop_S _ _ _ Hdm). simpl.
  rewrite bool_decide_eq_false_2 by done.
  rewrite filter_cons. simpl. case_bool_decide as Hmy.
  - rewrite decide_True by done.
    unfold getitem. rewrite Hdm. simpl. rewrite IH by (done || lia).
    rewrite last_cons.
    by destruct (last (filter _ (zip M (drop (S i) dM)))).
  - rewrite decide_False by done. apply IH; (done || lia).
Qed.

Lemma index_of_NoDup (ys : list Function) (i : nat) (y : Function) :
  NoDup ys -> ys !! i = Some y -> index_of ys y = Some i.
Proof.
  intros Hnd Hi. unfold index_of.
  destruct (list_find (fun y0 => y0 = y) ys) as [[j y']|] eqn:Hf; simpl.
  - apply list_find_Some in Hf as (Hj & -> & _).
    f_equal. by eapply NoDup_lookup.
  - apply list_find_None in Hf. rewrite Forall_forall in Hf.
    exfalso. eapply Hf; [|done]. by eapply list_elem_of_lookup_2.
Qed.

Lemma index_of_None (ys : list Function) (m : Function) :
  m ∉ ys -> index_of ys m = None.
Proof.
  intros Hnin. unfold index_of.
  destruct (list_find (fun y0 => y0 = m) ys) as [[j y']|] eqn:Hf; [|done].
  apply list_find_Some in Hf as (Hj & -> & _).
  exfalso. apply Hnin. by eapply list_elem_of_lookup_2.
Qed.

(** The directions [assign_tau_ys] leaves in [tau_ys]. *)
Lemma assign_tau_ys_result (x : Function) (ys : list Function) :
  NoDup ys ->
  forall (MdM : list (Function * Function)) (tau_ys : list (option Function)),
    x ∉ MdM.*1 -> length tau_ys = length ys ->
    exists tau_ys',
      assign_tau_ys x ys MdM tau_ys = Ok tau_ys' /\
      length tau_ys' = length ys /\
      forall (i : nat) (y : Function),
        ys !! i = Some y ->
        tau_ys' !! i
        = match last (filter (fun p => p.1 = y) MdM) with
          | Some p => Some (Some p.2)
          | None => tau_ys !! i
          end.
Proof.
  intros Hnd. induction MdM as [|[m dm] MdM IH]; intros tau_ys Hnin Hlen.
  - exists tau_ys. simpl. auto.
  - rewrite fmap_cons in Hnin. simpl in Hnin.
    apply not_elem_of_cons in Hnin as [Hxm Hnin]. simpl.
    rewrite bool_decide_eq_false_2 by done.
    destruct (decide (m ∈ ys)) as [Hin|Hmnin].
    + apply list_elem_of_lookup in Hin as [j Hj].
      rewrite (index_of_NoDup ys j m Hnd Hj).
      destruct (IH (<[j := Some dm]> tau_ys) Hnin) as (t' & Ht' & Hl' & Hall);
        [by rewrite length_insert|].
      exists t'. split; [exact Ht'|]. split; [exact Hl'|].
      intros i y Hi. rewrite (Hall i y Hi), filter_cons. simpl.
      destruct (decide (m = y)) as [->|Hne].
      * assert (i = j) as -> by (by eapply NoDup_lookup).
        rewrite last_cons.
        destruct (last (filter _ MdM)); [done|].
        rewrite list_lookup_insert_eq; [done|].
        rewrite Hlen. by eapply lookup_lt_Some.
      * destruct (last (filter _ MdM)); [done|].
        rewrite list_lookup_insert_ne; [done|]. by intros ->; congruence.
    + rewrite (index_of_None ys m Hmnin).
      destruct (IH tau_ys Hnin Hlen) as (t' & Ht' & Hl' & Hall).
      exists t'. split; [exact Ht'|]. split; [exact Hl'|].
      intros i y Hi. rewrite (Hall i y Hi), filter_cons. simpl.
      rewrite decide_False; [done|].
      intros ->. apply Hmnin. by eapply list_elem_of_lookup_2.
Qed.

Lemma omap_zip_fst_fmap_snd {A B C D} (h : A * C -> option D) (f : B -> C)
    (args : list (A * B)) :
  omap h (zip (args.*1) (f <$> args.*2))
  = omap (fun ay => h (ay.1, f ay.2)) args.
Proof.
  induction args as [|[a b] args IH]; [done|].
  rewrite !fmap_cons. cbn [zip_with fst snd omap list_omap].
  by rewrite <- IH.
Qed.

Section TangentLinearEquations.

Context {V BC : Type} `{!Backend V BC}.

(** X5. Let [M] not contain the solution [x] of [AssignmentSolver(y, x)],
    let [dM] give a direction for every parameter in [M], and let [x] have
    the tangent-linear companion [tlm_x]. Then [tangent_linear] returns
    [None] when [y] is no parameter and has no companion, and otherwise the
    [AssignmentSolver] that assigns the direction of [y] (the entry of [dM]
    for the last occurrence of [y] in [M], else the companion of [y]) to
    [tlm_x] under the homogenised boundary conditions. *)
Theorem AssignmentSolver_tangent_linear_equation (y x : Function)
    (bcs : list BC) (eq : Equation (V:=V)) (M dM : list Function)
    (tlm_map : Function -> option Function) (tlm_x : Function) :
  AssignmentSolver_init y x bcs = Ok eq ->
  x ∉ M -> (length M <= length dM)%nat -> tlm_map x = Some tlm_x ->
  tangent_linear eq M dM tlm_map
  = match direction_of M dM tlm_map y with
    | None => Ok None
    | Some tau_y =>
        Some <$> AssignmentSolver_init tau_y tlm_x (homogenize_bc <$> bcs)
    end.
Proof.
  intros Heq Hnin Hlen Hx.
  apply AssignmentSolver_init_Ok in Heq as (_ & b & -> & _ & Hd).
  simpl. unfold AssignmentSolver_tangent_linear, dependencies. rewrite Hd.
  rewrite find_tau_y_result by (done || simpl; lia).
  rewrite drop_0. simpl. unfold direction_of.
  destruct (last (filter _ (zip M dM))) as [p|]; [by rewrite Hx|].
  destruct (tlm_map y); [by rewrite Hx | done].
Qed.

(** X6. Let [M] not contain the solution [x] of a
    [LinearCombinationSolver] x <- sum(alpha_i * y_i), and let [x] have the
    tangent-linear companion [tlm_x]. Then [tangent_linear] keeps, with
    their coefficients and in their order, the terms whose [y_i] has a
    direction (the entry of [dM] for the last occurrence of [y_i] in [M],
    else the companion of [y_i]), returns [None] when no term is left, and
    otherwise the [LinearCombinationSolver] of these terms for [tlm_x] under
    the homogenised boundary conditions. *)
Theorem LinearCombinationSolver_tangent_linear_equation (x : Function)
    (args : list (float * Function)) (bcs : list BC) (eq : Equation (V:=V))
    (M dM : list Function) (tlm_map : Function -> option Function)
    (tlm_x : Function) :
  LinearCombinationSolver_init x args bcs = Ok eq ->
  x ∉ M -> tlm_map x = Some tlm_x ->
  let tlm_args :=
    omap (fun ay => match direction_of M dM tlm_map ay.2 with
                    | Some tau_y => Some (ay.1, tau_y)
                    | None => None
                    end) args in
  tangent_linear eq M dM tlm_map
  = match tlm_args with
    | [] => Ok None
    | _ => Some <$> LinearCombinationSolver_init tlm_x tlm_args
                      (homogenize_bc <$> bcs)
    end.
Proof.
  intros Heq Hnin Hx tlm_args.
  apply LinearCombinationSolver_init_Ok in Heq as (_ & Hnd & b & -> & _ & Hd).
  simpl. unfold LinearCombinationSolver_tangent_linear, dependencies.
  rewrite Hd. simpl. rewrite drop_0.
  rewrite fmap_cons in Hnd. apply NoDup_cons in Hnd as [_ Hnd].
  apply NoDup_fmap_1 in Hnd.
  destruct (assign_tau_ys_result x (args.*2) Hnd (zip M dM)
              ((fun _ => None) <$> args.*2))
    as (tau_ys & -> & Hlen & Hall).
  { intros Hin. apply Hnin. apply list_elem_of_fmap in Hin as ([m dm] & -> & Hp).
    by apply elem_of_zip_l in Hp. }
  { by rewrite length_fmap. }
  simpl.
  assert (zip_with (fun y tau_y =>
                      match tau_y with None => tlm_map y | Some _ => tau_y end)
            (args.*2) tau_ys
          = direction_of M dM tlm_map <$> args.*2) as ->.
  { clear -Hall Hlen. revert Hall Hlen. generalize (args.*2).
    intros ys Hall Hlen.
    apply list_eq. intros i. rewrite lookup_zip_with, list_lookup_fmap.
    destruct (ys !! i) as [y|] eqn:Hy; [|done]. simpl.
    rewrite (Hall i y Hy). unfold direction_of.
    destruct (last (filter _ (zip M dM))); [done|].
    by rewrite list_lookup_fmap, Hy. }
  rewrite (omap_zip_fst_fmap_snd
             (fun at_ => match at_.2 with
                         | Some tau_y => Some (at_.1, tau_y)
                         | None => None
                         end)). simpl.
  fold tlm_args. destruct tlm_args; [done|]. by rewrite Hx.
Qed.

End TangentLinearEquations.

Lemma AssignmentSolver_tangent_linear_equation_witness :
  let x := mkFunction 1 false in
  let y := mkFunction 2 false in
  let dy := mkFunction 3 false in
  let tlm_map : Function -> option Function :=
    fun f => if decide (f = x) then Some (mkFunction 11 false) else None in
  exists eq : Equation (V:=float) (BC:=float),
    AssignmentSolver_init y x [] = Ok eq /\
    tangent_linear eq [y] [dy] tlm_map
    = Some <$> AssignmentSolver_init dy (mkFunction 11 false) [].
Proof.
  intros x y dy tlm_map. eexists. split; [reflexivity|].
  refine (AssignmentSolver_tangent_linear_equation
            (V:=float) (BC:=float) y x [] _ [y] [dy] tlm_map
            (mkFunction 11 false) eq_refl _ _ eq_refl).
  - intros Hin. apply list_elem_of_singleton in Hin. discriminate.
  - simpl. lia.
Defined.

Lemma LinearCombinationSolver_tangent_linear_equation_witness :
  let x := mkFunction 1 false in
  let a := mkFunction 2 false in
  let b := mkFunction 3 false in
  let tlm_map : Function -> option Function :=
    fun f => if decide (f = b) then None
             else Some (mkFunction (10 + function_id f) false) in
  exists eq : Equation (V:=float) (BC:=float),
    LinearCombinationSolver_init x
      [(PyFloat.of_Z 1, a); (PyFloat.of_Z 2, b)] [] = Ok eq /\
    tangent_linear eq [] [] tlm_map
    = Some <$> LinearCombinationSolver_init (mkFunction 11 false)
                 [(PyFloat.of_Z 1, mkFunction 12 false)] [].
Proof.
  intros x a b tlm_map. eexists. split; [reflexivity|].
  refine (LinearCombinationSolver_tangent_linear_equation
            (V:=float) (BC:=float) x
            [(PyFloat.of_Z 1, a); (PyFloat.of_Z 2, b)] [] _ [] [] tlm_map
            (mkFunction 11 false) eq_refl _ eq_refl).
  apply not_elem_of_nil.
Defined.

(** ** FixedPointSolver.__init__: the index tables *)

Lemma ids_table_empty : ids_table [] ∅.
Proof.
  intros k j. split.
  - intros H. by rewrite lookup_empty in H.
  - intros (d & Hd & _). by rewrite lookup_nil in Hd.
Qed.

Lemma ids_table_singleton (g : Function) :
  ids_table [g] {[function_id g := 0%nat]}.
Proof.
  intros k j. split.
  - intros H. apply lookup_singleton_Some in H as [<- <-]. by exists g.
  - intros (d & Hd & <-).
    apply list_lookup_singleton_Some in Hd as [-> <-].
    apply lookup_singleton_eq.
Qed.

Lemma ids_table_append (deps : list Function) (dep_ids : gmap nat nat)
    (dep : Function) :
  ids_table deps dep_ids -> dep_ids !! function_id dep = None ->
  ids_table (deps ++ [dep]) (<[function_id dep := length deps]> dep_ids).
Proof.
  intros Ht Hnone k j. split.
  - intros H. apply lookup_insert_Some in H as [[<- <-]|[Hne H]].
    + exists dep. split; [|done].
      rewrite lookup_app_r by lia. by rewrite Nat.sub_diag.
    + apply Ht in H as (d & Hd & Hid). exists d. split; [|done].
      by apply lookup_app_l_Some.
  - intros (d & Hd & <-).
    apply lookup_app_Some in Hd as [Hd|[Hge Hd]].
    + assert (dep_ids !! function_id d = Some j) as Hj by (apply Ht; eauto).
      rewrite lookup_insert_ne; [done|]. intros Heq. congruence.
    + apply list_lookup_singleton_Some in Hd as [Hj <-].
      assert (j = length deps) as -> by lia.
      apply lookup_insert_eq.
Qed.

Lemma ids_table_NoDup (deps : list Function) (dep_ids : gmap nat nat) :
  ids_table deps dep_ids -> NoDup (function_id <$> deps).
Proof.
  intros Ht. apply NoDup_alt. intros i j k Hi Hj.
  rewrite list_lookup_fmap in Hi, Hj.
  destruct (deps !! i) as [di|] eqn:Hdi; [|discriminate].
  destruct (deps !! j) as [dj|] eqn:Hdj; [|discriminate].
  simpl in Hi, Hj. injection Hi as Hi. injection Hj as Hj.
  assert (dep_ids !! k = Some i) as H1 by (apply Ht; eauto).
  assert (dep_ids !! k = Some j) as H2 by (apply Ht; eauto).
  congruence.
Qed.

(** The inner loop of [FixedPointSolver.__init__] only appends to [deps]
    and [indices], only adds keys to [dep_ids], and the index appended for
    a dependency is its entry in the final dictionary. *)
Lemma collect_deps_table (ds : list Function) :
  forall deps dep_ids indices,
    ids_table deps dep_ids ->
    exists l dep_ids' idx,
      collect_deps ds deps dep_ids indices
      = (deps ++ l, dep_ids', indices ++ idx) /\
      ids_table (deps ++ l) dep_ids' /\ dep_ids ⊆ dep_ids' /\
      Forall2 (fun d j => dep_ids' !! function_id d = Some j) ds idx.
Proof.
  induction ds as [|dep ds IH]; intros deps dep_ids indices Ht; simpl.
  - exists [], dep_ids, []. rewrite !app_nil_r.
    split; [done|]. split; [done|]. split; [done|constructor].
  - destruct (dep_ids !! function_id dep) as [j|] eqn:Hl.
    + destruct (IH deps dep_ids (indices ++ [j]) Ht)
        as (l & dep_ids' & idx & -> & Ht' & Hsub & Hall).
      exists l, dep_ids', (j :: idx). rewrite <- app_assoc.
      split; [done|]. split; [done|]. split; [done|].
      constructor; [|done]. by eapply lookup_weaken.
    + pose proof (ids_table_append deps dep_ids dep Ht Hl) as Ht1.
      rewrite length_app. simpl.
      replace (length deps + 1 - 1)%nat with (length deps) by lia.
      destruct (IH (deps ++ [dep])
                  (<[function_id dep := length deps]> dep_ids)
                  (indices ++ [length deps]) Ht1)
        as (l & dep_ids' & idx & -> & Ht' & Hsub & Hall).
      rewrite <- !app_assoc in *. simpl in *.
      exists (dep :: l), dep_ids', (length deps :: idx).
      split; [done|]. split; [done|]. split.
      * etrans; [|exact Hsub]. by apply insert_subseteq.
      * constructor; [|done].
        eapply lookup_weaken; [|exact Hsub]. apply lookup_insert_eq.
Qed.

Lemma for_list_Forall2 {A B} (f : A -> res B) (l : list A) (m : list B) :
  Forall2 (fun a b => f a = Ok b) l m -> for_list f l = Ok m.
Proof.
  induction 1 as [|a b l m Hab _ IH]; simpl; [done|].
  by rewrite Hab; simpl; rewrite IH.
Qed.

(** [[f(l[i]) for i in range(len(l))]] is [[f(a) for a in l]]. *)
Lemma for_list_seq_getitem {A B} (f : A -> res B) (l : list A) :
  forall pre : list A,
    for_list (fun i => a ← getitem (pre ++ l) i; f a)
      (seq (length pre) (length l))
    = for_list f l.
Proof.
  induction l as [|a l IH]; intros pre; [done|].
  cbn [length seq for_list].
  assert (getitem (pre ++ a :: l) (length pre) = Ok a) as ->.
  { apply getitem_Ok. rewrite lookup_app_r by lia. by rewrite Nat.sub_diag. }
  simpl. destruct (f a) as [b|e]; [|done]. simpl.
  specialize (IH (pre ++ [a])). rewrite <- app_assoc in IH. simpl in IH.
  rewrite length_app in IH. simpl in IH.
  replace (length pre + 1)%nat with (S (length pre)) in IH by lia.
  by rewrite IH.
Qed.

(** Looking the indices of a member up in any list of values that is as
    long as [deps] succeeds, and gives for each dependency of the member the
    value at the position where [deps] holds its identity. *)
Lemma select_deps_table {A} (deps : list Function) (table : gmap nat nat)
    (vals : list A) (dss : list (list Function)) (idxs : list (list nat)) :
  ids_table deps table -> (length deps <= length vals)%nat ->
  Forall2 (Forall2 (fun d j => table !! function_id d = Some j)) dss idxs ->
  exists sel,
    select_deps vals idxs (length dss) = Ok sel /\
    Forall2 (Forall2 (fun d v =>
               exists (k : nat) (d' : Function),
                 deps !! k = Some d' /\ function_id d' = function_id d /\
                 vals !! k = Some v)) dss sel.
Proof.
  intros Ht Hlen Hall. unfold select_deps.
  rewrite (Forall2_length _ _ _ Hall).
  pose proof (for_list_seq_getitem (for_list (getitem vals)) idxs []) as Hs.
  cbn [app length] in Hs. rewrite Hs. clear Hs.
  induction Hall as [|ds idx dss idxs Hds _ (sel & Hsel & Hrel)].
  - exists []. split; [done|constructor].
  - assert (exists vs,
              for_list (getitem vals) idx = Ok vs /\
              Forall2 (fun d v =>
                exists (k : nat) (d' : Function),
                  deps !! k = Some d' /\ function_id d' = function_id d /\
                  vals !! k = Some v) ds vs) as (vs & Hvs & Hrel').
    { clear -Ht Hlen Hds.
      induction Hds as [|d j ds idx Hj _ (vs & Hvs & Hrel)].
      - exists []. split; [done|constructor].
      - apply Ht in Hj as (d' & Hd' & Hid).
        destruct (lookup_lt_is_Some_2 vals j) as [v Hv].
        { apply lookup_lt_Some in Hd'. lia. }
        exists (v :: vs). split.
        + simpl. apply getitem_Ok in Hv. rewrite Hv. simpl. by rewrite Hvs.
        + constructor; [|done]. eauto. }
    exists (vs :: sel). split.
    + simpl. rewrite Hvs. simpl. by rewrite Hsel.
    + by constructor.
Qed.

Section FixedPointSolverTables.

Context {V BC : Type} `{!Backend V BC}.

(** The loop over the members keeps both dictionaries in step with their
    lists, and the indices it records for a member are the entries of the
    final dictionaries for that member's dependencies. *)
Lemma collect_members_table (eqs : list (Equation (V:=V) (BC:=BC))) :
  forall c,
    ids_table (c_deps c) (c_dep_ids c) ->
    ids_table (c_nl_deps c) (c_nl_dep_ids c) ->
    ids_table (c_deps (collect_members eqs c))
              (c_dep_ids (collect_members eqs c)) /\
    ids_table (c_nl_deps (collect_members eqs c))
              (c_nl_dep_ids (collect_members eqs c)) /\
    c_dep_ids c ⊆ c_dep_ids (collect_members eqs c) /\
    c_nl_dep_ids c ⊆ c_nl_dep_ids (collect_members eqs c) /\
    exists idxs nl_idxs,
      c_eq_dep_indices (collect_members eqs c)
      = c_eq_dep_indices c ++ idxs /\
      c_eq_nl_dep_indices (collect_members eqs c)
      = c_eq_nl_dep_indices c ++ nl_idxs /\
      Forall2 (fun eq idx =>
                 Forall2 (fun d j =>
                            c_dep_ids (collect_members eqs c)
                              !! function_id d = Some j)
                   (dependencies (eq_base eq)) idx) eqs idxs /\
      Forall2 (fun eq idx =>
                 Forall2 (fun d j =>
                            c_nl_dep_ids (collect_members eqs c)
                              !! function_id d = Some j)
                   (nonlinear_dependencies (eq_base eq)) idx) eqs nl_idxs.
Proof.
  induction eqs as [|eq eqs IH]; intros c Ht Hnt; simpl.
  - split; [done|]. split; [done|]. split; [done|]. split; [done|].
    exists [], []. rewrite !app_nil_r.
    split; [done|]. split; [done|]. split; constructor.
  - destruct (collect_deps_table (dependencies (eq_base eq))
                (c_deps c) (c_dep_ids c) [] Ht)
      as (l & ids1 & idx & -> & Ht1 & Hsub1 & Hall1).
    destruct (collect_deps_table (nonlinear_dependencies (eq_base eq))
                (c_nl_deps c) (c_nl_dep_ids c) [] Hnt)
      as (nl & nids1 & nidx & -> & Hnt1 & Hnsub1 & Hnall1).
    simpl.
    destruct (IH (mkCollected (c_deps c ++ l) ids1 (c_nl_deps c ++ nl) nids1
                    (c_eq_dep_indices c ++ [idx])
                    (c_eq_nl_dep_indices c ++ [nidx])) Ht1 Hnt1)
      as (Ht2 & Hnt2 & Hsub2 & Hnsub2 & idxs & nidxs & Hi & Hni & Hall2 & Hnall2).
    simpl in Hsub2, Hnsub2, Hi, Hni.
    split; [done|]. split; [done|].
    split; [by etrans|]. split; [by etrans|].
    exists (idx :: idxs), (nidx :: nidxs).
    rewrite Hi, Hni, <- !app_assoc. simpl.
    split; [done|]. split; [done|]. split.
    + constructor; [|done].
      eapply Forall2_impl; [exact Hall1|].
      intros d j Hj. exact (lookup_weaken _ _ _ _ Hj Hsub2).
    + constructor; [|done].
      eapply Forall2_impl; [exact Hnall1|].
      intros d j Hj. exact (lookup_weaken _ _ _ _ Hj Hnsub2).
Qed.

End FixedPointSolverTables.

Section FixedPointSolverConstruction.

Context {V BC : Type} `{!Backend V BC}.

(** The members that pass the first loop solve for Functions of pairwise
    distinct identities, none of them seen before. *)
Lemma check_distinct_solves_NoDup
    (eqs : list (option (Equation (V:=V) (BC:=BC)))) :
  forall x_ids members,
    check_distinct_solves eqs x_ids = Ok members ->
    exists xs,
      for_list eq_x members = Ok xs /\
      NoDup (function_id <$> xs) /\
      forall x, x ∈ xs -> function_id x ∉ x_ids.
Proof.
  induction eqs as [|[eq|] eqs IH]; intros x_ids members H; simpl in H.
  - injection H as <-. exists []. split; [done|]. split; [constructor|].
    intros x Hx. by apply elem_of_nil in Hx.
  - apply bind_Ok in H as (x & Hx & H).
    case_bool_decide as Hin; [discriminate|].
    apply bind_Ok in H as (rest & Hrest & [= <-]).
    destruct (IH _ _ Hrest) as (xs & Hxs & Hnd & Hfresh).
    exists (x :: xs). split.
    { simpl. rewrite Hx. simpl. by rewrite Hxs. }
    split.
    + rewrite fmap_cons. apply NoDup_cons. split; [|done].
      intros Hx'. apply list_elem_of_fmap in Hx' as (x' & Hid & Hx').
      apply Hfresh in Hx'. apply Hx'. rewrite <- Hid.
      apply elem_of_union_l. by apply elem_of_singleton.
    + intros x' Hx'. apply elem_of_cons in Hx' as [->|Hx']; [done|].
      apply Hfresh in Hx'. intros Hin'. apply Hx'.
      by apply elem_of_union_r.
  - discriminate.
Qed.

(** Conversely, members with solutions of distinct, unseen identities pass
    the first loop. *)
Lemma check_distinct_solves_complete
    (members : list (Equation (V:=V) (BC:=BC))) :
  forall (xs : list Function) (x_ids : gset nat),
    for_list eq_x members = Ok xs ->
    NoDup (function_id <$> xs) ->
    (forall x, x ∈ xs -> function_id x ∉ x_ids) ->
    check_distinct_solves (Some <$> members) x_ids = Ok members.
Proof.
  induction members as [|eq members IH]; intros xs x_ids Hxs Hnd Hfresh;
    [done|].
  simpl in Hxs. apply bind_Ok in Hxs as (x & Hx & Hxs).
  apply bind_Ok in Hxs as (xs' & Hxs' & [= <-]).
  rewrite fmap_cons in Hnd. apply NoDup_cons in Hnd as [Hnin Hnd].
  rewrite fmap_cons. simpl. rewrite Hx. simpl.
  rewrite bool_decide_eq_false_2 by (apply Hfresh; by left).
  rewrite (IH xs'); [done..|].
  intros x' Hx' Hin. apply elem_of_union in Hin as [Hin|Hin].
  - apply elem_of_singleton in Hin. apply Hnin.
    rewrite <- Hin. apply list_elem_of_fmap. eauto.
  - eapply Hfresh; [|exact Hin]. by right.
Qed.

(** Two members solving for the same identity stop the first loop. *)
Lemma check_distinct_solves_duplicate
    (members : list (Equation (V:=V) (BC:=BC))) :
  forall (xs : list Function) (x_ids : gset nat),
    for_list eq_x members = Ok xs ->
    ~ (NoDup (function_id <$> xs) /\
       forall x, x ∈ xs -> function_id x ∉ x_ids) ->
    check_distinct_solves (Some <$> members) x_ids
    = Raise (EquationException "Duplicate solve").
Proof.
  induction members as [|eq members IH]; intros xs x_ids Hxs Hdup.
  - injection Hxs as <-. exfalso. apply Hdup. split; [constructor|].
    intros x Hx. by apply elem_of_nil in Hx.
  - simpl in Hxs. apply bind_Ok in Hxs as (x & Hx & Hxs).
    apply bind_Ok in Hxs as (xs' & Hxs' & [= <-]).
    rewrite fmap_cons. simpl. rewrite Hx. simpl.
    case_bool_decide as Hin; [done|].
    rewrite (IH xs' _ Hxs'); [done|].
    intros [Hnd Hfresh]. apply Hdup. split.
    + rewrite fmap_cons. apply NoDup_cons. split; [|done].
      intros Hx'. apply list_elem_of_fmap in Hx' as (x' & Hid & Hx').
      apply (Hfresh x' Hx'). rewrite <- Hid.
      apply elem_of_union_l. by apply elem_of_singleton.
    + intros x' Hx'. apply elem_of_cons in Hx' as [->|Hx']; [done|].
      intros Hin'. apply (Hfresh x' Hx'). by apply elem_of_union_r.
Qed.

(** What [FixedPointSolver.__init__] has computed when it returns. *)
Lemma FixedPointSolver_init_Ok
    (eqs : list (option (Equation (V:=V) (BC:=BC))))
    (p : SolverParameters) (g : option Function) (fp : FixedPointSolver) :
  FixedPointSolver_init eqs p g = Ok fp ->
  exists (X deps0 : list Function) (ids0 : gmap nat nat),
    check_distinct_solves eqs ∅ = Ok (_eqs fp) /\
    _eqs fp <> [] /\
    for_list eq_x (_eqs fp) = Ok X /\
    ids_table deps0 ids0 /\
    Equation_init X
      (c_deps (collect_members (_eqs fp) (mkCollected deps0 ids0 [] ∅ [] [])))
      (Some (c_nl_deps
               (collect_members (_eqs fp) (mkCollected deps0 ids0 [] ∅ [] []))))
    = Ok (fp_base fp) /\
    _eq_dep_indices fp
    = c_eq_dep_indices
        (collect_members (_eqs fp) (mkCollected deps0 ids0 [] ∅ [] [])) /\
    _eq_nl_dep_indices fp
    = c_eq_nl_dep_indices
        (collect_members (_eqs fp) (mkCollected deps0 ids0 [] ∅ [] [])) /\
    _solver_parameters fp = with_default_parameters p.
Proof.
  unfold FixedPointSolver_init. intros H.
  apply bind_Ok in H as (members & Hmem & H).
  apply bind_Ok in H as (eq_last & Hlast & H).
  apply bind_Ok in H as (x_last & Hx & H).
  apply bind_Ok in H as (nonzero & _ & H).
  apply bind_Ok in H as ([[igi deps0] ids0] & Hg & H).
  apply bind_Ok in H as (X & HX & H).
  apply bind_Ok in H as (b & Hb & [= <-]). simpl.
  exists X, deps0, ids0.
  split; [done|]. split.
  { intros ->. discriminate. }
  split; [done|]. split; [|done].
  destruct nonzero.
  - destruct g as [g|]; [|injection Hg as _ <- <-; apply ids_table_empty].
    case_bool_decide.
    + injection Hg as _ <- <-. apply ids_table_empty.
    + injection Hg as _ <- <-. apply ids_table_singleton.
  - destruct g; [discriminate|]. injection Hg as _ <- <-.
    apply ids_table_empty.
Qed.

End FixedPointSolverConstruction.

Section FixedPointSolverIndexTables.

Context {V BC : Type} `{!Backend V BC}.

(** X7. In every FixedPointSolver the constructor returns, the index tables
    [_eq_dep_indices] and [_eq_nl_dep_indices] never point outside the
    solver's dependencies: picking the members' dependencies out of any
    list of values that is as long as [dependencies()] (as [forward_solve]
    does with [deps], and [adjoint_jacobian_solve] with [nl_deps]) raises
    no IndexError, gives every member one value per dependency, and the
    value given for a dependency is the one at the position where the
    solver's [dependencies()] holds the Function of that identity. *)
Theorem FixedPointSolver_index_tables {A : Type}
    (eqs : list (option (Equation (V:=V) (BC:=BC))))
    (p : SolverParameters) (g : option Function)
    (fp : FixedPointSolver (V:=V) (BC:=BC)) (vals nl_vals : list A) :
  FixedPointSolver_init eqs p g = Ok fp ->
  (length (dependencies (fp_base fp)) <= length vals)%nat ->
  (length (nonlinear_dependencies (fp_base fp)) <= length nl_vals)%nat ->
  exists eq_deps eq_nl_deps : list (list A),
    select_deps vals (_eq_dep_indices fp) (length (_eqs fp)) = Ok eq_deps /\
    select_deps nl_vals (_eq_nl_dep_indices fp) (length (_eqs fp))
    = Ok eq_nl_deps /\
    Forall2 (fun eq vs =>
               Forall2 (fun d v =>
                          exists (k : nat) (d' : Function),
                            dependencies (fp_base fp) !! k = Some d' /\
                            function_id d' = function_id d /\
                            vals !! k = Some v)
                 (dependencies (eq_base eq)) vs)
      (_eqs fp) eq_deps /\
    Forall2 (fun eq vs =>
               Forall2 (fun d v =>
                          exists (k : nat) (d' : Function),
                            nonlinear_dependencies (fp_base fp) !! k = Some d' /\
                            function_id d' = function_id d /\
                            nl_vals !! k = Some v)
                 (nonlinear_dependencies (eq_base eq)) vs)
      (_eqs fp) eq_nl_deps.
Proof.
  intros Hinit Hlen Hnlen.
  apply FixedPointSolver_init_Ok in Hinit
    as (X & deps0 & ids0 & _ & _ & _ & Ht0 & Hb & -> & -> & _).
  apply Equation_init_Ok in Hb as (_ & _ & _ & Hd & Hnl & _).
  unfold nonlinear_dependencies, dependencies in *. rewrite Hnl, Hd in *.
  destruct (collect_members_table (_eqs fp)
              (mkCollected deps0 ids0 [] ∅ [] []) Ht0 ids_table_empty)
    as (Ht & Hnt & _ & _ & idxs & nidxs & -> & -> & Hall & Hnall).
  simpl.
  set (c := collect_members (_eqs fp) (mkCollected deps0 ids0 [] ∅ [] []))
    in *.
  destruct (select_deps_table (c_deps c) (c_dep_ids c) vals
              ((fun eq => _deps (eq_base eq)) <$> _eqs fp) idxs Ht Hlen)
    as (sel & Hsel & Hrel).
  { by apply Forall2_fmap_l. }
  destruct (select_deps_table (c_nl_deps c) (c_nl_dep_ids c) nl_vals
              ((fun eq => match _nl_deps (eq_base eq) with
                          | Some nl => nl
                          | None => _deps (eq_base eq)
                          end) <$> _eqs fp) nidxs Hnt Hnlen)
    as (nsel & Hnsel & Hnrel).
  { by apply Forall2_fmap_l. }
  rewrite length_fmap in Hsel, Hnsel.
  exists sel, nsel. split; [done|]. split; [done|].
  split.
  - rewrite Forall2_fmap_l in Hrel. exact Hrel.
  - rewrite Forall2_fmap_l in Hnrel. exact Hnrel.
Qed.

(** X8. Let every member of [eqs] solve for exactly one Function. Then
    [FixedPointSolver(eqs, ...)] raises IndexError when [eqs] is empty and
    EquationException when two members solve for the same identity or when
    an initial guess comes with [nonzero_initial_guess] false; and when it
    returns, the solver keeps the members as given, its solutions [X()] are
    the members' solutions in order, non-static and among its dependencies,
    and no identity occurs twice in its dependencies. *)
Theorem FixedPointSolver_init_members
    (members : list (Equation (V:=V) (BC:=BC))) (xs : list Function)
    (p : SolverParameters) (g : option Function) :
  for_list eq_x members = Ok xs ->
  (members = [] ->
   FixedPointSolver_init (Some <$> members) p g = Raise IndexError) /\
  (~ NoDup (function_id <$> xs) ->
   FixedPointSolver_init (Some <$> members) p g
   = Raise (EquationException "Duplicate solve")) /\
  (members <> [] -> NoDup (function_id <$> xs) ->
   nonzero_initial_guess p = Some false -> is_Some g ->
   FixedPointSolver_init (Some <$> members) p g
   = Raise (EquationException
       "Initial guess provided, but nonzero_initial_guess parameter is False")) /\
  (forall fp : FixedPointSolver,
     FixedPointSolver_init (Some <$> members) p g = Ok fp ->
     _eqs fp = members /\ _X (fp_base fp) = xs /\
     NoDup (function_id <$> xs) /\
     Forall (fun x => function_is_static x = false /\
                      x ∈ dependencies (fp_base fp)) xs /\
     NoDup (function_id <$> dependencies (fp_base fp)) /\
     NoDup (function_id <$> nonlinear_dependencies (fp_base fp))).
Proof.
  intros Hxs. split; [by intros ->|]. split; [|split].
  - intros Hdup. unfold FixedPointSolver_init.
    rewrite (check_distinct_solves_duplicate members xs ∅ Hxs); [done|].
    by intros [Hnd _].
  - intros Hne Hnd Hnz [g0 ->]. unfold FixedPointSolver_init.
    rewrite (check_distinct_solves_complete members xs ∅ Hxs Hnd)
      by (intros; apply not_elem_of_empty).
    simpl. unfold last_item.
    destruct (last members) as [eq_last|] eqn:Hlast.
    2:{ by apply last_None in Hlast. }
    simpl.
    destruct (for_list_Ok _ _ _ Hxs) as [_ Hall].
    rewrite last_lookup in Hlast.
    destruct (Hall _ _ Hlast) as (x & _ & ->). simpl.
    by rewrite Hnz.
  - intros fp Hinit.
    apply FixedPointSolver_init_Ok in Hinit
      as (X & deps0 & ids0 & Hmem & _ & HX & Ht0 & Hb & _).
    pose proof (check_distinct_solves_Ok _ _ _ Hmem) as Hsome.
    apply (inj (fmap Some)) in Hsome. subst members.
    rewrite HX in Hxs. injection Hxs as <-.
    apply check_distinct_solves_NoDup in Hmem as (xs' & Hxs' & Hnd & _).
    rewrite HX in Hxs'. injection Hxs' as <-.
    pose proof (Equation_init_Ok _ _ _ _ Hb)
      as (HXd & Hndd & HXb & Hd & Hnl & _).
    unfold nonlinear_dependencies, dependencies. rewrite Hnl, Hd, HXb.
    split; [done|]. split; [done|]. split; [done|]. split; [done|].
    split; [done|].
    destruct (collect_members_table (_eqs fp)
                (mkCollected deps0 ids0 [] ∅ [] []) Ht0 ids_table_empty)
      as (_ & Hnt & _).
    by eapply ids_table_NoDup.
Qed.

End FixedPointSolverIndexTables.

Lemma FixedPointSolver_index_tables_witness :
  exists (eqs : list (option (Equation (V:=float) (BC:=float))))
         (fp : FixedPointSolver (V:=float) (BC:=float)),
    Example.relay_members = Ok eqs /\
    FixedPointSolver_init eqs Example.fp_parameters (Some Example.b) = Ok fp /\
    exists eq_deps eq_nl_deps : list (list Z),
      select_deps [10; 20; 30] (_eq_dep_indices fp) (length (_eqs fp))
      = Ok eq_deps /\
      select_deps [] (_eq_nl_dep_indices fp) (length (_eqs fp))
      = Ok eq_nl_deps.
Proof.
  do 2 eexists.
  split; [vm_compute; reflexivity|].
  lazymatch goal with
  | |- FixedPointSolver_init ?eqs _ _ = _ /\ _ => pose (members := eqs)
  end.
  split; [vm_compute; reflexivity|].
  lazymatch goal with
  | |- exists _ _, select_deps _ (_eq_dep_indices ?fp) _ = _ /\ _ =>
      destruct (FixedPointSolver_index_tables (V:=float) (BC:=float) (A:=Z)
                  members Example.fp_parameters (Some Example.b) fp
                  [10; 20; 30] [] eq_refl)
        as (sel & nsel & Hsel & Hnsel & _)
  end.
  - vm_compute. lia.
  - vm_compute. lia.
  - exists sel, nsel. auto.
Defined.

Lemma FixedPointSolver_init_members_witness :
  let b0 := mkEquationBase [Example.z] [Example.z] (Some []) [] [false] in
  FixedPointSolver_init (V:=float) (BC:=float)
    [Some (NullSolver b0); Some (NullSolver b0)] Example.fp_parameters None
  = Raise (EquationException "Duplicate solve").
Proof.
  intros b0.
  apply (proj1 (proj2 (FixedPointSolver_init_members (V:=float) (BC:=float)
                         [NullSolver b0; NullSolver b0]
                         [Example.z; Example.z] Example.fp_parameters None
                         eq_refl))).
  intros Hnd. apply NoDup_cons in Hnd as [Hnin _]. apply Hnin. by left.
Defined.

(** ** FixedPointSolver: the tolerances, and the number of passes *)

Section FixedPointSolverPasses.

Context {V BC : Type} `{!Backend V BC} {libm : PyFloat.Libm}.

(** X9. The constructor does not look at the tolerances: a FixedPointSolver
    built from parameters without [absolute_tolerance] (or, that one given,
    without [relative_tolerance]) is returned as any other, and every
    forward solve and every adjoint solve of it raises KeyError for the
    missing key before it touches a Function. *)
Theorem FixedPointSolver_missing_tolerance
    (eqs : list (option (Equation (V:=V) (BC:=BC))))
    (p : SolverParameters) (g : option Function)
    (fp : FixedPointSolver (V:=V) (BC:=BC)) (key : string) :
  FixedPointSolver_init eqs p g = Ok fp ->
  (absolute_tolerance p = None /\ key = "absolute_tolerance") \/
  (is_Some (absolute_tolerance p) /\ relative_tolerance p = None /\
   key = "relative_tolerance") ->
  (forall (X : list Function) (deps : option (list Function)) (s : store),
     FixedPointSolver_forward_solve fp X deps s
     = Some (Raise (KeyError key), [])) /\
  (forall nl_deps B : list V,
     FixedPointSolver_adjoint_jacobian_solve fp nl_deps B
     = Some (Raise (KeyError key), [])).
Proof.
  intros Hinit Hkey.
  apply FixedPointSolver_init_Ok in Hinit
    as (_ & _ & _ & _ & _ & _ & _ & _ & _ & _ & Hp).
  split.
  - intros X deps s. unfold FixedPointSolver_forward_solve,
      FixedPointSolver_forward_setup, parameter.
    rewrite Hp. simpl.
    destruct Hkey as [[-> ->]|([a ->] & -> & ->)]; reflexivity.
  - intros nl_deps B. unfold FixedPointSolver_adjoint_jacobian_solve,
      FixedPointSolver_adjoint_setup, parameter.
    rewrite Hp. simpl.
    destruct Hkey as [[-> ->]|([a ->] & -> & ->)]; reflexivity.
Qed.

(** The loop makes at most [max(1, maximum_iterations - it)] passes, and
    at least one when it returns. *)
Lemma loop_length {St : Type} (sweep : St -> res (St * V)) (what : string)
    (rel : float) (maxit : Z) (fuel : nat) :
  forall it x_0 tol s out tr,
    fixed_point_loop sweep what rel maxit fuel it x_0 tol s = Some (out, tr) ->
    Z.of_nat (length tr) <= Z.max 1 (maxit - it) /\
    ((exists s', out = Ok s') -> (1 <= length tr)%nat).
Proof.
  induction fuel as [|fuel IH]; intros it x_0 tol s out tr H; [discriminate|].
  apply loop_unfold in H
    as [(e & _ & -> & ->)|(s1 & x & _ & [H|[H|[H|[H|H]]]])].
  - simpl. split; [lia|]. by intros [? ?].
  - destruct H as (_ & -> & ->). simpl. split; [lia|]. by intros [? ?].
  - destruct H as (_ & _ & -> & ->). simpl. split; lia.
  - destruct H as (_ & _ & _ & -> & ->). simpl. split; [lia|]. by intros [? ?].
  - destruct H as (_ & _ & _ & e & _ & -> & ->). simpl.
    split; [lia|]. by intros [? ?].
  - destruct H as (_ & _ & Hlt & tol' & tr' & _ & Hrec & ->).
    apply IH in Hrec as [Hlen _]. simpl. split; lia.
Qed.

(** X10. A forward or adjoint solve of a FixedPointSolver makes at most
    [max(1, maximum_iterations)] passes over its members, whatever the
    members do, and at least one pass when it returns; so with
    [maximum_iterations] at most 1 (zero and negative values included) it
    makes a single pass and returns only if that pass meets the convergence
    test. *)
Theorem FixedPointSolver_pass_count (fp : FixedPointSolver (V:=V) (BC:=BC))
    (maxit : Z) :
  maximum_iterations (_solver_parameters fp) = Some maxit ->
  (forall X deps (s : store) out tr,
     FixedPointSolver_forward_solve fp X deps s = Some (out, tr) ->
     Z.of_nat (length tr) <= Z.max 1 maxit /\
     forall s', out = Ok s' ->
       (1 <= length tr)%nat /\
       (maxit <= 1 ->
        exists e, tr = [e] /\ te_it e = 1 /\
                  converged (te_r_norm_sq e) (te_tolerance_sq e) = true)) /\
  (forall nl_deps B out tr,
     FixedPointSolver_adjoint_jacobian_solve fp nl_deps B = Some (out, tr) ->
     Z.of_nat (length tr) <= Z.max 1 maxit /\
     forall adj_X, out = Ok adj_X ->
       (1 <= length tr)%nat /\
       (maxit <= 1 ->
        exists e, tr = [e] /\ te_it e = 1 /\
                  converged (te_r_norm_sq e) (te_tolerance_sq e) = true)).
Proof.
  intros Hmax.
  assert (forall (St : Type) (sweep : St -> res (St * V)) what rel fuel x_0
                 tol s out tr,
            fixed_point_loop sweep what rel maxit fuel 0 x_0 tol s
            = Some (out, tr) ->
            Z.of_nat (length tr) <= Z.max 1 maxit /\
            forall s', out = Ok s' ->
              (1 <= length tr)%nat /\
              (maxit <= 1 ->
               exists e, tr = [e] /\ te_it e = 1 /\
                 converged (te_r_norm_sq e) (te_tolerance_sq e) = true))
    as Hloop.
  { intros St sweep what rel fuel x_0 tol s out tr Hrun.
    pose proof (loop_length _ _ _ _ _ _ _ _ _ _ _ Hrun) as [Hlen Hone].
    rewrite Z.sub_0_r in Hlen. split; [done|].
    intros s' ->. split; [apply Hone; eauto|]. intros Hle.
    destruct tr as [|e [|e' tr]]; [simpl in Hone|..].
    - assert (1 <= 0)%nat by (apply Hone; eauto). lia.
    - exists e. split; [done|].
      pose proof (loop_iterations _ _ _ _ _ _ _ _ _ _ _ Hrun 0%nat e eq_refl)
        as Hit.
      split; [rewrite Hit; lia|].
      pose proof (loop_outcome _ _ _ _ _ _ _ _ _ _ _ Hrun) as Hout.
      simpl in Hout. unfold entry_converged in Hout.
      destruct (PyFloat.isnan _); [discriminate|].
      destruct (converged _ _); [done|].
      rewrite Hit in Hout.
      replace (0 + 1 + Z.of_nat 0 >=? maxit) with true in Hout
        by (symmetry; apply Z.geb_le; lia).
      discriminate.
    - simpl in Hlen. lia. }
  split.
  - intros X deps s out tr Hrun. unfold FixedPointSolver_forward_solve in Hrun.
    destruct (FixedPointSolver_forward_setup fp X deps s) as [st|e] eqn:Hst.
    + apply forward_setup_parameters in Hst as (_ & _ & Hm & _).
      rewrite Hmax in Hm. injection Hm as Hm. rewrite <- Hm in Hrun.
      destruct (float_pow2 _) as [tol|e]; [by eapply Hloop|].
      injection Hrun as <- <-. simpl. split; [lia|]. intros s' [=].
    + injection Hrun as <- <-. simpl. split; [lia|]. intros s' [=].
  - intros nl_deps B out tr Hrun.
    unfold FixedPointSolver_adjoint_jacobian_solve in Hrun.
    destruct (FixedPointSolver_adjoint_setup fp nl_deps B) as [st|e] eqn:Hst.
    + apply adjoint_setup_parameters in Hst as (_ & _ & Hm).
      rewrite Hmax in Hm. injection Hm as Hm. rewrite <- Hm in Hrun.
      destruct (float_pow2 _) as [tol|e]; [by eapply Hloop|].
      injection Hrun as <- <-. simpl. split; [lia|]. intros s' [=].
    + injection Hrun as <- <-. simpl. split; [lia|]. intros s' [=].
Qed.

End FixedPointSolverPasses.

Lemma FixedPointSolver_missing_tolerance_witness :
  exists (eqs : list (option (Equation (V:=float) (BC:=float))))
         (fp : FixedPointSolver (V:=float) (BC:=float)),
    Example.relay_members = Ok eqs /\
    FixedPointSolver_init eqs
      (mkSolverParameters None (Some Example.f_1em14) None None None) None
    = Ok fp /\
    forall X deps (s : store),
      FixedPointSolver_forward_solve fp X deps s
      = Some (Raise (KeyError "absolute_tolerance"), []).
Proof.
  do 2 eexists.
  split; [vm_compute; reflexivity|].
  lazymatch goal with
  | |- FixedPointSolver_init ?eqs _ _ = _ /\ _ => pose (members := eqs)
  end.
  split; [vm_compute; reflexivity|].
  lazymatch goal with
  | |- forall X deps s, FixedPointSolver_forward_solve ?fp _ _ _ = _ =>
      exact (proj1 (FixedPointSolver_missing_tolerance
                      (V:=float) (BC:=float) members
                      (mkSolverParameters None (Some Example.f_1em14)
                         None None None)
                      None fp "absolute_tolerance" eq_refl
                      (or_introl (conj eq_refl eq_refl))))
  end.
Defined.

Lemma FixedPointSolver_pass_count_witness :
  exists (eqs : list (option (Equation (V:=float) (BC:=float))))
         (fp : FixedPointSolver (V:=float) (BC:=float)),
    Example.relay_members = Ok eqs /\
    FixedPointSolver_init eqs Example.fp_parameters None = Ok fp /\
    forall X deps (s : store) out tr,
      FixedPointSolver_forward_solve fp X deps s = Some (out, tr) ->
      Z.of_nat (length tr) <= 1000.
Proof.
  do 2 eexists.
  split; [vm_compute; reflexivity|].
  split; [vm_compute; reflexivity|].
  lazymatch goal with
  | |- forall X deps s out tr,
         FixedPointSolver_forward_solve ?fp _ _ _ = _ -> _ =>
      pose proof (proj1 (FixedPointSolver_pass_count
                           (V:=float) (BC:=float) fp 1000 eq_refl)) as Hcount
  end.
  intros X deps s out tr Hrun.
  destruct (Hcount X deps s out tr Hrun) as [Hlen _].
  rewrite Z.max_r in Hlen by lia. exact Hlen.
Defined.

(** ** FixedPointSolver.forward_solve: what it writes *)

Section ForwardSolveFrame.

Context {V BC : Type} `{!Backend V BC} {libm : PyFloat.Libm}.

Lemma foldl_function_axpy_frame (x : Function)
    (args : list (float * Function)) :
  forall (s : store (V:=V)) (f : Function),
    f <> x ->
    foldl (fun s ay => function_axpy x ay.1 ay.2 s) s args f = s f.
Proof.
  induction args as [|[alpha y] args IH]; intros s f Hne; simpl; [done|].
  rewrite IH by done. unfold function_axpy. by rewrite store_insert_ne.
Qed.

(** The forward solves of the equations of this module write the Function
    they are asked to solve for, and nothing else. *)
Lemma forward_solve_frame (eq : Equation (V:=V) (BC:=BC)) (x : Function)
    (deps : option (list Function)) (s s' : store) :
  is_user_equation eq = false ->
  forward_solve eq x deps s = Ok s' ->
  forall f, f <> x -> s' f = s f.
Proof.
  intros Hb Hs f Hne. destruct eq as [b|b|b bcs hbcs|b alpha bcs hbcs|];
    simpl in Hs; try discriminate.
  - injection Hs as <-. unfold function_zero. by rewrite store_insert_ne.
  - unfold AssignmentSolver_forward_solve in Hs.
    destruct (default _ deps) as [|? [|y [|]]]; try discriminate.
    injection Hs as <-. unfold apply_bcs, function_assign.
    by rewrite !store_insert_ne.
  - injection Hs as <-. unfold LinearCombinationSolver_forward_solve, apply_bcs.
    rewrite store_insert_ne by done.
    rewrite foldl_function_axpy_frame by done.
    unfold function_zero. by rewrite store_insert_ne.
Qed.

Lemma forward_sweep_frame (eqs : list (Equation (V:=V) (BC:=BC)))
    (X : list Function) (eq_deps : list (option (list Function))) :
  Forall (fun eq => is_user_equation eq = false) eqs ->
  forall (i : nat) (s s' : store),
    forward_sweep eqs i X eq_deps s = Ok s' ->
    forall f, f ∉ X -> s' f = s f.
Proof.
  induction 1 as [|eq eqs Hb _ IH]; intros i s s' Hs f Hf; simpl in Hs.
  - by injection Hs as <-.
  - apply bind_Ok in Hs as (x_i & Hx & Hs).
    apply bind_Ok in Hs as (deps_i & _ & Hs).
    apply bind_Ok in Hs as (s1 & Hs1 & Hs).
    rewrite (IH _ _ _ Hs f Hf).
    eapply forward_solve_frame; [exact Hb | exact Hs1 |].
    intros ->. apply Hf. apply getitem_Ok in Hx.
    by eapply list_elem_of_lookup_2.
Qed.

Lemma forward_iterates_frame (fp : FixedPointSolver (V:=V) (BC:=BC))
    (X : list Function) (x : Function)
    (eq_deps : list (option (list Function))) :
  Forall (fun eq => is_user_equation eq = false) (_eqs fp) ->
  forall (n : nat) (s : store) (x_0 : V) (s' : store) (x' : V),
    iterates (forward_pass fp X x eq_deps) n s x_0 = Ok (s', x') ->
    forall f, f ∉ X -> s' f = s f.
Proof.
  intros Hb. induction n as [|n IH]; intros s x_0 s' x' Hit f Hf;
    simpl in Hit.
  - by injection Hit as <- _.
  - destruct (forward_pass fp X x eq_deps s) as [[s1 x1]|] eqn:Hp;
      [|discriminate].
    rewrite (IH _ _ _ _ Hit f Hf).
    unfold forward_pass in Hp. apply bind_Ok in Hp as (s2 & Hs2 & [= <- _]).
    by eapply forward_sweep_frame.
Qed.

(** X11. A forward solve of a FixedPointSolver whose members are
    NullSolvers, AssignmentSolvers and LinearCombinationSolvers writes the
    Functions of [X] it is handed and no other: when it returns, every
    Function outside [X] holds the value it held before, the initial guess
    and the dependencies included. *)
Theorem FixedPointSolver_forward_solve_frame
    (fp : FixedPointSolver (V:=V) (BC:=BC)) (X : list Function)
    (deps : option (list Function)) (s s' : store) (tr : list trace_entry) :
  Forall (fun eq => is_user_equation eq = false) (_eqs fp) ->
  FixedPointSolver_forward_solve fp X deps s = Some (Ok s', tr) ->
  forall f, f ∉ X -> s' f = s f.
Proof.
  intros Hb Hrun f Hf. unfold FixedPointSolver_forward_solve in Hrun.
  destruct (FixedPointSolver_forward_setup fp X deps s) as [st|e] eqn:Hst;
    [|discriminate].
  apply forward_setup_parameters in Hst
    as (_ & _ & _ & Hlast & nz & _ & Hseed).
  destruct (float_pow2 _) as [tol|e]; [|discriminate].
  apply loop_result in Hrun as [x' Hit].
  rewrite (forward_iterates_frame fp X _ _ Hb _ _ _ _ _ Hit f Hf).
  assert (f <> fs_x st) as Hne.
  { intros ->. apply Hf. rewrite last_lookup in Hlast.
    by eapply list_elem_of_lookup_2. }
  unfold seed_initial_guess in Hseed. destruct nz.
  - destruct (_initial_guess_index fp); [|by injection Hseed as <-].
    apply bind_Ok in Hseed as (g & _ & [= <-]).
    unfold function_assign. by rewrite store_insert_ne.
  - injection Hseed as <-. unfold function_zero. by rewrite store_insert_ne.
Qed.

End ForwardSolveFrame.

Lemma FixedPointSolver_forward_solve_frame_witness :
  exists (fp : FixedPointSolver (V:=float) (BC:=float)) (s' : store)
         (tr : list trace_entry),
    Example.relay None = Ok fp /\
    FixedPointSolver_forward_solve fp [Example.z; Example.x] None
      (Example.store_with (PyFloat.of_Z 3) (PyFloat.of_Z 5))
    = Some (Ok s', tr) /\
    s' Example.b = PyFloat.of_Z 3.
Proof.
  do 3 eexists.
  split; [vm_compute; reflexivity|].
  lazymatch goal with
  | |- FixedPointSolver_forward_solve ?fp ?X ?deps ?s = _ /\ _ =>
      pose (solver := fp);
      let r := eval vm_compute in (FixedPointSolver_forward_solve fp X deps s) in
      lazymatch r with
      | Some (Ok ?s1, ?tr1) => pose (after := s1); pose (passes := tr1)
      end
  end.
  assert (FixedPointSolver_forward_solve solver [Example.z; Example.x] None
            (Example.store_with (PyFloat.of_Z 3) (PyFloat.of_Z 5))
          = Some (Ok after, passes)) as Hrun by (vm_compute; reflexivity).
  assert (Forall (fun eq => is_user_equation eq = false) (_eqs solver)) as Hb.
  { apply Forall_cons_2; [reflexivity|].
    apply Forall_cons_2; [reflexivity|]. apply Forall_nil_2. }
  split; [exact Hrun|].
  refine (eq_trans (FixedPointSolver_forward_solve_frame solver _ _ _ after
                      passes Hb Hrun Example.b _) _).
  - intros Hin. apply elem_of_cons in Hin as [Hin|Hin]; [discriminate|].
    apply list_elem_of_singleton in Hin. discriminate.
  - reflexivity.
Defined.

(** ** FixedPointSolver.adjoint_jacobian_solve: the sweep *)

Lemma fmap_rev {A B} (f : A -> B) (l : list A) : f <$> rev l = rev (f <$> l).
Proof.
  induction l as [|a l IH]; [done|].
  rewrite fmap_cons. cbn [rev]. by rewrite fmap_app, IH.
Qed.

Lemma adjoint_order_S (n : nat) : adjoint_order (S n) = rev (seq 0 n) ++ [n].
Proof.
  unfold adjoint_order. rewrite <- cons_seq. cbn [rev].
  rewrite fmap_app. f_equal.
  - rewrite <- fmap_S_seq, !fmap_rev. f_equal.
    rewrite <- list_fmap_compose.
    rewrite <- (list_fmap_id (seq 0 n)) at 2.
    apply Forall_fmap_ext, Forall_forall. intros i Hi.
    apply elem_of_seq in Hi. simpl.
    rewrite Z.mod_small by lia. lia.
  - simpl. f_equal.
    replace (Z.of_nat 0 - 1) with (Z.of_nat n + (-1) * Z.of_nat (S n)) by lia.
    rewrite Z.mod_add by lia. rewrite Z.mod_small by lia. lia.
Qed.

(** X12. One pass of the adjoint iteration over [n] members visits the
    members [n - 2, n - 3, ..., 0] in this order and the last member,
    [n - 1], after them: every member once, the one that defines the
    solution at the end of the pass. *)
Theorem adjoint_order_last_member_last (n : nat) :
  adjoint_order (S n) = rev (seq 0 n) ++ [n] /\
  adjoint_order (S n) ≡ₚ seq 0 (S n) /\
  adjoint_order 0 = [].
Proof.
  split; [apply adjoint_order_S|]. split; [|done].
  rewrite adjoint_order_S, seq_S. simpl. apply Permutation_app_tail.
  symmetry. apply Permutation_rev.
Qed.

Section AdjointSweep.

Context {V BC : Type} `{!Backend V BC} {libm : PyFloat.Libm}.

Lemma subtract_member_actions_length (eqs : list (Equation (V:=V) (BC:=BC)))
    (eq_nl_deps : list (list V)) (i : nat) (tds : list (nat * nat)) :
  forall adj_X adj_X' : list V,
    subtract_member_actions eqs eq_nl_deps i tds adj_X = Ok adj_X' ->
    length adj_X' = length adj_X.
Proof.
  induction tds as [|[j k] tds IH]; intros adj_X adj_X' H; simpl in H.
  - by injection H as <-.
  - apply bind_Ok in H as (eq_k & _ & H).
    apply bind_Ok in H as (nl_k & _ & H).
    apply bind_Ok in H as (adj_k & _ & H).
    apply bind_Ok in H as (sb & _ & H).
    apply bind_Ok in H as (adj_i & _ & H).
    apply IH in H. by rewrite length_insert in H.
Qed.

Lemma adjoint_member_step_length (eqs : list (Equation (V:=V) (BC:=BC)))
    (eq_nl_deps : list (list V)) (tdeps : list (list (nat * nat)))
    (B : list V) (i : nat) (adj_X adj_X' : list V) :
  adjoint_member_step eqs eq_nl_deps tdeps B i adj_X = Ok adj_X' ->
  length adj_X' = length adj_X /\ (i < length adj_X)%nat.
Proof.
  unfold adjoint_member_step. intros H.
  apply bind_Ok in H as (a & Ha & H).
  apply bind_Ok in H as (b_i & _ & H).
  apply bind_Ok in H as (tds & _ & H).
  apply bind_Ok in H as (adj1 & H1 & H).
  apply bind_Ok in H as (adj_i & _ & H).
  apply bind_Ok in H as (eq_i & _ & H).
  apply bind_Ok in H as (nl_i & _ & H).
  apply bind_Ok in H as (adj_i' & _ & H).
  apply bind_Ok in H as (v & _ & [= <-]).
  apply subtract_member_actions_length in H1.
  rewrite !length_insert, H1, length_insert. split; [done|].
  apply getitem_Ok in Ha. by eapply lookup_lt_Some.
Qed.

Lemma adjoint_sweep_length (eqs : list (Equation (V:=V) (BC:=BC)))
    (eq_nl_deps : list (list V)) (tdeps : list (list (nat * nat)))
    (B : list V) (order : list nat) :
  forall adj_X adj_X' : list V,
    adjoint_sweep eqs eq_nl_deps tdeps B order adj_X = Ok adj_X' ->
    length adj_X' = length adj_X /\
    Forall (fun i => (i < length adj_X)%nat) order.
Proof.
  induction order as [|i order IH]; intros adj_X adj_X' H; simpl in H.
  - injection H as <-. by split.
  - apply bind_Ok in H as (adj1 & H1 & H).
    apply adjoint_member_step_length in H1 as [Hlen Hi].
    apply IH in H as [Hlen' Hall]. rewrite Hlen in Hlen', Hall.
    split; [done|]. by constructor.
Qed.

Lemma adjoint_iterates_length (fp : FixedPointSolver (V:=V) (BC:=BC))
    (eq_nl_deps : list (list V)) (tdeps : list (list (nat * nat)))
    (B : list V) (n : nat) :
  forall (adj_X : list V) (x_0 : V) (adj_X' : list V) (x' : V),
    iterates (adjoint_pass fp eq_nl_deps tdeps B) (S n) adj_X x_0
    = Ok (adj_X', x') ->
    length adj_X' = length adj_X /\
    Forall (fun i => (i < length adj_X)%nat)
      (adjoint_order (length (_eqs fp))).
Proof.
  induction n as [|n IH]; intros adj_X x_0 adj_X' x' H;
    cbn [iterates] in H.
  - destruct (adjoint_pass fp eq_nl_deps tdeps B adj_X) as [[a1 x1]|] eqn:Hp;
      [|discriminate].
    injection H as <- <-. unfold adjoint_pass in Hp.
    apply bind_Ok in Hp as (a2 & Ha2 & Hp).
    apply bind_Ok in Hp as (x2 & _ & [= <- <-]).
    exact (adjoint_sweep_length _ _ _ _ _ _ _ Ha2).
  - destruct (adjoint_pass fp eq_nl_deps tdeps B adj_X) as [[a1 x1]|] eqn:Hp;
      [|discriminate].
    apply (IH a1 x1) in H as [Hlen Hall]. unfold adjoint_pass in Hp.
    apply bind_Ok in Hp as (a2 & Ha2 & Hp).
    apply bind_Ok in Hp as (x2 & _ & [= <- <-]).
    apply adjoint_sweep_length in Ha2 as [Hlen2 _].
    rewrite Hlen2 in Hlen, Hall. by split.
Qed.

(** X13. When [adjoint_jacobian_solve] of a FixedPointSolver returns, it
    returns one adjoint solution per entry of [B]; and it returns only if
    [B] is not empty and has at least as many entries as the solver has
    members. *)
Theorem FixedPointSolver_adjoint_jacobian_solve_length
    (fp : FixedPointSolver (V:=V) (BC:=BC)) (nl_deps B adj_X : list V)
    (tr : list trace_entry) :
  FixedPointSolver_adjoint_jacobian_solve fp nl_deps B = Some (Ok adj_X, tr) ->
  length adj_X = length B /\
  (1 <= length B)%nat /\ (length (_eqs fp) <= length B)%nat.
Proof.
  unfold FixedPointSolver_adjoint_jacobian_solve. intros Hrun.
  destruct (FixedPointSolver_adjoint_setup fp nl_deps B) as [st|e] eqn:Hst;
    [|discriminate].
  assert (as_adj_X st = B /\ (1 <= length B)%nat) as [HB Hne].
  { unfold FixedPointSolver_adjoint_setup in Hst.
    apply bind_Ok in Hst as (a & _ & Hst).
    apply bind_Ok in Hst as (r & _ & Hst).
    apply bind_Ok in Hst as (m & _ & Hst).
    apply bind_Ok in Hst as (rp & _ & Hst).
    apply bind_Ok in Hst as (td & _ & Hst).
    apply bind_Ok in Hst as (x & Hx & Hst).
    apply bind_Ok in Hst as (nd & _ & [= <-]). simpl. split; [done|].
    unfold last_item in Hx. destruct B; [discriminate|]. simpl. lia. }
  destruct (float_pow2 _) as [tol|e]; [|discriminate].
  pose proof (loop_length _ _ _ _ _ _ _ _ _ _ _ Hrun) as [_ Hone].
  apply loop_result in Hrun as [x' Hit].
  destruct (length tr) as [|n] eqn:Hn.
  { assert (1 <= 0)%nat by (apply Hone; eauto). lia. }
  apply adjoint_iterates_length in Hit as [Hlen Hall].
  rewrite HB in Hlen, Hall. split; [done|]. split; [done|].
  destruct (length (_eqs fp)) as [|k]; [lia|].
  rewrite adjoint_order_S in Hall. apply Forall_app in Hall as [_ Hk].
  rewrite Forall_singleton in Hk. lia.
Qed.

End AdjointSweep.

(** ** FixedPointSolver._init_adjoint_jacobian_solve *)

Lemma enumerate_ids_table (deps : list Function) :
  forall (pre : list Function) (d : gmap nat nat),
    ids_table pre d -> NoDup (function_id <$> pre ++ deps) ->
    ids_table (pre ++ deps) (enumerate_ids (length pre) deps d).
Proof.
  induction deps as [|dep deps IH]; intros pre d Ht Hnd; simpl.
  - by rewrite app_nil_r.
  - assert (d !! function_id dep = None) as Hnone.
    { destruct (d !! function_id dep) as [j|] eqn:Hj; [|done].
      apply Ht in Hj as (d' & Hd' & Hid).
      rewrite fmap_app, fmap_cons in Hnd.
      apply NoDup_app in Hnd as (_ & Hdisj & _).
      exfalso. apply (Hdisj (function_id dep)).
      - rewrite <- Hid. apply list_elem_of_fmap. exists d'. split; [done|].
        by eapply list_elem_of_lookup_2.
      - by left. }
    pose proof (ids_table_append pre d dep Ht Hnone) as Ht1.
    specialize (IH (pre ++ [dep]) _ Ht1).
    rewrite <- app_assoc, length_app in IH. simpl in IH.
    replace (length pre + 1)%nat with (S (length pre)) in IH by lia.
    by apply IH.
Qed.

Lemma alter_append_entry {A} (T : list (list A)) (k' k : nat) (q p : A) :
  (exists l, alter (fun l => l ++ [q]) k' T !! k = Some l /\ p ∈ l) <->
  (exists l, T !! k = Some l /\ p ∈ l) \/
  (k = k' /\ p = q /\ (k' < length T)%nat).
Proof.
  destruct (decide (k = k')) as [->|Hne].
  - rewrite list_lookup_alter_eq. split.
    + intros (l & Hl & Hp). destruct (T !! k') as [l0|] eqn:Hl0; [|done].
      simpl in Hl. injection Hl as <-.
      apply elem_of_app in Hp as [Hp|Hp]; [left; eauto|].
      apply list_elem_of_singleton in Hp. right.
      split; [done|]. split; [done|]. by eapply lookup_lt_Some.
    + intros [(l & Hl & Hp)|(_ & -> & Hlt)].
      * rewrite Hl. simpl. eexists. split; [done|].
        apply elem_of_app. by left.
      * destruct (lookup_lt_is_Some_2 T k' Hlt) as [l Hl].
        rewrite Hl. simpl. eexists. split; [done|].
        apply elem_of_app. right. by apply list_elem_of_singleton.
  - rewrite list_lookup_alter_ne by done. split; [by left|].
    intros [H|(? & _)]; [done|congruence].
Qed.

Lemma tdeps_of_dependencies_entry (i : nat) (eq_x_ids : gmap nat nat)
    (ds : list Function) :
  forall (j : nat) (T : list (list (nat * nat))) (k : nat) (p : nat * nat),
    length (tdeps_of_dependencies i j ds eq_x_ids T) = length T /\
    ((exists l, tdeps_of_dependencies i j ds eq_x_ids T !! k = Some l /\ p ∈ l)
     <->
     (exists l, T !! k = Some l /\ p ∈ l) \/
     ((k < length T)%nat /\ k <> i /\
      exists (j' : nat) (d : Function),
        ds !! j' = Some d /\ p = ((j + j')%nat, i) /\
        eq_x_ids !! function_id d = Some k)).
Proof.
  induction ds as [|dep ds IH]; intros j T k p; simpl.
  - split; [done|]. split; [by left|].
    intros [H|(_ & _ & j' & d & Hd & _)]; [done|].
    by rewrite lookup_nil in Hd.
  - set (T1 := match eq_x_ids !! function_id dep with
               | Some k0 =>
                   if bool_decide (k0 ≠ i)
                   then alter (fun l => l ++ [(j, i)]) k0 T else T
               | None => T
               end).
    assert (length T1 = length T) as Hlen.
    { unfold T1. destruct (eq_x_ids !! function_id dep); [|done].
      case_bool_decide; [|done]. apply length_alter. }
    assert ((exists l, T1 !! k = Some l /\ p ∈ l) <->
            (exists l, T !! k = Some l /\ p ∈ l) \/
            ((k < length T)%nat /\ k <> i /\ p = (j, i) /\
             eq_x_ids !! function_id dep = Some k)) as Hentry.
    { unfold T1. destruct (eq_x_ids !! function_id dep) as [k0|] eqn:Hk0.
      - case_bool_decide as Hne.
        + rewrite alter_append_entry. split.
          * intros [H|(-> & -> & Hlt)]; [by left|]. right. auto.
          * intros [H|(Hlt & _ & -> & [= ->])]; [by left|]. right. auto.
        + split; [by left|].
          intros [H|(_ & Hki & _ & [= ->])]; [done|].
          by destruct Hki.
      - split; [by left|]. intros [H|(_ & _ & _ & [=])]. done. }
    destruct (IH (S j) T1 k p) as [Hlen' Hiff].
    split; [by rewrite Hlen'|].
    rewrite Hiff, Hentry, Hlen. split.
    + intros [[H|(Hlt & Hki & -> & Hk)]|(Hlt & Hki & j' & d & Hd & -> & Hk)].
      * by left.
      * right. split; [done|]. split; [done|].
        exists 0%nat, dep. rewrite Nat.add_0_r. auto.
      * right. split; [done|]. split; [done|].
        exists (S j'), d. split; [done|]. split; [f_equal; lia|done].
    + intros [H|(Hlt & Hki & j' & d & Hd & -> & Hk)]; [by left; left|].
      destruct j' as [|j']; simpl in Hd.
      * injection Hd as <-. left. right. rewrite Nat.add_0_r. auto.
      * right. split; [done|]. split; [done|].
        exists j', d. split; [done|]. split; [f_equal; lia|done].
Qed.

Section Tdeps.

Context {V BC : Type} `{!Backend V BC}.

Lemma tdeps_of_members_entry (eq_x_ids : gmap nat nat)
    (eqs : list (Equation (V:=V) (BC:=BC))) :
  forall (i0 : nat) (T : list (list (nat * nat))) (k : nat) (p : nat * nat),
    length (tdeps_of_members i0 eqs eq_x_ids T) = length T /\
    ((exists l, tdeps_of_members i0 eqs eq_x_ids T !! k = Some l /\ p ∈ l)
     <->
     (exists l, T !! k = Some l /\ p ∈ l) \/
     ((k < length T)%nat /\
      exists (i' j : nat) (eq : Equation) (d : Function),
        eqs !! i' = Some eq /\ dependencies (eq_base eq) !! j = Some d /\
        p = (j, (i0 + i')%nat) /\ k <> (i0 + i')%nat /\
        eq_x_ids !! function_id d = Some k)).
Proof.
  induction eqs as [|eq eqs IH]; intros i0 T k p; simpl.
  - split; [done|]. split; [by left|].
    intros [H|(_ & i' & j & eq & d & Heq & _)]; [done|].
    by rewrite lookup_nil in Heq.
  - destruct (tdeps_of_dependencies_entry i0 eq_x_ids
                (dependencies (eq_base eq)) 0 T k p) as [Hlen Hentry].
    destruct (IH (S i0) (tdeps_of_dependencies i0 0
                           (dependencies (eq_base eq)) eq_x_ids T) k p)
      as [Hlen' Hiff].
    split; [by rewrite Hlen'|].
    rewrite Hiff, Hentry, Hlen. split.
    + intros [[H|(Hlt & Hki & j' & d & Hd & -> & Hk)]
             |(Hlt & i' & j & eq' & d & Heq & Hd & -> & Hki & Hk)].
      * by left.
      * right. split; [done|]. exists 0%nat, j', eq, d.
        rewrite Nat.add_0_r. auto.
      * right. split; [done|]. exists (S i'), j, eq', d.
        replace (i0 + S i')%nat with (S i0 + i')%nat by lia. auto.
    + intros [H|(Hlt & i' & j & eq' & d & Heq & Hd & -> & Hki & Hk)];
        [by left; left|].
      destruct i' as [|i']; simpl in Heq.
      * injection Heq as <-. rewrite Nat.add_0_r in *. left. right.
        split; [done|]. split; [done|]. exists j, d. auto.
      * right. split; [done|]. exists i', j, eq', d.
        replace (S i0 + i')%nat with (i0 + S i')%nat by lia. auto.
Qed.

(** X14. The table [_tdeps] that [_init_adjoint_jacobian_solve] builds for
    a FixedPointSolver the constructor returned has one list per member,
    and the list of member [k] holds the pair [(j, i)] exactly when [i] is
    another member than [k] and dependency [j] of member [i] has the
    identity of the solution of member [k]: these are the derivative
    actions subtracted from the right-hand side of member [k] in an adjoint
    pass. *)
Theorem tdeps_characterisation
    (eqs : list (option (Equation (V:=V) (BC:=BC))))
    (p : SolverParameters) (g : option Function)
    (fp : FixedPointSolver (V:=V) (BC:=BC)) :
  FixedPointSolver_init eqs p g = Ok fp ->
  exists tdeps : list (list (nat * nat)),
    _init_adjoint_jacobian_solve fp = Ok tdeps /\
    length tdeps = length (_eqs fp) /\
    forall k j i : nat,
      (exists l, tdeps !! k = Some l /\ (j, i) ∈ l) <->
      k <> i /\
      exists (eq_i eq_k : Equation) (d x_k : Function),
        _eqs fp !! i = Some eq_i /\ _eqs fp !! k = Some eq_k /\
        eq_x eq_k = Ok x_k /\
        dependencies (eq_base eq_i) !! j = Some d /\
        function_id d = function_id x_k.
Proof.
  intros Hinit.
  apply FixedPointSolver_init_Ok in Hinit
    as (X & _ & _ & Hmem & _ & HX & _).
  apply check_distinct_solves_NoDup in Hmem as (xs & Hxs & Hnd & _).
  rewrite HX in Hxs. injection Hxs as <-.
  unfold _init_adjoint_jacobian_solve. rewrite HX. simpl.
  eexists. split; [reflexivity|].
  pose proof (enumerate_ids_table X [] ∅ ids_table_empty Hnd) as Ht.
  simpl in Ht.
  destruct (for_list_Ok _ _ _ HX) as [HlenX HallX].
  split.
  { destruct (tdeps_of_members_entry (enumerate_ids 0 X ∅) (_eqs fp) 0
                (replicate (length (_eqs fp)) []) 0%nat (0%nat, 0%nat))
      as [-> _]. apply length_replicate. }
  intros k j i.
  destruct (tdeps_of_members_entry (enumerate_ids 0 X ∅) (_eqs fp) 0
              (replicate (length (_eqs fp)) []) k (j, i)) as [_ ->].
  rewrite length_replicate. split.
  - intros [(l & Hl & Hin)|(Hlt & i' & j' & eq & d & Heq & Hd & [= -> ->] & Hki & Hk)].
    { apply lookup_replicate in Hl as [-> _]. by apply elem_of_nil in Hin. }
    split; [done|].
    apply Ht in Hk as (x_k & Hxk & Hid).
    destruct (lookup_lt_is_Some_2 (_eqs fp) k Hlt) as [eq_k Heqk].
    destruct (HallX _ _ Heqk) as (x' & Hx' & Hex).
    rewrite Hxk in Hx'. injection Hx' as <-.
    exists eq, eq_k, d, x_k. auto.
  - intros (Hki & eq_i & eq_k & d & x_k & Hi & Hk & Hxk & Hd & Hid).
    right. split; [by eapply lookup_lt_Some|].
    exists i, j, eq_i, d. split; [done|]. split; [done|].
    split; [done|]. split; [done|].
    apply Ht. exists x_k. split; [|done].
    destruct (HallX _ _ Hk) as (x' & Hx' & Hex). congruence.
Qed.

End Tdeps.

Lemma FixedPointSolver_adjoint_jacobian_solve_length_witness :
  exists (fp : FixedPointSolver (V:=float) (BC:=float)) (adj_X : list float)
         (tr : list trace_entry),
    Example.relay None = Ok fp /\
    FixedPointSolver_adjoint_jacobian_solve fp []
      [PyFloat.of_Z 1; PyFloat.of_Z 2]
    = Some (Ok adj_X, tr) /\
    length adj_X = 2%nat.
Proof.
  do 3 eexists.
  split; [vm_compute; reflexivity|].
  lazymatch goal with
  | |- FixedPointSolver_adjoint_jacobian_solve ?fp ?nl ?B = _ /\ _ =>
      pose (solver := fp);
      let r := eval vm_compute in
                 (FixedPointSolver_adjoint_jacobian_solve fp nl B) in
      lazymatch r with
      | Some (Ok ?a1, ?tr1) => pose (adjoint := a1); pose (passes := tr1)
      end
  end.
  assert (FixedPointSolver_adjoint_jacobian_solve solver []
            [PyFloat.of_Z 1; PyFloat.of_Z 2]
          = Some (Ok adjoint, passes)) as Hrun by (vm_compute; reflexivity).
  split; [exact Hrun|].
  exact (proj1 (FixedPointSolver_adjoint_jacobian_solve_length
                  solver _ _ adjoint passes Hrun)).
Defined.

Lemma tdeps_characterisation_witness :
  exists (eqs : list (option (Equation (V:=float) (BC:=float))))
         (fp : FixedPointSolver (V:=float) (BC:=float))
         (tdeps : list (list (nat * nat))),
    Example.relay_members = Ok eqs /\
    FixedPointSolver_init eqs Example.fp_parameters None = Ok fp /\
    _init_adjoint_jacobian_solve fp = Ok tdeps /\
    length tdeps = length (_eqs fp).
Proof.
  do 2 eexists.
  enough (exists tdeps : list (list (nat * nat)),
            Example.relay_members = Ok _ /\
            FixedPointSolver_init _ Example.fp_parameters None = Ok _ /\
            _init_adjoint_jacobian_solve _ = Ok tdeps /\
            length tdeps = length (_eqs _)) as Hw by exact Hw.
  assert (Example.relay_members = Ok _) as Hm by (vm_compute; reflexivity).
  lazymatch type of Hm with
  | _ = Ok ?eqs => pose (members := eqs)
  end.
  assert (FixedPointSolver_init members Example.fp_parameters None = Ok _)
    as Hfp by (vm_compute; reflexivity).
  destruct (tdeps_characterisation (V:=float) (BC:=float)
              members Example.fp_parameters None _ Hfp)
    as (tdeps & Htd & Hlen & _).
  exists tdeps. auto.
Defined.

(** ** FixedPointSolver.adjoint_derivative_action *)

Section InitialGuessDerivative.

Context {V BC : Type} `{!Backend V BC}.

(** Members that do not depend on [m] leave [F] as it is. *)
Lemma subtract_member_derivative_actions_unused
    (fp : FixedPointSolver (V:=V) (BC:=BC)) (nl_deps : list V) (m : Function)
    (adj_X : list V) (F : V) (members : list nat) :
  Forall (fun eq => m ∉ dependencies (eq_base eq)) (_eqs fp) ->
  Forall (fun i => (i < length (_eqs fp))%nat) members ->
  subtract_member_derivative_actions fp nl_deps m adj_X members F = Ok F.
Proof.
  intros Hun. induction 1 as [|i members Hi _ IH]; simpl; [done|].
  destruct (lookup_lt_is_Some_2 _ _ Hi) as [eq_i Heq].
  apply getitem_Ok in Heq. rewrite Heq. simpl. apply getitem_Ok in Heq.
  rewrite Forall_forall in Hun. unfold py_in.
  rewrite bool_decide_eq_false_2; [exact IH|].
  apply Hun. by eapply list_elem_of_lookup_2.
Qed.

(** X15. Let a FixedPointSolver be built with an initial guess that is not
    its solution and that no member depends on. Then the adjoint derivative
    action of the solver with respect to the initial guess (dependency 0)
    is [(-1.0, F)] with [F] a new, zero Function: the converged solution
    does not depend on the initial guess, whatever the adjoint direction
    and the values of the nonlinear dependencies. *)
Theorem FixedPointSolver_initial_guess_derivative
    (eqs : list (option (Equation (V:=V) (BC:=BC))))
    (p : SolverParameters) (g : Function)
    (fp : FixedPointSolver (V:=V) (BC:=BC))
    (s : store) (nl_deps adj_X : list V) :
  FixedPointSolver_init eqs p (Some g) = Ok fp ->
  _initial_guess_index fp <> None ->
  Forall (fun eq => g ∉ dependencies (eq_base eq)) (_eqs fp) ->
  FixedPointSolver_adjoint_derivative_action fp s nl_deps 0 adj_X
  = Ok (ada_Scaled (PyFloat.neg (PyFloat.of_Z 1)) (zero_like (s g))).
Proof.
  intros Hinit Hidx Hun.
  apply FixedPointSolver_init_initial_guess in Hinit
    as (eq_last & x_last & _ & _ & _ & Hg).
  destruct (default true (nonzero_initial_guess p)); [|done].
  destruct (decide (g = x_last)) as [_|_]; [done|].
  destruct Hg as [_ Hg0].
  unfold FixedPointSolver_adjoint_derivative_action.
  assert (py_getitem (dependencies (fp_base fp)) 0 = Ok g) as ->.
  { unfold py_getitem. simpl. by apply getitem_Ok. }
  simpl.
  rewrite subtract_member_derivative_actions_unused; [done|done|].
  apply Forall_forall. intros i Hi. by apply elem_of_seq in Hi as [_ ?].
Qed.

End InitialGuessDerivative.

Lemma FixedPointSolver_initial_guess_derivative_witness :
  exists (eqs : list (option (Equation (V:=float) (BC:=float))))
         (fp : FixedPointSolver (V:=float) (BC:=float)),
    Example.relay_members = Ok eqs /\
    FixedPointSolver_init eqs Example.fp_parameters
      (Some (mkFunction 7 false)) = Ok fp /\
    forall (s : store) (nl_deps adj_X : list float),
      FixedPointSolver_adjoint_derivative_action fp s nl_deps 0 adj_X
      = Ok (ada_Scaled (PyFloat.neg (PyFloat.of_Z 1)) PyFloat.zero).
Proof.
  do 2 eexists.
  split; [vm_compute; reflexivity|].
  lazymatch goal with
  | |- FixedPointSolver_init ?eqs _ _ = _ /\ _ => pose (members := eqs)
  end.
  split; [vm_compute; reflexivity|].
  lazymatch goal with
  | |- forall s nl_deps adj_X,
         FixedPointSolver_adjoint_derivative_action ?fp _ _ _ _ = _ =>
      pose (solver := fp)
  end.
  intros s nl_deps adj_X.
  refine (FixedPointSolver_initial_guess_derivative
            (V:=float) (BC:=float) members Example.fp_parameters
            (mkFunction 7 false) solver s nl_deps adj_X eq_refl _ _).
  - discriminate.
  - apply Forall_cons_2.
    { intros Hin. apply elem_of_cons in Hin as [Hin|Hin]; [discriminate|].
      apply list_elem_of_singleton in Hin. discriminate. }
    apply Forall_cons_2; [|apply Forall_nil_2].
    intros Hin. apply elem_of_cons in Hin as [Hin|Hin]; [discriminate|].
    apply list_elem_of_singleton in Hin. discriminate.
Defined.

(** ** The numpy backend: LinearEquation and its tangent-linear *)

Lemma find_tau_y_tau_z_result (y z : Function) (M dM : list Function) :
  y <> z ->
  forall (i : nat) (tau_y tau_z : option Function),
    (i + length M <= length dM)%nat ->
    Numpy.find_tau_y_tau_z y z i M dM tau_y tau_z
    = Ok (match last (filter (fun p => p.1 = y) (zip M (drop i dM))) with
          | Some p => Some p.2
          | None => tau_y
          end,
          match last (filter (fun p => p.1 = z) (zip M (drop i dM))) with
          | Some p => Some p.2
          | None => tau_z
          end).
Proof.
  intros Hyz. induction M as [|m M IH]; intros i tau_y tau_z Hlen; [done|].
  simpl in Hlen.
  destruct (lookup_lt_is_Some_2 dM i) as [dm Hdm]; [lia|].
  rewrite (drop_S _ _ _ Hdm). simpl. rewrite !filter_cons. simpl.
  apply getitem_Ok in Hdm.
  case_bool_decide as Hmy.
  - subst m. rewrite decide_True by done. rewrite decide_False by done.
    rewrite Hdm. simpl. rewrite IH by lia. rewrite last_cons.
    by destruct (last (filter _ (zip M (drop (S i) dM)))).
  - rewrite decide_False by done. case_bool_decide as Hmz.
    + subst m. rewrite decide_True by done.
      rewrite Hdm. simpl. rewrite IH by lia. rewrite last_cons.
      by destruct (last (filter (fun p => p.1 = z) (zip M (drop (S i) dM)))).
    + rewrite decide_False by done. apply IH. lia.
Qed.

Section NumpyTangentLinear.

Context {Mat : Type}.

Lemma RHS_init_Ok (deps : list Function) (nl_deps : option (list Function))
    (r : Numpy.RHS) :
  Numpy.RHS_init deps nl_deps = Ok r ->
  r = Numpy.mkRHS deps nl_deps /\ NoDup (function_id <$> deps).
Proof.
  unfold Numpy.RHS_init. intros H.
  destruct (negb _) eqn:Hd in H; [discriminate|].
  apply negb_false_iff in Hd. apply size_id_set_NoDup in Hd.
  destruct nl_deps as [nl|]; [|by injection H as <-].
  destruct (negb _) in H; [discriminate|]. by injection H as <-.
Qed.

Lemma InnerProductRHS_init_Ok (y z : Function) (alpha : float)
    (W : option Mat) (b : Numpy.InnerProductRHS) :
  Numpy.InnerProductRHS_init y z alpha W = Ok b ->
  b = Numpy.mkInnerProductRHS (Numpy.mkRHS [y; z] (Some [y; z])) alpha W /\
  function_id y <> function_id z.
Proof.
  unfold Numpy.InnerProductRHS_init. intros H.
  apply bind_Ok in H as (r & Hr & [= <-]).
  apply RHS_init_Ok in Hr as [-> Hnd]. split; [done|].
  apply NoDup_cons in Hnd as [Hnin _]. intros Hid. apply Hnin.
  rewrite Hid. by left.
Qed.

(** [InnerProductRHS(y, z)] with [y] and [z] of one identity is refused. *)
Lemma InnerProductRHS_init_same_identity (y z : Function) (alpha : float)
    (W : option Mat) :
  function_id y = function_id z ->
  Numpy.InnerProductRHS_init y z alpha W
  = Raise (EquationException "Duplicate dependency").
Proof.
  intros Hid. unfold Numpy.InnerProductRHS_init, Numpy.RHS_init.
  destruct (negb _) eqn:Hd; [done|].
  apply negb_false_iff, size_id_set_NoDup in Hd.
  apply NoDup_cons in Hd as [Hnin _]. exfalso. apply Hnin.
  rewrite Hid. by left.
Qed.

Lemma collect_solutions_singleton (x : Function) :
  Numpy.collect_solutions [x] [] ∅
  = Ok ([x], {[function_id x := 0%nat]}).
Proof. done. Qed.

Lemma InnerProductEquation_init_Ok (y z x : Function) (alpha : float)
    (W : option Mat) (eq : Numpy.LinearEquation) :
  Numpy.InnerProductEquation_init y z (Some x) alpha W = Ok eq ->
  y <> z /\
  _X (Numpy.le_base eq) = [x] /\
  Numpy._B eq
  = [Numpy.mkInnerProductRHS (Numpy.mkRHS [y; z] (Some [y; z])) alpha W].
Proof.
  unfold Numpy.InnerProductEquation_init. intros H.
  apply bind_Ok in H as (b & Hb & H).
  apply InnerProductRHS_init_Ok in Hb as [-> Hid].
  unfold Numpy.LinearEquation_init in H.
  apply bind_Ok in H as ([deps ids] & _ & H).
  apply bind_Ok in H as (base & Hbase & [= <-]). simpl.
  apply Equation_init_Ok in Hbase as (_ & _ & HX & _).
  split; [by intros ->|]. by split.
Qed.

(** X16. Let [eq] be [InnerProductEquation(y, z, x, alpha, M)], which
    solves x = alpha y^T M z. Its tangent-linear raises EquationException
    when [x] is among the parameters, whatever [dM] and [tlm_map] are.
    Otherwise, with a direction in [dM] for every parameter, it follows the
    product rule: the tangent-linear right-hand sides are
    [InnerProductRHS(tau_y, z, alpha, M)] if [y] has a direction [tau_y],
    then [InnerProductRHS(y, tau_z, alpha, M)] if [z] has a direction
    [tau_z] (a direction being the entry of [dM] for the last occurrence in
    [M], else the tangent-linear companion); with no right-hand side the
    result is [None], and else it is the [LinearEquation] of these
    right-hand sides for the companion of [x]. *)
Theorem InnerProductEquation_tangent_linear (y z x : Function)
    (alpha : float) (W : option Mat) (eq : Numpy.LinearEquation)
    (M dM : list Function) (tlm_map : Function -> option Function) :
  Numpy.InnerProductEquation_init y z (Some x) alpha W = Ok eq ->
  (x ∈ M ->
   Numpy.LinearEquation_tangent_linear eq M dM tlm_map
   = Raise (EquationException "Invalid tangent-linear parameter")) /\
  (x ∉ M -> (length M <= length dM)%nat ->
   Numpy.LinearEquation_tangent_linear eq M dM tlm_map
   = tlm_B ← for_list id
               (match direction_of M dM tlm_map y with
                | Some tau_y => [Numpy.InnerProductRHS_init tau_y z alpha W]
                | None => []
                end ++
                match direction_of M dM tlm_map z with
                | Some tau_z => [Numpy.InnerProductRHS_init y tau_z alpha W]
                | None => []
                end);
     match tlm_B with
     | [] => Ok None
     | _ => Some <$> Numpy.LinearEquation_init_optional tlm_B [tlm_map x]
     end).
Proof.
  intros Heq.
  apply InnerProductEquation_init_Ok in Heq as (Hyz & HX & HB).
  unfold Numpy.LinearEquation_tangent_linear. rewrite HX, HB. split.
  - intros Hin. rewrite bool_decide_eq_true_2; [done|].
    apply Exists_cons. by left.
  - intros Hnin Hlen. rewrite bool_decide_eq_false_2.
    2:{ intros Hex. apply Exists_cons in Hex as [Hex|Hex]; [done|].
        by apply Exists_nil in Hex. }
    cbn [for_list]. unfold Numpy.InnerProductRHS_tangent_linear_rhs.
    cbn [Numpy.ip_rhs Numpy.rhs_dependencies Numpy.rhs_deps Numpy.ip_alpha
         Numpy.ip_M].
    rewrite (find_tau_y_tau_z_result y z M dM Hyz 0) by (simpl; lia).
    rewrite drop_0. unfold direction_of. simpl.
    destruct (last (filter (fun p => p.1 = y) (zip M dM))) as [py|];
      destruct (last (filter (fun p => p.1 = z) (zip M dM))) as [pz|];
      simpl.
    all: destruct (tlm_map y) as [ty|]; destruct (tlm_map z) as [tz|]; simpl.
    all: repeat match goal with
         | |- context [Numpy.InnerProductRHS_init ?a ?b ?c ?d] =>
             destruct (Numpy.InnerProductRHS_init a b c d); simpl
         end.
    all: try reflexivity.
Qed.

(** X17. Let [M] not contain the solution [x] of [NormSqEquation(y, x, M)]
    and let [dM] give a direction for every parameter. Then
    [tangent_linear] returns [None] when [y] has no direction, and
    otherwise [InnerProductEquation(y, tau_y, tlm_map[x], alpha = 2.0, M)];
    when the direction [tau_y] has the identity of [y] itself, this
    constructor call raises the EquationException "Duplicate dependency". *)
Theorem NormSqEquation_tangent_linear_equation (y x : Function)
    (W : option Mat) (eq : Numpy.NormSqEquation) (M dM : list Function)
    (tlm_map : Function -> option Function) :
  Numpy.NormSqEquation_init y x W = Ok eq ->
  x ∉ M -> (length M <= length dM)%nat ->
  Numpy.NormSqEquation_tangent_linear eq M dM tlm_map
  = match direction_of M dM tlm_map y with
    | None => Ok None
    | Some tau_y =>
        Some <$> Numpy.InnerProductEquation_init y tau_y (tlm_map x)
                   (PyFloat.of_Z 2) W
    end /\
  (forall tau_y,
     direction_of M dM tlm_map y = Some tau_y ->
     function_id tau_y = function_id y ->
     Numpy.NormSqEquation_tangent_linear eq M dM tlm_map
     = Raise (EquationException "Duplicate dependency")).
Proof.
  intros Heq Hnin Hlen.
  assert (Numpy.NormSqEquation_tangent_linear eq M dM tlm_map
          = match direction_of M dM tlm_map y with
            | None => Ok None
            | Some tau_y =>
                Some <$> Numpy.InnerProductEquation_init y tau_y (tlm_map x)
                           (PyFloat.of_Z 2) W
            end) as Hform.
  { unfold Numpy.NormSqEquation_init in Heq.
    apply bind_Ok in Heq as (b & Hb & [= <-]).
    apply Equation_init_Ok in Hb as (_ & _ & _ & Hd & _).
    unfold Numpy.NormSqEquation_tangent_linear, dependencies. simpl.
    rewrite Hd. rewrite find_tau_y_result by (done || simpl; lia).
    rewrite drop_0. simpl. unfold direction_of.
    destruct (last (filter _ (zip M dM))) as [p|]; [done|].
    by destruct (tlm_map y). }
  split; [exact Hform|].
  intros tau_y Hdir Hid. rewrite Hform, Hdir.
  unfold Numpy.InnerProductEquation_init.
  by rewrite InnerProductRHS_init_same_identity.
Qed.

End NumpyTangentLinear.

(** The keys of the dictionary after the inner loop are the keys before it
    and the identities of the dependencies looped over. *)
Lemma collect_deps_keys (ds : list Function) :
  forall deps dep_ids indices (k : nat),
    is_Some ((collect_deps ds deps dep_ids indices).1.2 !! k) <->
    is_Some (dep_ids !! k) \/ k ∈ function_id <$> ds.
Proof.
  induction ds as [|dep ds IH]; intros deps dep_ids indices k; simpl.
  - split; [by left|]. intros [H|H]; [done|]. by apply elem_of_nil in H.
  - destruct (dep_ids !! function_id dep) as [j|] eqn:Hl.
    + rewrite IH. split.
      * intros [H|H]; [by left|]. right. by right.
      * intros [H|H]; [by left|].
        apply elem_of_cons in H as [->|H]; [|by right].
        left. by rewrite Hl.
    + rewrite IH. rewrite lookup_insert_is_Some. split.
      * intros [[<-|[_ H]]|H]; [right; by left|by left|right; by right].
      * intros [H|H].
        -- left. destruct (decide (function_id dep = k)); [by left|].
           right. done.
        -- apply elem_of_cons in H as [->|H]; [left; by left|by right].
Qed.

Lemma ids_table_keys (deps : list Function) (dep_ids : gmap nat nat)
    (k : nat) :
  ids_table deps dep_ids ->
  is_Some (dep_ids !! k) <-> k ∈ function_id <$> deps.
Proof.
  intros Ht. split.
  - intros [j Hj]. apply Ht in Hj as (d & Hd & <-).
    apply list_elem_of_fmap. exists d. split; [done|].
    by eapply list_elem_of_lookup_2.
  - intros Hk. apply list_elem_of_fmap in Hk as (d & -> & Hd).
    apply list_elem_of_lookup in Hd as [j Hj].
    exists j. apply Ht. eauto.
Qed.

Lemma collect_solutions_NoDup (X : list Function) :
  forall (pre : list Function) (d : gmap nat nat),
    ids_table pre d -> NoDup (function_id <$> pre ++ X) ->
    exists d', Numpy.collect_solutions X pre d = Ok (pre ++ X, d') /\
               ids_table (pre ++ X) d'.
Proof.
  induction X as [|x X IH]; intros pre d Ht Hnd; simpl.
  - exists d. by rewrite app_nil_r.
  - destruct (d !! function_id x) as [j|] eqn:Hj.
    + exfalso. apply Ht in Hj as (d0 & Hd0 & Hid).
      rewrite fmap_app, fmap_cons in Hnd.
      apply NoDup_app in Hnd as (_ & Hdisj & _).
      apply (Hdisj (function_id x)); [|by left].
      rewrite <- Hid. apply list_elem_of_fmap. exists d0. split; [done|].
      by eapply list_elem_of_lookup_2.
    + pose proof (ids_table_append pre d x Ht Hj) as Ht1.
      rewrite length_app. simpl.
      replace (length pre + 1 - 1)%nat with (length pre) by lia.
      destruct (IH (pre ++ [x]) _ Ht1) as (d' & Hd' & Ht').
      { by rewrite <- app_assoc. }
      rewrite <- app_assoc in Hd', Ht'. eauto.
Qed.

Lemma collect_solutions_duplicate (X : list Function) :
  forall (pre : list Function) (d : gmap nat nat),
    ids_table pre d -> ~ NoDup (function_id <$> pre ++ X) ->
    Numpy.collect_solutions X pre d
    = Raise (EquationException "Duplicate solve").
Proof.
  induction X as [|x X IH]; intros pre d Ht Hnd; simpl.
  - exfalso. apply Hnd. rewrite app_nil_r. by eapply ids_table_NoDup.
  - destruct (d !! function_id x) as [j|] eqn:Hj; [done|].
    pose proof (ids_table_append pre d x Ht Hj) as Ht1.
    rewrite length_app. simpl.
    replace (length pre + 1 - 1)%nat with (length pre) by lia.
    apply IH; [done|]. by rewrite <- app_assoc.
Qed.

Section NumpyLinearEquation.

Context {Mat : Type}.

(** The loop over the right-hand sides keeps both dictionaries in step with
    their lists, only appends to the lists, and adds to the keys the
    identities of the dependencies it meets. *)
Lemma collect_rhs_table (B : list (Numpy.InnerProductRHS (Mat:=Mat))) :
  forall c,
    ids_table (c_deps c) (c_dep_ids c) ->
    ids_table (c_nl_deps c) (c_nl_dep_ids c) ->
    ids_table (c_deps (Numpy.collect_rhs B c))
              (c_dep_ids (Numpy.collect_rhs B c)) /\
    ids_table (c_nl_deps (Numpy.collect_rhs B c))
              (c_nl_dep_ids (Numpy.collect_rhs B c)) /\
    (exists l, c_deps (Numpy.collect_rhs B c) = c_deps c ++ l) /\
    (forall k : nat,
       is_Some (c_dep_ids (Numpy.collect_rhs B c) !! k) <->
       is_Some (c_dep_ids c !! k) \/
       Exists (fun b =>
                 k ∈ function_id <$> Numpy.rhs_dependencies (Numpy.ip_rhs b))
         B) /\
    (forall k : nat,
       is_Some (c_nl_dep_ids (Numpy.collect_rhs B c) !! k) <->
       is_Some (c_nl_dep_ids c !! k) \/
       Exists (fun b =>
                 k ∈ function_id <$>
                       Numpy.rhs_nonlinear_dependencies (Numpy.ip_rhs b))
         B).
Proof.
  induction B as [|b B IH]; intros c Ht Hnt; simpl.
  - split; [done|]. split; [done|].
    split; [exists []; by rewrite app_nil_r|].
    split; intros k; (split; [by left|]);
      (intros [H|H]; [done|by apply Exists_nil in H]).
  - pose proof (collect_deps_keys (Numpy.rhs_dependencies (Numpy.ip_rhs b))
                  (c_deps c) (c_dep_ids c) []) as Hk1.
    pose proof (collect_deps_keys
                  (Numpy.rhs_nonlinear_dependencies (Numpy.ip_rhs b))
                  (c_nl_deps c) (c_nl_dep_ids c) []) as Hk2.
    destruct (collect_deps_table (Numpy.rhs_dependencies (Numpy.ip_rhs b))
                (c_deps c) (c_dep_ids c) [] Ht)
      as (l & ids1 & idx & Hc1 & Ht1 & _ & _).
    destruct (collect_deps_table
                (Numpy.rhs_nonlinear_dependencies (Numpy.ip_rhs b))
                (c_nl_deps c) (c_nl_dep_ids c) [] Hnt)
      as (nl & nids1 & nidx & Hc2 & Hnt1 & _ & _).
    rewrite Hc1 in Hk1 |- *. rewrite Hc2 in Hk2 |- *. simpl in Hk1, Hk2.
    simpl.
    destruct (IH (mkCollected (c_deps c ++ l) ids1 (c_nl_deps c ++ nl) nids1
                    (c_eq_dep_indices c ++ [idx])
                    (c_eq_nl_dep_indices c ++ [nidx])) Ht1 Hnt1)
      as (Ht2 & Hnt2 & [l' Hl'] & Hkeys & Hnkeys).
    simpl in Hl', Hkeys, Hnkeys.
    split; [done|]. split; [done|]. split.
    { exists (l ++ l'). by rewrite Hl', <- app_assoc. }
    split; intros k.
    + rewrite Hkeys, Hk1, Exists_cons. tauto.
    + rewrite Hnkeys, Hk2, Exists_cons. tauto.
Qed.

(** X18. For right-hand sides built by [InnerProductRHS(...)],
    [LinearEquation(B, X)] (without a matrix) is accepted exactly when the
    solutions in [X] are non-static and of pairwise distinct identities, and
    raises the EquationException "Duplicate solve" when two solutions share
    an identity. A solution may be a dependency of a right-hand side. The
    equation returned solves for [X], keeps [B], and lists the solutions
    first among its dependencies. *)
Theorem LinearEquation_init_accepts
    (B : list (Numpy.InnerProductRHS (Mat:=Mat))) (X : list Function) :
  Forall (fun b => exists y z alpha W,
                     Numpy.InnerProductRHS_init y z alpha W = Ok b) B ->
  ((exists le, Numpy.LinearEquation_init B X = Ok le) <->
   NoDup (function_id <$> X) /\
   Forall (fun x => function_is_static x = false) X) /\
  (~ NoDup (function_id <$> X) ->
   Numpy.LinearEquation_init B X
   = Raise (EquationException "Duplicate solve")) /\
  (forall le,
     Numpy.LinearEquation_init B X = Ok le ->
     _X (Numpy.le_base le) = X /\ Numpy._B le = B /\
     exists rest, dependencies (Numpy.le_base le) = X ++ rest).
Proof.
  intros HB.
  assert (~ NoDup (function_id <$> X) ->
          Numpy.LinearEquation_init B X
          = Raise (EquationException "Duplicate solve")) as Hdup.
  { intros Hnd. unfold Numpy.LinearEquation_init.
    by rewrite (collect_solutions_duplicate X [] ∅ ids_table_empty Hnd). }
  assert (forall le,
     Numpy.LinearEquation_init B X = Ok le ->
     NoDup (function_id <$> X) /\
     Forall (fun x => function_is_static x = false) X /\
     _X (Numpy.le_base le) = X /\ Numpy._B le = B /\
     exists rest, dependencies (Numpy.le_base le) = X ++ rest) as HOk.
  { intros le Hle.
    destruct (decide (NoDup (function_id <$> X))) as [Hnd|Hnd];
      [|by rewrite Hdup in Hle].
    split; [done|]. unfold Numpy.LinearEquation_init in Hle.
    destruct (collect_solutions_NoDup X [] ∅ ids_table_empty Hnd)
      as (d' & Hd' & Ht').
    simpl in Hd', Ht'. rewrite Hd' in Hle. simpl in Hle.
    apply bind_Ok in Hle as (b & Hb & [= <-]). simpl.
    apply Equation_init_Ok in Hb as (HX & _ & HXb & Hd & _).
    split.
    { eapply Forall_impl; [exact HX|]. by intros x [? _]. }
    split; [done|]. split; [done|].
    unfold dependencies. rewrite Hd.
    destruct (collect_rhs_table B (mkCollected X d' [] ∅ [] []) Ht'
                ids_table_empty) as (_ & _ & Hpre & _).
    exact Hpre. }
  split; [split|split; [exact Hdup|]].
  - intros [le Hle]. apply HOk in Hle as (? & ? & _). by split.
  - intros [Hnd Hst]. unfold Numpy.LinearEquation_init.
    destruct (collect_solutions_NoDup X [] ∅ ids_table_empty Hnd)
      as (d' & Hd' & Ht').
    simpl in Hd', Ht'. rewrite Hd'. simpl.
    destruct (collect_rhs_table B (mkCollected X d' [] ∅ [] []) Ht'
                ids_table_empty) as (Ht & Hnt & [rest Hpre] & Hkeys & Hnkeys).
    simpl in Hpre, Hkeys, Hnkeys.
    destruct (Equation_init_complete X
                (c_deps (Numpy.collect_rhs B (mkCollected X d' [] ∅ [] [])))
                (Some (c_nl_deps
                         (Numpy.collect_rhs B (mkCollected X d' [] ∅ [] [])))))
      as [b Hb]; [|rewrite Hb; simpl; eauto].
    split; [|split; [by eapply ids_table_NoDup|split]].
    + rewrite Forall_forall in Hst. apply Forall_forall. intros x Hx.
      split; [by apply Hst|]. rewrite Hpre. apply elem_of_app. by left.
    + by eapply ids_table_NoDup.
    + intros k Hk. apply (ids_table_keys _ _ _ Hnt) in Hk.
      apply (ids_table_keys _ _ _ Ht).
      apply Hnkeys in Hk as [Hk|Hk].
      { rewrite lookup_empty in Hk. by destruct Hk. }
      apply Hkeys. right.
      apply Exists_exists in Hk as (b0 & Hb0 & Hk).
      apply Exists_exists. exists b0. split; [done|].
      rewrite Forall_forall in HB.
      destruct (HB _ Hb0) as (y & z & alpha & W & Hinit).
      apply InnerProductRHS_init_Ok in Hinit as [-> _]. exact Hk.
  - intros le Hle. apply HOk in Hle as (_ & _ & ? & ? & ?). auto.
Qed.

End NumpyLinearEquation.

Lemma InnerProductEquation_tangent_linear_witness :
  let x := mkFunction 1 false in
  let y := mkFunction 2 false in
  let z := mkFunction 3 false in
  let dy := mkFunction 12 false in
  let tlm_map : Function -> option Function :=
    fun f => if decide (f = x) then Some (mkFunction 11 false) else None in
  exists eq le : Numpy.LinearEquation (Mat:=unit),
    Numpy.InnerProductEquation_init y z (Some x) (PyFloat.of_Z 1) None
    = Ok eq /\
    Numpy.LinearEquation_tangent_linear eq [y] [dy] tlm_map = Ok (Some le) /\
    _X (Numpy.le_base le) = [mkFunction 11 false] /\
    dependencies (Numpy.le_base le) = [mkFunction 11 false; dy; z].
Proof.
  intros x y z dy tlm_map. do 2 eexists.
  split; [vm_compute; reflexivity|].
  split.
  - refine (eq_trans
              (proj2 (InnerProductEquation_tangent_linear (Mat:=unit)
                        y z x (PyFloat.of_Z 1) None _ [y] [dy] tlm_map
                        eq_refl) _ _) _).
    + intros Hin. apply list_elem_of_singleton in Hin. discriminate.
    + simpl. lia.
    + vm_compute. reflexivity.
  - split; reflexivity.
Defined.

Lemma NormSqEquation_tangent_linear_equation_witness :
  let x := mkFunction 1 false in
  let y := mkFunction 2 false in
  exists eq : Numpy.NormSqEquation (Mat:=unit),
    Numpy.NormSqEquation_init y x None = Ok eq /\
    Numpy.NormSqEquation_tangent_linear eq [y] [y] (fun _ => None)
    = Raise (EquationException "Duplicate dependency").
Proof.
  intros x y. eexists. split; [reflexivity|].
  refine (proj2 (NormSqEquation_tangent_linear_equation (Mat:=unit)
                   y x None _ [y] [y] (fun _ => None) eq_refl _ _)
            y eq_refl eq_refl).
  - intros Hin. apply list_elem_of_singleton in Hin. discriminate.
  - simpl. lia.
Defined.

Lemma LinearEquation_init_accepts_witness :
  let x := mkFunction 1 false in
  let y := mkFunction 2 false in
  let z := mkFunction 3 false in
  let b := Numpy.mkInnerProductRHS (Mat:=unit)
             (Numpy.mkRHS [y; z] (Some [y; z])) (PyFloat.of_Z 1) None in
  Numpy.LinearEquation_init [b] [x; x]
  = Raise (EquationException "Duplicate solve").
Proof.
  intros x y z b.
  refine (proj1 (proj2 (LinearEquation_init_accepts (Mat:=unit) [b] [x; x] _))
            _).
  - apply Forall_cons_2; [|apply Forall_nil_2].
    exists y, z, (PyFloat.of_Z 1), None. reflexivity.
  - intros Hnd. apply NoDup_cons in Hnd as [Hnin _]. apply Hnin. by left.
Defined.

(** ** The numpy backend: IdentityRHS and SumRHS *)

Lemma find_tau_x_result (x : Function) (MdM : list (Function * Function)) :
  forall tau_x : option Function,
    Numpy.find_tau_x x MdM tau_x
    = match last (filter (fun p => p.1 = x) MdM) with
      | Some p => Some p.2
      | None => tau_x
      end.
Proof.
  induction MdM as [|[m dm] MdM IH]; intros tau_x; [done|].
  simpl. rewrite filter_cons. simpl. case_bool_decide as Hm.
  - rewrite decide_True by done. rewrite IH, last_cons.
    by destruct (last (filter _ MdM)).
  - rewrite decide_False by done. apply IH.
Qed.

Lemma find_tau_indexed_result (y : Function) (M dM : list Function) :
  forall (i : nat) (tau_y : option Function),
    (i + length M <= length dM)%nat ->
    Numpy.find_tau_indexed y i M dM tau_y
    = Ok (match last (filter (fun p => p.1 = y) (zip M (drop i dM))) with
          | Some p => Some p.2
          | None => tau_y
          end).
Proof.
  induction M as [|m M IH]; intros i tau_y Hlen; [done|].
  simpl in Hlen.
  destruct (lookup_lt_is_Some_2 dM i) as [dm Hdm]; [lia|].
  rewrite (drop_S _ _ _ Hdm). simpl. rewrite filter_cons. simpl.
  apply getitem_Ok in Hdm. case_bool_decide as Hmy.
  - rewrite decide_True by done. rewrite Hdm. simpl.
    rewrite IH by lia. rewrite last_cons.
    by destruct (last (filter _ (zip M (drop (S i) dM)))).
  - rewrite decide_False by done. apply IH. lia.
Qed.

Lemma find_tau_indexed_IndexError (y : Function) (M dM : list Function) :
  forall (i j : nat) (tau_y : option Function),
    M !! j = Some y -> (length dM <= i + j)%nat ->
    Numpy.find_tau_indexed y i M dM tau_y = Raise IndexError.
Proof.
  induction M as [|m M IH]; intros i j tau_y Hj Hlen; [done|].
  simpl. destruct j as [|j]; simpl in Hj.
  - injection Hj as ->. rewrite bool_decide_eq_true_2 by done.
    unfold getitem. rewrite lookup_ge_None_2 by lia. done.
  - case_bool_decide as Hmy.
    + unfold getitem. destruct (dM !! i) as [dm|]; [|done]. simpl.
      apply (IH (S i) j); [done|lia].
    + apply (IH (S i) j); [done|lia].
Qed.

(** X25. The tangent-linear right-hand sides of [IdentityRHS(x)] and
    [SumRHS(x)] are [None] when [x] has no direction and otherwise the
    right-hand side of the same class for the direction of [x] (the entry
    of [dM] for the last occurrence of [x] in [M], else the tangent-linear
    companion of [x]). [IdentityRHS] pairs [M] with [dM] and so accepts a
    [dM] that is shorter than [M]; [SumRHS] indexes [dM] and raises
    IndexError when [x] occurs in [M] at a position [dM] does not have. *)
Theorem RHS_tangent_linear_rhs (x : Function) (M dM : list Function)
    (tlm_map : Function -> option Function) :
  (forall b : Numpy.IdentityRHS,
     Numpy.IdentityRHS_init x = Ok b ->
     Numpy.IdentityRHS_tangent_linear_rhs b M dM tlm_map
     = match direction_of M dM tlm_map x with
       | None => Ok None
       | Some tau_x => Some <$> Numpy.IdentityRHS_init tau_x
       end) /\
  (forall b : Numpy.SumRHS,
     Numpy.SumRHS_init x = Ok b ->
     ((length M <= length dM)%nat ->
      Numpy.SumRHS_tangent_linear_rhs b M dM tlm_map
      = match direction_of M dM tlm_map x with
        | None => Ok None
        | Some tau_x => Some <$> Numpy.SumRHS_init tau_x
        end) /\
     (forall i : nat,
        M !! i = Some x -> (length dM <= i)%nat ->
        Numpy.SumRHS_tangent_linear_rhs b M dM tlm_map = Raise IndexError)).
Proof.
  assert ((size (id_set [x]) =? length [x])%nat = true) as Hx.
  { apply NoDup_size_id_set, NoDup_singleton. }
  assert ((size (id_set ([] : list Function))
           =? length ([] : list Function))%nat = true) as Hnil.
  { apply NoDup_size_id_set. constructor. }
  split.
  - intros b Hb. unfold Numpy.IdentityRHS_init, Numpy.RHS_init in Hb.
    rewrite Hx in Hb. injection Hb as <-.
    unfold Numpy.IdentityRHS_tangent_linear_rhs. simpl.
    rewrite find_tau_x_result. unfold direction_of.
    destruct (last (filter _ (zip M dM))) as [p|]; [done|].
    by destruct (tlm_map x).
  - intros b Hb. unfold Numpy.SumRHS_init, Numpy.RHS_init in Hb.
    rewrite Hx, Hnil in Hb. injection Hb as <-.
    unfold Numpy.SumRHS_tangent_linear_rhs. simpl. split.
    + intros Hlen. rewrite find_tau_indexed_result by (simpl; lia).
      rewrite drop_0. simpl. unfold direction_of.
      destruct (last (filter _ (zip M dM))) as [p|]; [done|].
      by destruct (tlm_map x).
    + intros i Hi Hlen.
      by rewrite (find_tau_indexed_IndexError x M dM 0 i None Hi).
Qed.

Lemma RHS_tangent_linear_rhs_witness :
  let x := mkFunction 1 false in
  let dx := mkFunction 11 false in
  exists (b : Numpy.IdentityRHS) (c : Numpy.SumRHS),
    Numpy.IdentityRHS_init x = Ok b /\ Numpy.SumRHS_init x = Ok c /\
    Numpy.IdentityRHS_tangent_linear_rhs b [dx; x] [dx] (fun _ => None)
    = Ok None /\
    Numpy.SumRHS_tangent_linear_rhs c [dx; x] [dx] (fun _ => None)
    = Raise IndexError.
Proof.
  intros x dx. do 2 eexists.
  split; [reflexivity|]. split; [reflexivity|].
  pose proof (RHS_tangent_linear_rhs x [dx; x] [dx] (fun _ => None))
    as [Hid Hsum].
  split.
  - exact (Hid _ eq_refl).
  - refine (proj2 (Hsum _ eq_refl) 1%nat eq_refl _). simpl. lia.
Defined.

(** ** forward_solve with the dependencies handed in *)

Section GivenDependencies.

Context {V BC : Type} `{!Backend V BC}.

(** X23. [forward_solve(x, deps)] with a list [deps] standing in for the
    dependencies. [AssignmentSolver] unpacks it: anything but two entries
    raises ValueError, and of two entries it assigns the second to [x]
    (the first is not looked at). [LinearCombinationSolver] pairs its
    coefficients with [deps[1:]] and sums over the pairs, so that entries
    or coefficients beyond the shorter of the two are dropped without an
    error; [x] must not be among [deps[1:]]. *)
Theorem forward_solve_given_dependencies (x : Function) (bcs : list BC)
    (deps : list Function) (s : store) :
  (forall (y : Function) (eq : Equation (V:=V)),
     AssignmentSolver_init y x bcs = Ok eq ->
     match deps with
     | [d0; d1] =>
         exists s' : store,
           forward_solve eq x (Some deps) s = Ok s' /\
           s' x = apply_bcs_value (s d1) bcs /\
           forall f, f <> x -> s' f = s f
     | _ => forward_solve eq x (Some deps) s = Raise (ValueError "unpack")
     end) /\
  (forall (args : list (float * Function)) (eq : Equation (V:=V)),
     LinearCombinationSolver_init x args bcs = Ok eq ->
     x ∉ drop 1 deps ->
     exists s' : store,
       forward_solve eq x (Some deps) s = Ok s' /\
       s' x = apply_bcs_value
                (weighted_sum (zero_like (s x))
                   (zip (args.*1) (s <$> drop 1 deps)))
                bcs /\
       forall f, f <> x -> s' f = s f).
Proof.
  split.
  - intros y eq Heq.
    apply AssignmentSolver_init_Ok in Heq as (_ & b & -> & _ & _).
    simpl. unfold AssignmentSolver_forward_solve. simpl.
    destruct deps as [|d0 [|d1 [|d2 deps']]]; try done.
    eexists. split; [reflexivity|].
    unfold apply_bcs, function_assign. split.
    + by rewrite !store_insert_eq.
    + intros f Hne. by rewrite !store_insert_ne.
  - intros args eq Heq Hnin.
    apply LinearCombinationSolver_init_Ok in Heq as (_ & _ & b & -> & _ & _).
    eexists. split; [reflexivity|].
    unfold LinearCombinationSolver_forward_solve. simpl.
    assert (x ∉ (zip (args.*1) (drop 1 deps)).*2) as Hnin'.
    { intros Hin. apply Hnin. apply list_elem_of_fmap in Hin as ([a d] & -> & Hin).
      by apply elem_of_zip_r in Hin. }
    destruct (foldl_function_axpy x (zip (args.*1) (drop 1 deps))
                (function_zero x s) Hnin') as [Hx Hf].
    unfold apply_bcs. split.
    + rewrite store_insert_eq, Hx. unfold function_zero.
      rewrite store_insert_eq. do 2 f_equal.
      revert Hnin. generalize (drop 1 deps). generalize (args.*1).
      intros alpha. induction alpha as [|a alpha IH]; intros ds Hds; [done|].
      destruct ds as [|d ds]; [done|]. simpl.
      apply not_elem_of_cons in Hds as [Hxd Hds].
      rewrite store_insert_ne by done. f_equal. by apply IH.
    + intros f Hfx. rewrite store_insert_ne by done.
      rewrite Hf by done. unfold function_zero. by apply store_insert_ne.
Qed.

End GivenDependencies.

Lemma forward_solve_given_dependencies_witness :
  let x := mkFunction 1 false in
  let a := mkFunction 2 false in
  let b := mkFunction 3 false in
  let c := mkFunction 4 false in
  let s : store (V:=float) := fun f => PyFloat.of_Z (Z.of_nat (function_id f)) in
  exists (eq : Equation (V:=float) (BC:=float)) (s' : store),
    LinearCombinationSolver_init x
      [(PyFloat.of_Z 1, a); (PyFloat.of_Z 1, b)] [] = Ok eq /\
    forward_solve eq x (Some [x; c]) s = Ok s' /\
    s' x = PyFloat.of_Z 4.
Proof.
  intros x a b c s. eexists.
  destruct (proj2 (forward_solve_given_dependencies (V:=float) (BC:=float)
                     x [] [x; c] s)
              [(PyFloat.of_Z 1, a); (PyFloat.of_Z 1, b)] _ eq_refl)
    as (s' & Hs' & Hx & _).
  - intros Hin. apply list_elem_of_singleton in Hin. discriminate.
  - exists s'. split; [reflexivity|]. split; [exact Hs'|].
    rewrite Hx. vm_compute. reflexivity.
Defined.

(** ** FixedPointSolver.forward_solve: the solver's own dependencies *)

(** Two lists related entry by entry by a relation that, on the entries of
    the first, forces equality, are equal. *)
Lemma Forall2_eq_on {A : Type} (R : A -> A -> Prop) (l k : list A) :
  Forall2 R l k ->
  (forall a b, a ∈ l -> R a b -> b = a) ->
  k = l.
Proof.
  induction 1 as [|a b l k Hab _ IH]; intros Heq; [done|].
  f_equal.
  - apply Heq; [by left|done].
  - apply IH. intros a' b' Ha'. apply Heq. by right.
Qed.

Section OwnDependencies.

Context {V BC : Type} `{!Backend V BC} {libm : PyFloat.Libm}.

(** The loop depends on the pass only through its results. *)
Lemma fixed_point_loop_ext {St : Type} (sweep1 sweep2 : St -> res (St * V))
    (what : string) (rel : float) (maxit : Z) (fuel : nat) :
  (forall s, sweep1 s = sweep2 s) ->
  forall it x_0 tol s,
    fixed_point_loop sweep1 what rel maxit fuel it x_0 tol s
    = fixed_point_loop sweep2 what rel maxit fuel it x_0 tol s.
Proof.
  intros Hext. induction fuel as [|fuel IH]; intros it x_0 tol s; [done|].
  cbn [fixed_point_loop]. rewrite Hext.
  destruct (sweep2 s) as [[s1 x]|e]; [|done].
  destruct (PyFloat.isnan _); [done|].
  destruct (converged _ _); [done|].
  destruct (it + 1 >=? maxit); [done|].
  destruct (next_tolerance_sq _ _ _ _); [|done].
  by rewrite IH.
Qed.

(** The equations of this module take their own dependencies when handed
    none. *)
Lemma forward_solve_own_dependencies (eq : Equation (V:=V) (BC:=BC))
    (x : Function) (s : store) :
  is_user_equation eq = false ->
  forward_solve eq x (Some (dependencies (eq_base eq))) s
  = forward_solve eq x None s.
Proof. by destruct eq. Qed.

Lemma forward_sweep_own_dependencies (eqs : list (Equation (V:=V) (BC:=BC)))
    (X : list Function) :
  Forall (fun eq => is_user_equation eq = false) eqs ->
  forall (pre : list (Equation (V:=V) (BC:=BC))) (s : store),
    forward_sweep eqs (length pre) X
      (Some <$> ((fun eq => dependencies (eq_base eq)) <$> pre ++ eqs)) s
    = forward_sweep eqs (length pre) X
        (replicate (length (pre ++ eqs)) None) s.
Proof.
  induction 1 as [|eq eqs Hb _ IH]; intros pre s; [done|].
  cbn [forward_sweep].
  destruct (getitem X (length pre)) as [x_i|e]; [|done]. simpl.
  assert (getitem (Some <$> ((fun eq0 => dependencies (eq_base eq0))
                               <$> pre ++ eq :: eqs)) (length pre)
          = Ok (Some (dependencies (eq_base eq)))) as ->.
  { apply getitem_Ok. rewrite !list_lookup_fmap.
    rewrite lookup_app_r by lia. by rewrite Nat.sub_diag. }
  assert (getitem (replicate (length (pre ++ eq :: eqs))
                     (None : option (list Function))) (length pre)
          = Ok None) as ->.
  { apply getitem_Ok. apply lookup_replicate. split; [done|].
    rewrite length_app. simpl. lia. }
  simpl. rewrite forward_solve_own_dependencies by done.
  destruct (forward_solve eq x_i None s) as [s1|e]; [|done]. simpl.
  specialize (IH (pre ++ [eq]) s1).
  rewrite <- app_assoc, length_app in IH. simpl in IH.
  replace (length pre + 1)%nat with (S (length pre)) in IH by lia.
  exact IH.
Qed.

(** X26. Let the identity of a Function determine the Function among the
    dependencies of a FixedPointSolver and of its members, which are
    NullSolvers, AssignmentSolvers and LinearCombinationSolvers. Then
    handing [forward_solve] the solver's own [dependencies()] as [deps] is
    the same as handing it none: the index tables give every member its
    own dependencies back. *)
Theorem FixedPointSolver_forward_solve_own_dependencies
    (eqs : list (option (Equation (V:=V) (BC:=BC))))
    (p : SolverParameters) (g : option Function)
    (fp : FixedPointSolver (V:=V) (BC:=BC)) (X : list Function) (s : store) :
  FixedPointSolver_init eqs p g = Ok fp ->
  Forall (fun eq => is_user_equation eq = false) (_eqs fp) ->
  (forall eq d d',
     eq ∈ _eqs fp -> d' ∈ dependencies (eq_base eq) ->
     d ∈ dependencies (fp_base fp) ->
     function_id d = function_id d' -> d = d') ->
  FixedPointSolver_forward_solve fp X (Some (dependencies (fp_base fp))) s
  = FixedPointSolver_forward_solve fp X None s.
Proof.
  intros Hinit Hb Hid.
  assert (select_deps (dependencies (fp_base fp)) (_eq_dep_indices fp)
            (length (_eqs fp))
          = Ok ((fun eq => dependencies (eq_base eq)) <$> _eqs fp)) as Hsel.
  { apply FixedPointSolver_init_Ok in Hinit
      as (X0 & deps0 & ids0 & _ & _ & _ & Ht0 & Hbase & Hidx & _ & _).
    apply Equation_init_Ok in Hbase as (_ & _ & _ & Hd & _).
    destruct (collect_members_table (_eqs fp)
                (mkCollected deps0 ids0 [] ∅ [] []) Ht0 ids_table_empty)
      as (Ht & _ & _ & _ & idxs & nidxs & Hi & _ & Hall & _).
    simpl in Hi. rewrite Hidx, Hi. unfold dependencies at 1. rewrite Hd.
    destruct (select_deps_table
                (c_deps (collect_members (_eqs fp)
                           (mkCollected deps0 ids0 [] ∅ [] [])))
                _ (c_deps (collect_members (_eqs fp)
                             (mkCollected deps0 ids0 [] ∅ [] [])))
                ((fun eq => dependencies (eq_base eq)) <$> _eqs fp) idxs Ht)
      as (sel & Hsel & Hrel); [done| |].
    { by apply Forall2_fmap_l. }
    rewrite length_fmap in Hsel. rewrite Hsel. f_equal.
    apply (Forall2_eq_on _ _ _ Hrel).
    intros ds vs Hds Hvs.
    apply list_elem_of_fmap in Hds as (eq & -> & Heq).
    apply (Forall2_eq_on _ _ _ Hvs).
    intros d v Hdin (k & d' & Hk & Hdid & Hv).
    rewrite Hk in Hv. injection Hv as <-.
    apply (Hid eq); [done|done| |done].
    unfold dependencies. rewrite Hd. by eapply list_elem_of_lookup_2. }
  unfold FixedPointSolver_forward_solve, FixedPointSolver_forward_setup.
  destruct (parameter "absolute_tolerance" _) as [a|]; [|done]. simpl.
  destruct (parameter "relative_tolerance" _) as [r|]; [|done]. simpl.
  destruct (parameter "maximum_iterations" _) as [mi|]; [|done]. simpl.
  destruct (parameter "nonzero_initial_guess" _) as [nz|]; [|done]. simpl.
  destruct (parameter "report" _) as [rp|]; [|done]. simpl.
  destruct (last_item X) as [x|]; [|done]. simpl.
  assert (seed_initial_guess fp nz x (Some (dependencies (fp_base fp))) s
          = seed_initial_guess fp nz x None s) as -> by done.
  destruct (seed_initial_guess fp nz x None s) as [s1|]; [|done]. simpl.
  rewrite Hsel. simpl.
  destruct (float_pow2 a) as [a_sq|]; [|done].
  apply fixed_point_loop_ext. intros s0. unfold forward_pass.
  pose proof (forward_sweep_own_dependencies (_eqs fp) X Hb [] s0) as Hsw.
  simpl in Hsw. by rewrite Hsw.
Qed.

End OwnDependencies.

Lemma FixedPointSolver_forward_solve_own_dependencies_witness :
  exists (fp : FixedPointSolver (V:=float) (BC:=float)),
    Example.relay None = Ok fp /\
    FixedPointSolver_forward_solve fp [Example.z; Example.x]
      (Some (dependencies (fp_base fp)))
      (Example.store_with (PyFloat.of_Z 3) (PyFloat.of_Z 5))
    = FixedPointSolver_forward_solve fp [Example.z; Example.x] None
        (Example.store_with (PyFloat.of_Z 3) (PyFloat.of_Z 5)).
Proof.
  eexists.
  split; [vm_compute; reflexivity|].
  lazymatch goal with
  | |- FixedPointSolver_forward_solve ?fp _ _ _ = _ => pose (solver := fp)
  end.
  lazymatch eval vm_compute in Example.relay_members with
  | Ok ?l => pose (members := l)
  end.
  assert (FixedPointSolver_init members Example.fp_parameters None
          = Ok solver) as Hinit by (vm_compute; reflexivity).
  assert (Forall (fun eq => is_user_equation eq = false) (_eqs solver)) as Hb.
  { apply Forall_cons_2; [reflexivity|].
    apply Forall_cons_2; [reflexivity|]. apply Forall_nil_2. }
  apply (FixedPointSolver_forward_solve_own_dependencies members
           Example.fp_parameters None solver _ _ Hinit Hb).
  intros eq d d' Heq Hd' Hd Hids.
  assert (d ∈ [Example.z; Example.b; Example.x]) as Hd3 by exact Hd.
  assert (d' ∈ [Example.z; Example.b; Example.x]) as Hd3'.
  { apply elem_of_cons in Heq as [->|Heq].
    - apply elem_of_cons in Hd' as [->|Hd']; [by left|].
      apply list_elem_of_singleton in Hd' as ->. right; by left.
    - apply list_elem_of_singleton in Heq as ->.
      apply elem_of_cons in Hd' as [->|Hd']; [right; right; by left|].
      apply list_elem_of_singleton in Hd' as ->. by left. }
  clear -Hd3 Hd3' Hids.
  repeat (apply elem_of_cons in Hd3 as [->|Hd3]);
    try (by apply elem_of_nil in Hd3);
    repeat (apply elem_of_cons in Hd3' as [->|Hd3']);
    try (by apply elem_of_nil in Hd3');
    first [reflexivity | discriminate Hids].
Defined.

(** * Properties of the time levels *)

Import Timestepping.

Lemma BaseTimeLevel_lt_spec (a b : BaseTimeLevel) :
  BaseTimeLevel_lt a b = true <->
  _order a < _order b \/ (_order a = _order b /\ _i a < _i b).
Proof.
  unfold BaseTimeLevel_lt.
  destruct (_order a <? _order b) eqn:H1.
  { apply Z.ltb_lt in H1. split; [auto|done]. }
  apply Z.ltb_ge in H1.
  destruct (_order a >? _order b) eqn:H2.
  { rewrite Z.gtb_ltb in H2. apply Z.ltb_lt in H2. split; [done|lia]. }
  rewrite Z.gtb_ltb in H2. apply Z.ltb_ge in H2.
  rewrite Z.ltb_lt. lia.
Qed.

Lemma BaseTimeLevel_gt_lt (a b : BaseTimeLevel) :
  BaseTimeLevel_gt a b = BaseTimeLevel_lt b a.
Proof.
  unfold BaseTimeLevel_gt, BaseTimeLevel_lt. rewrite !Z.gtb_ltb.
  destruct (_order b <? _order a) eqn:H1; [done|].
  destruct (_order a <? _order b) eqn:H2; [done|]. done.
Qed.

Lemma BaseTimeLevel_eq_spec (a b : BaseTimeLevel) :
  BaseTimeLevel_eq a b = true <-> a = b.
Proof.
  unfold BaseTimeLevel_eq. rewrite andb_true_iff, !Z.eqb_eq. split.
  - destruct a, b; simpl; intros [Ho ->]; (done || lia).
  - by intros ->.
Qed.

Lemma BaseTimeLevel_fields (a b : BaseTimeLevel) :
  _order a = _order b -> _i a = _i b -> a = b.
Proof. destruct a, b; simpl; intros Ho ->; (done || lia). Qed.

Lemma BaseTimeLevel_lt_false (a b : BaseTimeLevel) :
  BaseTimeLevel_lt a b = false <->
  _order b < _order a \/ (_order a = _order b /\ _i b <= _i a).
Proof.
  rewrite <- not_true_iff_false, BaseTimeLevel_lt_spec. lia.
Qed.

(** X19. The six comparisons of time levels agree with one strict total
    order: [==] holds exactly for equal levels; exactly one of [<], [==],
    [>] holds for any two levels; [a > b] is [b < a]; [<=] is "[<] or
    [==]" and [>=] is "[>] or [==]"; [<] is transitive; and every
    [InitialTimeLevel] is before every [TimeLevel], which is before every
    [FinalTimeLevel], whatever their offsets. *)
Theorem BaseTimeLevel_total_order (a b c : BaseTimeLevel) :
  (BaseTimeLevel_eq a b = true <-> a = b) /\
  ((BaseTimeLevel_lt a b = true /\ BaseTimeLevel_eq a b = false /\
    BaseTimeLevel_gt a b = false) \/
   (BaseTimeLevel_lt a b = false /\ BaseTimeLevel_eq a b = true /\
    BaseTimeLevel_gt a b = false) \/
   (BaseTimeLevel_lt a b = false /\ BaseTimeLevel_eq a b = false /\
    BaseTimeLevel_gt a b = true)) /\
  BaseTimeLevel_gt a b = BaseTimeLevel_lt b a /\
  BaseTimeLevel_le a b = BaseTimeLevel_lt a b || BaseTimeLevel_eq a b /\
  BaseTimeLevel_ge a b = BaseTimeLevel_gt a b || BaseTimeLevel_eq a b /\
  (BaseTimeLevel_lt a b = true -> BaseTimeLevel_lt b c = true ->
   BaseTimeLevel_lt a c = true) /\
  (forall i j k : Z,
     BaseTimeLevel_lt (InitialTimeLevel i) (TimeLevel j) = true /\
     BaseTimeLevel_lt (TimeLevel j) (FinalTimeLevel k) = true).
Proof.
  assert ((BaseTimeLevel_lt a b = true /\ BaseTimeLevel_eq a b = false /\
           BaseTimeLevel_gt a b = false) \/
          (BaseTimeLevel_lt a b = false /\ BaseTimeLevel_eq a b = true /\
           BaseTimeLevel_gt a b = false) \/
          (BaseTimeLevel_lt a b = false /\ BaseTimeLevel_eq a b = false /\
           BaseTimeLevel_gt a b = true)) as Htri.
  { rewrite BaseTimeLevel_gt_lt.
    destruct (BaseTimeLevel_lt a b) eqn:Hab;
      destruct (BaseTimeLevel_lt b a) eqn:Hba;
      destruct (BaseTimeLevel_eq a b) eqn:Heq;
      try (apply BaseTimeLevel_eq_spec in Heq; subst b);
      try apply BaseTimeLevel_lt_spec in Hab;
      try apply BaseTimeLevel_lt_spec in Hba;
      try apply BaseTimeLevel_lt_false in Hab;
      try apply BaseTimeLevel_lt_false in Hba;
      try lia; auto.
    exfalso. apply not_true_iff_false in Heq. apply Heq.
    apply BaseTimeLevel_eq_spec, BaseTimeLevel_fields; lia. }
  split; [apply BaseTimeLevel_eq_spec|]. split; [exact Htri|].
  split; [apply BaseTimeLevel_gt_lt|].
  unfold BaseTimeLevel_le, BaseTimeLevel_ge.
  split; [|split].
  - destruct Htri as [(-> & -> & ->)|[(-> & -> & ->)|(-> & -> & ->)]]; done.
  - destruct Htri as [(-> & -> & ->)|[(-> & -> & ->)|(-> & -> & ->)]]; done.
  - split.
    + rewrite !BaseTimeLevel_lt_spec. lia.
    + intros i j k. rewrite !BaseTimeLevel_lt_spec. simpl. lia.
Qed.

Lemma BaseTimeLevel_total_order_witness :
  BaseTimeLevel_lt (BaseTimeLevel_add n 3) (FinalTimeLevel (-5)) = true.
Proof.
  apply (proj1 (proj2 (proj2 (proj2 (proj2 (proj2
           (BaseTimeLevel_total_order (BaseTimeLevel_add n 3)
              (BaseTimeLevel_sub N 7) (FinalTimeLevel (-5))))))))); reflexivity.
Defined.

(** X20. Adding an offset to a time level keeps its class and adds to its
    offset: offsets accumulate, [-] undoes [+], [l - k] is [l + (-k)],
    [l + j < l + k] exactly when [j < k], and [n + j < N + k] for all [j]
    and [k]. *)
Theorem BaseTimeLevel_offsets (l : BaseTimeLevel) (j k : Z) :
  BaseTimeLevel_add (BaseTimeLevel_add l j) k = BaseTimeLevel_add l (j + k) /\
  BaseTimeLevel_sub (BaseTimeLevel_add l k) k = l /\
  BaseTimeLevel_add (BaseTimeLevel_sub l k) k = l /\
  BaseTimeLevel_sub l k = BaseTimeLevel_add l (- k) /\
  _order (BaseTimeLevel_add l k) = _order l /\
  _i (BaseTimeLevel_add l k) = _i l + k /\
  BaseTimeLevel_lt (BaseTimeLevel_add l j) (BaseTimeLevel_add l k)
  = (j <? k) /\
  BaseTimeLevel_lt (BaseTimeLevel_add n j) (BaseTimeLevel_add N k) = true.
Proof.
  split; [destruct l; simpl; f_equal; lia|].
  split; [destruct l; simpl; f_equal; lia|].
  split; [destruct l; simpl; f_equal; lia|].
  split; [destruct l; simpl; f_equal; lia|].
  split; [by destruct l|]. split; [by destruct l|]. split.
  - destruct (j <? k) eqn:Hjk.
    + apply Z.ltb_lt in Hjk. apply BaseTimeLevel_lt_spec.
      destruct l; simpl; lia.
    + apply Z.ltb_ge in Hjk. apply BaseTimeLevel_lt_false.
      destruct l; simpl; lia.
  - apply BaseTimeLevel_lt_spec. simpl. lia.
Qed.

Lemma key_not_after_total {A : Type} (key : A -> BaseTimeLevel) :
  Total (key_not_after key).
Proof.
  intros a b. unfold key_not_after. rewrite !BaseTimeLevel_lt_false. lia.
Qed.

Lemma key_not_after_trans {A : Type} (key : A -> BaseTimeLevel) :
  Transitive (key_not_after key).
Proof.
  intros a b c. unfold key_not_after. rewrite !BaseTimeLevel_lt_false. lia.
Qed.

(** A list sorted by keys that are pairwise distinct is strictly
    increasing. *)
Lemma StronglySorted_strict {A : Type} (key : A -> BaseTimeLevel)
    (l : list A) :
  StronglySorted (key_not_after key) l -> NoDup (key <$> l) ->
  StronglySorted (fun a b => BaseTimeLevel_lt (key a) (key b) = true) l.
Proof.
  induction 1 as [|a l Hl IH Ha]; intros Hnd; [constructor|].
  rewrite fmap_cons in Hnd. apply NoDup_cons in Hnd as [Hnin Hnd].
  constructor; [by apply IH|].
  rewrite Forall_forall in Ha. apply Forall_forall. intros b Hb.
  specialize (Ha b Hb). unfold key_not_after in Ha.
  apply BaseTimeLevel_lt_false in Ha. apply BaseTimeLevel_lt_spec.
  destruct (decide (key a = key b)) as [Heq|Hne].
  - exfalso. apply Hnin. rewrite Heq. apply list_elem_of_fmap. eauto.
  - destruct (decide (_order (key a) = _order (key b))) as [Ho|Ho]; [|lia].
    destruct (decide (_i (key a) = _i (key b))) as [Hi|Hi]; [|lia].
    exfalso. apply Hne. by apply BaseTimeLevel_fields.
Qed.

Lemma sorted_strict {A : Type} (key : A -> BaseTimeLevel) (l : list A) :
  NoDup (key <$> l) ->
  StronglySorted (fun a b => BaseTimeLevel_lt (key a) (key b) = true)
    (sorted key l) /\
  sorted key l ≡ₚ l.
Proof.
  intros Hnd. unfold sorted.
  pose proof (merge_sort_Permutation (key_not_after key) l) as Hp.
  split; [|done].
  apply StronglySorted_strict.
  - apply StronglySorted_merge_sort;
      [apply key_not_after_trans | apply key_not_after_total].
  - by rewrite Hp.
Qed.

(** The items of the cycle map of a [TimeLevels], in the order in which
    [TimeFunction.cycle] goes through them. *)
Lemma TimeLevels_init_cycle_map (levels : list BaseTimeLevel)
    (cycle_map : gmap BaseTimeLevel BaseTimeLevel) :
  StronglySorted (fun p q => BaseTimeLevel_lt p.1 q.1 = true)
    (_cycle_map (TimeLevels_init levels cycle_map)) /\
  NoDup (_cycle_map (TimeLevels_init levels cycle_map)).*1 /\
  (forall t s,
     (t, s) ∈ _cycle_map (TimeLevels_init levels cycle_map) <->
     cycle_map !! t = Some s).
Proof.
  unfold TimeLevels_init. simpl.
  destruct (sorted_strict fst (map_to_list cycle_map)) as [Hcs Hcp].
  { apply NoDup_fst_map_to_list. }
  split; [exact Hcs|]. split.
  - rewrite Hcp. apply NoDup_fst_map_to_list.
  - intros t s. rewrite Hcp. apply elem_of_map_to_list.
Qed.

(** X21. [TimeLevels(levels, cycle_map)] keeps exactly the levels given,
    each once, in strictly increasing order, and exactly the items of
    [cycle_map], in strictly increasing order of their target level. *)
Theorem TimeLevels_init_sorted (levels : list BaseTimeLevel)
    (cycle_map : gmap BaseTimeLevel BaseTimeLevel) :
  StronglySorted (fun a b => BaseTimeLevel_lt a b = true)
    (_levels (TimeLevels_init levels cycle_map)) /\
  (forall l, l ∈ _levels (TimeLevels_init levels cycle_map) <-> l ∈ levels) /\
  StronglySorted (fun p q => BaseTimeLevel_lt p.1 q.1 = true)
    (_cycle_map (TimeLevels_init levels cycle_map)) /\
  (forall t s,
     (t, s) ∈ _cycle_map (TimeLevels_init levels cycle_map) <->
     cycle_map !! t = Some s).
Proof.
  destruct (TimeLevels_init_cycle_map levels cycle_map) as (Hcs & _ & Hmem).
  split; [|split; [|by split]].
  - unfold TimeLevels_init. simpl. apply sorted_strict.
    rewrite list_fmap_id. apply NoDup_elements.
  - intros l. unfold TimeLevels_init, sorted. simpl.
    rewrite merge_sort_Permutation, elem_of_elements.
    apply elem_of_list_to_set.
Qed.
